(** * Model Gateway Client: the two Ollama clients of the repository

    A shallow embedding of

    - [DeepSeekAPI]  (src/deepseek-python-mobile.py, lines 32-94), and
    - [OllamaClient] (src/github_project_structure.py, lines 1292-1498),

    the two HTTP clients through which the application talks to the
    inference server, followed by the properties of the specification's
    Model Gateway Client that are settled on them.

    Python values are modelled by the type [pyval] of JSON-shaped values,
    text by sequences of Unicode code points, raised exceptions by an error
    monad that threads the receiver object ([self]) and the observable
    world (requests put on the wire, logger records, printed lines).  The
    network is a function from the request to what [requests] does with it:
    either a response object or a raised exception. *)

From Stdlib Require Import ZArith NArith List String Ascii Bool Lia.
From Stdlib Require Import DecimalString Floats.
Import ListNotations.

Set Warnings "-inexact-float,-register-all".
Set Implicit Arguments.

Local Open Scope Z_scope.

(* ===================================================================== *)
(** * Python text *)
(* ===================================================================== *)

(** A Python [str] is a sequence of code points. *)
Definition pystr : Type := list N.

(** An ASCII literal of the source, as text. *)
Definition lit (s : string) : pystr :=
  List.map N_of_ascii (list_ascii_of_string s).

Arguments lit : simpl never.

Fixpoint pystr_eqb (a b : pystr) : bool :=
  match a, b with
  | [], [] => true
  | x :: a', y :: b' => (x =? y)%N && pystr_eqb a' b'
  | _, _ => false
  end.

(** The line feed of ["\n"]. *)
Definition newline : pystr := [0x0A%N].

(** [str(n)] for an [int]. *)
Definition str_of_int (z : Z) : pystr :=
  lit (NilZero.string_of_int (Z.to_int z)).

(** [len(s)]. *)
Definition len (s : pystr) : Z := Z.of_nat (List.length s).

(** [sep.join(parts)]. *)
Fixpoint join (sep : pystr) (parts : list pystr) : pystr :=
  match parts with
  | [] => []
  | [p] => p
  | p :: rest => p ++ sep ++ join sep rest
  end.

(** [c.isspace()]: the code points [str.strip()] removes when it is called
    without an argument. *)
Definition isspace (c : N) : bool :=
  (((0x09 <=? c) && (c <=? 0x0D)) || ((0x1C <=? c) && (c <=? 0x20))
   || (c =? 0x85) || (c =? 0xA0) || (c =? 0x1680)
   || ((0x2000 <=? c) && (c <=? 0x200A))
   || (c =? 0x2028) || (c =? 0x2029) || (c =? 0x202F)
   || (c =? 0x205F) || (c =? 0x3000))%N.

Fixpoint lstrip_by (drop : N -> bool) (s : pystr) : pystr :=
  match s with
  | c :: rest => if drop c then lstrip_by drop rest else s
  | [] => []
  end.

Definition rstrip_by (drop : N -> bool) (s : pystr) : pystr :=
  rev (lstrip_by drop (rev s)).

(** [s.strip()]. *)
Definition strip (s : pystr) : pystr :=
  rstrip_by isspace (lstrip_by isspace s).

(** [s.rstrip('/')]. *)
Definition rstrip_slash (s : pystr) : pystr :=
  rstrip_by (fun c => (c =? 0x2F)%N) s.

(** [sub in s] for two strings. *)
Fixpoint starts_with (p s : pystr) : bool :=
  match p, s with
  | [], _ => true
  | a :: p', b :: s' => (a =? b)%N && starts_with p' s'
  | _ :: _, [] => false
  end.

Fixpoint substring (sub s : pystr) : bool :=
  starts_with sub s ||
  match s with
  | [] => false
  | _ :: s' => substring sub s'
  end.

(** The three pictographs the structured client puts in front of its
    failure texts. *)
Definition cross_mark : pystr := [0x274C%N].            (* U+274C *)
Definition stopwatch : pystr := [0x23F1%N; 0xFE0F%N].   (* U+23F1 U+FE0F *)
Definition electric_plug : pystr := [0x1F50C%N].        (* U+1F50C *)

(* ===================================================================== *)
(** * Python values and exceptions *)
(* ===================================================================== *)

(** The values the clients handle: what [json.loads] and [response.json()]
    produce, what is sent as a JSON payload, and what the methods return.
    A [dict] is kept as the list of its items; a key is looked up from the
    front. *)
Inductive pyval : Type :=
| PNone
| PBool (b : bool)
| PInt (z : Z)
| PFloat (f : float)
| PStr (s : pystr)
| PList (items : list pyval)
| PDict (items : list (pystr * pyval)).

(** The exception classes that can reach the clients' handlers.  All of
    them derive from [Exception]; the first three are
    [requests.exceptions.Timeout] and its two subclasses. *)
Inductive exc_class : Type :=
| Timeout | ConnectTimeout | ReadTimeout
| ConnectionError | ChunkedEncodingError | RequestException
| JSONDecodeError | UnicodeDecodeError
| AttributeError | KeyError | TypeError | OverflowError.

(** A raised exception: its class and [str(e)]. *)
Record exc : Type := Exc { exc_cls : exc_class; exc_str : pystr }.

(** [isinstance(e, requests.exceptions.Timeout)]. *)
Definition is_Timeout (e : exc) : bool :=
  match exc_cls e with
  | Timeout | ConnectTimeout | ReadTimeout => true
  | _ => false
  end.

(** [isinstance(e, json.JSONDecodeError)]. *)
Definition is_JSONDecodeError (e : exc) : bool :=
  match exc_cls e with
  | JSONDecodeError => true
  | _ => false
  end.

(** The outcome of evaluating an expression: a value or a raised
    exception. *)
Definition res (A : Type) : Type := (exc + A)%type.

Definition type_name (v : pyval) : pystr :=
  match v with
  | PNone => lit "NoneType"
  | PBool _ => lit "bool"
  | PInt _ => lit "int"
  | PFloat _ => lit "float"
  | PStr _ => lit "str"
  | PList _ => lit "list"
  | PDict _ => lit "dict"
  end.

Definition no_attribute (v : pyval) (attr : string) : exc :=
  Exc AttributeError
      (lit "'" ++ type_name v ++ lit "' object has no attribute '"
           ++ lit attr ++ lit "'").

Fixpoint lookup (k : pystr) (d : list (pystr * pyval)) : option pyval :=
  match d with
  | [] => None
  | (k', v) :: rest => if pystr_eqb k k' then Some v else lookup k rest
  end.

(** [v.get(k, default)]: only a [dict] has the method. *)
Definition py_get (v : pyval) (k : string) (default : pyval) : res pyval :=
  match v with
  | PDict d =>
      match lookup (lit k) d with
      | Some x => inr x
      | None => inr default
      end
  | _ => inl (no_attribute v "get")
  end.

(** [v[k]] for a string key [k]. *)
Definition py_getitem (v : pyval) (k : string) : res pyval :=
  match v with
  | PDict d =>
      match lookup (lit k) d with
      | Some x => inr x
      | None => inl (Exc KeyError (lit "'" ++ lit k ++ lit "'"))
      end
  | PStr _ => inl (Exc TypeError (lit "string indices must be integers"))
  | PList _ => inl (Exc TypeError (lit "list indices must be integers or slices, not str"))
  | _ => inl (Exc TypeError (lit "'" ++ type_name v ++ lit "' object is not subscriptable"))
  end.

(** The items [for x in v] goes through: the elements of a list, the keys
    of a dict, the characters of a string. *)
Definition py_iter (v : pyval) : res (list pyval) :=
  match v with
  | PList l => inr l
  | PDict d => inr (List.map (fun kv => PStr (fst kv)) d)
  | PStr s => inr (List.map (fun c => PStr [c]) s)
  | _ => inl (Exc TypeError (lit "'" ++ type_name v ++ lit "' object is not iterable"))
  end.

(** [s == v] for a string [s]: a string equals only an equal string. *)
Definition str_eq (s : pystr) (v : pyval) : bool :=
  match v with
  | PStr t => pystr_eqb s t
  | _ => false
  end.

(** [s in l] for a string [s] and a list [l]. *)
Definition str_in_list (s : pystr) (l : list pyval) : bool :=
  existsb (str_eq s) l.

(** [k in v] for a string [k]. *)
Definition py_contains (v : pyval) (k : string) : res bool :=
  match v with
  | PDict d => inr (match lookup (lit k) d with Some _ => true | None => false end)
  | PList l => inr (str_in_list (lit k) l)
  | PStr s => inr (substring (lit k) s)
  | _ => inl (Exc TypeError (lit "argument of type '" ++ type_name v ++ lit "' is not iterable"))
  end.

(** Truth value of [v] in a condition. *)
Definition py_truth (v : pyval) : bool :=
  match v with
  | PNone => false
  | PBool b => b
  | PInt z => negb (z =? 0)
  | PFloat f => negb (PrimFloat.eqb f 0%float)
  | PStr s => match s with [] => false | _ => true end
  | PList l => match l with [] => false | _ => true end
  | PDict d => match d with [] => false | _ => true end
  end.

(** [v.strip()]: only a [str] has the method. *)
Definition py_strip (v : pyval) : res pyval :=
  match v with
  | PStr s => inr (PStr (strip s))
  | _ => inl (no_attribute v "strip")
  end.

(** [float(z)] for an [int]: the nearest double, or [OverflowError]. *)
Definition float_of_int (z : Z) : res float :=
  let f := SF2Prim (SpecFloat.binary_normalize 53 1024 z 0 false) in
  if PrimFloat.is_infinity f
  then inl (Exc OverflowError (lit "int too large to convert to float"))
  else inr f.

(** [v / 1e9]. *)
Definition py_div_1e9 (v : pyval) : res float :=
  match v with
  | PInt z =>
      match float_of_int z with
      | inr f => inr (PrimFloat.div f 1e9%float)
      | inl e => inl e
      end
  | PBool b => inr (PrimFloat.div (if b then 1%float else 0%float) 1e9%float)
  | PFloat f => inr (PrimFloat.div f 1e9%float)
  | _ => inl (Exc TypeError
                  (lit "unsupported operand type(s) for /: '" ++ type_name v
                       ++ lit "' and 'float'"))
  end.

(** [[f(x) for x in l]], which stops at the first exception. *)
Fixpoint comprehension (f : pyval -> res pyval) (l : list pyval) : res (list pyval) :=
  match l with
  | [] => inr []
  | x :: rest =>
      match f x with
      | inl e => inl e
      | inr y =>
          match comprehension f rest with
          | inl e => inl e
          | inr ys => inr (y :: ys)
          end
      end
  end.

(* ===================================================================== *)
(** * The HTTP session *)
(* ===================================================================== *)

Inductive http_method : Type := GET | POST.

(** The arguments of one [session.get] or [session.post] call. *)
Record request : Type := Request {
  req_method : http_method;
  req_url : pystr;
  req_json : option pyval;      (* json=... *)
  req_timeout : option Z;       (* timeout=..., in seconds *)
  req_stream : bool             (* stream=True *)
}.

(** A line that [response.iter_lines()] yields: empty, or with what
    [json.loads] does on it. *)
Inductive line : Type :=
| EmptyLine
| Line (loads : res pyval).

(** The response object: its status, [response.text], what
    [response.json()] does, and the lines [response.iter_lines()] yields
    together with the exception, if any, that ends the iteration. *)
Record response : Type := Response {
  status_code : Z;
  text : pystr;
  json : res pyval;
  lines : list line;
  lines_fault : option exc
}.

(** What the session does with a request: the server's response, or an
    exception raised by the transport (connection refused, timeout, ...). *)
Definition session : Type := request -> res response.

(* ===================================================================== *)
(** * Effects *)
(* ===================================================================== *)

Inductive log_level : Type := INFO | WARNING | ERROR.

(** A logger call: its level, the text of the f-string with its
    placeholders, and the values that fill them. *)
Record log_record : Type := Log {
  log_lvl : log_level;
  log_fmt : string;
  log_args : list pyval
}.

(** What a client leaves behind besides its own fields. *)
Record world : Type := World {
  wire : list request;          (* requests sent, oldest first *)
  logged : list log_record;     (* logger records, oldest first *)
  printed : list pystr          (* lines printed, oldest first *)
}.

Definition empty_world : world := World [] [] [].

Section Monad.

(** The receiver object of the method. *)
Variable Self : Type.

(** A method body: from the receiver and the world to a value or a
    raised exception, with the receiver and the world as it leaves
    them.  An exception does not undo what was done before it. *)
Definition Py (A : Type) : Type := Self -> world -> res A * Self * world.

Definition ret {A} (a : A) : Py A := fun s w => (inr a, s, w).

Definition raise {A} (e : exc) : Py A := fun s w => (inl e, s, w).

Definition bind {A B} (c : Py A) (k : A -> Py B) : Py B :=
  fun s w =>
    match c s w with
    | (inr a, s', w') => k a s' w'
    | (inl e, s', w') => (inl e, s', w')
    end.

(** An expression that may raise. *)
Definition eval {A} (r : res A) : Py A :=
  match r with
  | inr a => ret a
  | inl e => raise e
  end.

(** [try: body except ...: ...]: [handlers e] is the body of the first
    clause that matches [e], if one does. *)
Definition try_except {A} (body : Py A) (handlers : exc -> option (Py A)) : Py A :=
  fun s w =>
    match body s w with
    | (inr a, s', w') => (inr a, s', w')
    | (inl e, s', w') =>
        match handlers e with
        | Some h => h s' w'
        | None => (inl e, s', w')
        end
    end.

(** [except Exception as e: h]. *)
Definition except_Exception {A} (h : exc -> Py A) : exc -> option (Py A) :=
  fun e => Some (h e).

Definition get_self : Py Self := fun s w => (inr s, s, w).

Definition set_self (s' : Self) : Py unit := fun _ w => (inr tt, s', w).

(** [self.session.get(...)] and [self.session.post(...)]. *)
Definition send (net : session) (rq : request) : Py response :=
  fun s w =>
    (net rq, s, World (wire w ++ [rq]) (logged w) (printed w)).

(** [logger.info(...)], [logger.warning(...)], [logger.error(...)]. *)
Definition log (lvl : log_level) (fmt : string) (args : list pyval) : Py unit :=
  fun s w =>
    (inr tt, s, World (wire w) (logged w ++ [Log lvl fmt args]) (printed w)).

(** [print(...)]. *)
Definition print (msg : pystr) : Py unit :=
  fun s w =>
    (inr tt, s, World (wire w) (logged w) (printed w ++ [msg])).

(** The method returns normally from this receiver and world. *)
Definition returns {A} (c : Py A) (s : Self) (w : world) : Prop :=
  exists a, fst (fst (c s w)) = inr a.

End Monad.

Arguments ret {Self A} a.
Arguments raise {Self A} e.
Arguments bind {Self A B} c k.
Arguments eval {Self A} r.
Arguments try_except {Self A} body handlers.
Arguments except_Exception {Self A} h.
Arguments get_self {Self}.
Arguments set_self {Self} s'.
Arguments send {Self} net rq.
Arguments log {Self} lvl fmt args.
Arguments print {Self} msg.
Arguments returns {Self A} c s w.

Declare Scope py_scope.
Delimit Scope py_scope with py.
Notation "x <- c ;; k" := (bind c (fun x => k))
  (at level 61, c at next level, right associativity) : py_scope.
Notation "c ;; k" := (bind c (fun _ => k))
  (at level 61, right associativity) : py_scope.

(** What a call gives back, the receiver after it, the world after it. *)
Definition result {Self A} (o : res A * Self * world) : res A := fst (fst o).
Definition self_after {Self A} (o : res A * Self * world) : Self := snd (fst o).
Definition world_after {Self A} (o : res A * Self * world) : world := snd o.

Local Open Scope py_scope.

(* ===================================================================== *)
(** * [DeepSeekAPI] (src/deepseek-python-mobile.py) *)
(* ===================================================================== *)

Module DeepSeekAPI.

(** The fields of the object, but for the session. *)
Record t : Type := Self {
  base_url : pystr;
  model_name : pystr;
  is_connected : bool
}.

(** [__init__]. *)
Definition init (base_url : pystr) : t :=
  Self base_url (lit "deepseek-r1") false.

Definition default : t := init (lit "http://localhost:11434").

(** [self.is_connected = b]. *)
Definition set_is_connected (b : bool) : Py t unit :=
  fun s w => (inr tt, Self (base_url s) (model_name s) b, w).

Definition tags_request (self : t) : request :=
  Request GET (base_url self ++ lit "/api/tags") None (Some 5) false.

Definition check_connection (net : session) : Py t pyval :=
  try_except
    (self <- get_self ;;
     response <- send net (tags_request self) ;;
     if status_code response =? 200 then
       body <- eval (json response) ;;
       models <- eval (py_get body "models" (PList [])) ;;
       entries <- eval (py_iter models) ;;
       model_names <-
         eval (comprehension (fun model => py_getitem model "name") entries) ;;
       self <- get_self ;;
       set_is_connected (str_in_list (model_name self) model_names) ;;
       self <- get_self ;;
       ret (PBool (is_connected self))
     else
       (* the function ends without a [return] *)
       ret PNone)
    (except_Exception (fun e =>
       print (lit "Connection error: " ++ exc_str e) ;;
       set_is_connected false ;;
       ret (PBool false))).

(** An entry of the conversation history, as [add_message] stores it. *)
Record message : Type := Message {
  role : pystr;
  content : pystr;
  timestamp : pystr
}.

(** One line of the transcript. *)
Definition transcript_line (msg : message) : pystr :=
  if pystr_eqb (role msg) (lit "user")
  then lit "Human: " ++ content msg
  else lit "Assistant: " ++ content msg.

(** [context[-10:]]. *)
Definition last10 (context : list message) : list message :=
  skipn (List.length context - 10) context.

(** The value of [full_prompt] when the payload is built. *)
Definition full_prompt (prompt : pystr) (context : option (list message)) : pystr :=
  match context with
  | None | Some [] => prompt
  | Some context =>
      let conversation :=
        join newline (List.map transcript_line (last10 context)) in
      conversation ++ newline ++ lit "Human: " ++ prompt
                   ++ newline ++ lit "Assistant:"
  end.

Definition payload (self : t) (full_prompt : pystr) : pyval :=
  PDict [ (lit "model", PStr (model_name self));
          (lit "prompt", PStr full_prompt);
          (lit "stream", PBool false);
          (lit "options",
            PDict [ (lit "temperature", PFloat 0.7);
                    (lit "top_p", PFloat 0.9);
                    (lit "max_tokens", PInt 2000) ]) ].

Definition generate_request (self : t) (full_prompt : pystr) : request :=
  Request POST (base_url self ++ lit "/api/generate")
          (Some (payload self full_prompt)) (Some 30) false.

Definition generate_response (net : session) (prompt : pystr)
           (context : option (list message)) : Py t pyval :=
  try_except
    (self <- get_self ;;
     response <- send net (generate_request self (full_prompt prompt context)) ;;
     if status_code response =? 200 then
       result <- eval (json response) ;;
       field <- eval (py_get result "response" (PStr [])) ;;
       eval (py_strip field)
     else
       ret (PStr (lit "Error: HTTP " ++ str_of_int (status_code response))))
    (except_Exception (fun e =>
       ret (PStr (lit "Error generating response: " ++ exc_str e)))).

End DeepSeekAPI.

(* ===================================================================== *)
(** * [OllamaClient] (src/github_project_structure.py) *)
(* ===================================================================== *)

Module OllamaClient.

(** The fields of the object, but for the session. *)
Record t : Type := Self {
  base_url : pystr;
  model : pystr
}.

(** [__init__]. *)
Definition init (base_url model : pystr) : t :=
  Self (rstrip_slash base_url) model.

Definition default : t :=
  init (lit "http://localhost:11434") (lit "deepseek-r1").

(** [kwargs.get(k, default)]. *)
Definition kwarg (kwargs : list (pystr * pyval)) (k : string) (default : pyval) : pyval :=
  match lookup (lit k) kwargs with
  | Some v => v
  | None => default
  end.

(** [model_name or self.model]. *)
Definition or_model (model_name : option pystr) (self : t) : pystr :=
  match model_name with
  | None | Some [] => model self
  | Some name => name
  end.

Definition check_connection (net : session) : Py t pyval :=
  try_except
    (self <- get_self ;;
     response <-
       send net (Request GET (base_url self ++ lit "/api/tags") None (Some 5) false) ;;
     ret (PBool (status_code response =? 200)))
    (except_Exception (fun e =>
       log WARNING "Connection check failed: {e}" [PStr (exc_str e)] ;;
       ret (PBool false))).

Definition list_models (net : session) : Py t pyval :=
  try_except
    (self <- get_self ;;
     response <-
       send net (Request GET (base_url self ++ lit "/api/tags") None None false) ;;
     if status_code response =? 200 then
       eval (json response)
     else
       log ERROR "Failed to list models: {response.status_code}"
           [PInt (status_code response)] ;;
       ret PNone)
    (except_Exception (fun e =>
       log ERROR "Error listing models: {e}" [PStr (exc_str e)] ;;
       ret PNone)).

(** The body of the loop over [response.iter_lines()]. *)
Definition pull_line (l : line) : Py t unit :=
  match l with
  | EmptyLine => ret tt
  | Line loads =>
      try_except
        (data <- eval loads ;;
         status <- eval (py_get data "status" PNone) ;;
         if py_truth status then
           shown <- eval (py_getitem data "status") ;;
           log INFO "Pull status: {data['status']}" [shown]
         else
           ret tt)
        (fun e => if is_JSONDecodeError e then Some (ret tt) else None)
  end.

Fixpoint pull_lines (ls : list line) : Py t unit :=
  match ls with
  | [] => ret tt
  | l :: rest => pull_line l ;; pull_lines rest
  end.

Definition pull_request (self : t) (model_to_pull : pystr) : request :=
  Request POST (base_url self ++ lit "/api/pull")
          (Some (PDict [(lit "name", PStr model_to_pull)])) (Some 600) true.

Definition pull_model (net : session) (model_name : option pystr) : Py t pyval :=
  self <- get_self ;;
  let model_to_pull := or_model model_name self in
  try_except
    (log INFO "Pulling model: {model_to_pull}" [PStr model_to_pull] ;;
     response <- send net (pull_request self model_to_pull) ;;
     if status_code response =? 200 then
       pull_lines (lines response) ;;
       match lines_fault response with
       | Some e => raise e
       | None => ret tt
       end ;;
       log INFO "Successfully pulled model: {model_to_pull}" [PStr model_to_pull] ;;
       ret (PBool true)
     else
       log ERROR "Failed to pull model: {response.status_code} - {response.text}"
           [PInt (status_code response); PStr (text response)] ;;
       ret (PBool false))
    (except_Exception (fun e =>
       log ERROR "Error pulling model {model_to_pull}: {e}"
           [PStr model_to_pull; PStr (exc_str e)] ;;
       ret (PBool false))).

Definition generate_params (self : t) (prompt : pystr)
           (kwargs : list (pystr * pyval)) : pyval :=
  PDict [ (lit "model", PStr (model self));
          (lit "prompt", PStr prompt);
          (lit "stream", PBool false);
          (lit "options",
            PDict [ (lit "temperature", kwarg kwargs "temperature" (PFloat 0.7));
                    (lit "top_p", kwarg kwargs "top_p" (PFloat 0.9));
                    (lit "max_tokens", kwarg kwargs "max_tokens" (PInt 2048));
                    (lit "stop", kwarg kwargs "stop" (PList [])) ]) ].

Definition timed_out_msg : pystr :=
  lit "Request timed out. The model might be processing a complex query.".

Definition generate_response (net : session) (prompt : pystr)
           (kwargs : list (pystr * pyval)) : Py t pyval :=
  try_except
    (self <- get_self ;;
     let params := generate_params self prompt kwargs in
     log INFO "Generating response for prompt length: {len(prompt)}"
         [PInt (len prompt)] ;;
     response <-
       send net (Request POST (base_url self ++ lit "/api/generate")
                         (Some params) (Some 120) false) ;;
     if status_code response =? 200 then
       result <- eval (json response) ;;
       ai_response <-
         eval (py_get result "response" (PStr (lit "No response generated"))) ;;
       has_duration <- eval (py_contains result "eval_duration") ;;
       (if has_duration : bool then
          duration <- eval (py_getitem result "eval_duration") ;;
          eval_time <- eval (py_div_1e9 duration) ;;
          log INFO "Response generated in {eval_time:.2f}s" [PFloat eval_time]
        else
          ret tt) ;;
       ret ai_response
     else
       let error_msg :=
         lit "Generation failed: " ++ str_of_int (status_code response)
             ++ lit " - " ++ text response in
       log ERROR "{error_msg}" [PStr error_msg] ;;
       ret (PStr (cross_mark ++ lit " Error: " ++ error_msg)))
    (fun e =>
       if is_Timeout e then
         (* except requests.exceptions.Timeout *)
         Some (let error_msg := timed_out_msg in
               log ERROR "{error_msg}" [PStr error_msg] ;;
               ret (PStr (stopwatch ++ lit " " ++ error_msg)))
       else
         (* except Exception as e *)
         Some (let error_msg := lit "Connection error: " ++ exc_str e in
               log ERROR "{error_msg}" [PStr error_msg] ;;
               ret (PStr (electric_plug ++ lit " " ++ error_msg)))).

Definition chat_params (self : t) (messages : list pyval)
           (kwargs : list (pystr * pyval)) : pyval :=
  PDict [ (lit "model", PStr (model self));
          (lit "messages", PList messages);
          (lit "stream", PBool false);
          (lit "options",
            PDict [ (lit "temperature", kwarg kwargs "temperature" (PFloat 0.7));
                    (lit "top_p", kwarg kwargs "top_p" (PFloat 0.9));
                    (lit "max_tokens", kwarg kwargs "max_tokens" (PInt 2048)) ]) ].

Definition chat (net : session) (messages : list pyval)
           (kwargs : list (pystr * pyval)) : Py t pyval :=
  try_except
    (self <- get_self ;;
     let params := chat_params self messages kwargs in
     response <-
       send net (Request POST (base_url self ++ lit "/api/chat")
                         (Some params) (Some 120) false) ;;
     if status_code response =? 200 then
       result <- eval (json response) ;;
       message <- eval (py_get result "message" (PDict [])) ;;
       eval (py_get message "content" (PStr (lit "No response generated")))
     else
       ret (PStr (cross_mark ++ lit " Chat error: "
                    ++ str_of_int (status_code response)
                    ++ lit " - " ++ text response)))
    (except_Exception (fun e =>
       ret (PStr (electric_plug ++ lit " Chat connection error: " ++ exc_str e)))).

Definition get_model_info (net : session) (model_name : option pystr) : Py t pyval :=
  self <- get_self ;;
  let model_to_query := or_model model_name self in
  try_except
    (response <-
       send net (Request POST (base_url self ++ lit "/api/show")
                         (Some (PDict [(lit "name", PStr model_to_query)]))
                         None false) ;;
     if status_code response =? 200 then
       eval (json response)
     else
       log ERROR "Failed to get model info: {response.status_code}"
           [PInt (status_code response)] ;;
       ret PNone)
    (except_Exception (fun e =>
       log ERROR "Error getting model info: {e}" [PStr (exc_str e)] ;;
       ret PNone)).

End OllamaClient.

(* ===================================================================== *)
(** * Auxiliary definitions: observations and the servers of the examples *)
(* ===================================================================== *)

(** Closes a goal [returns c s w] whose [c] runs to a [ret] by
    computation. *)
Ltac runs_to_ret := intros; eexists; reflexivity.

(** A session that answers every request with [r]. *)
Definition serves (r : response) : session := fun _ => inr r.

(** A session on which every request raises [e]. *)
Definition fails_with (e : exc) : session := fun _ => inl e.

(** A response whose body is the JSON document [body]. *)
Definition json_reply (status : Z) (body : pyval) : response :=
  Response status [] (inr body) [] None.

(** A response whose body is not JSON. *)
Definition text_reply (status : Z) (body : pystr) : response :=
  Response status body
           (inl (Exc JSONDecodeError (lit "Expecting value: line 1 column 1 (char 0)")))
           [] None.

(** [{"models":[{"name":"deepseek-r1"}]}]. *)
Definition tags_with_deepseek : pyval :=
  PDict [(lit "models", PList [PDict [(lit "name", PStr (lit "deepseek-r1"))]])].

(** [{"models":[{"name":"llama3"}]}]. *)
Definition tags_without_deepseek : pyval :=
  PDict [(lit "models", PList [PDict [(lit "name", PStr (lit "llama3"))]])].

Definition not_found : response := text_reply 404 (lit "404 page not found").

Definition connection_refused : exc := Exc ConnectionError (lit "Connection refused").

Definition read_timed_out : exc := Exc ReadTimeout (lit "Read timed out.").

(** The names [DeepSeekAPI.check_connection] collects from a response
    (lines 48-49 of its source), or the exception raised on the way. *)
Definition listed_names (r : response) : res (list pyval) :=
  match json r with
  | inl e => inl e
  | inr body =>
      match py_get body "models" (PList []) with
      | inl e => inl e
      | inr models =>
          match py_iter models with
          | inl e => inl e
          | inr entries =>
              comprehension (fun model => py_getitem model "name") entries
          end
      end
  end.

(** The world once [rq] has been sent. *)
Definition sent (rq : request) (w : world) : world :=
  World (wire w ++ [rq]) (logged w) (printed w).

Definition with_print (msg : pystr) (w : world) : world :=
  World (wire w) (logged w) (printed w ++ [msg]).

Definition with_log (r : log_record) (w : world) : world :=
  World (wire w) (logged w ++ [r]) (printed w).

(** What [DeepSeekAPI.generate_response] returns, from what its [try]
    block comes to. *)
Definition or_error_text (o : res pyval) : pyval :=
  match o with
  | inr v => v
  | inl e => PStr (lit "Error generating response: " ++ exc_str e)
  end.

(** Eleven messages, ["m1"] the oldest. *)
Definition eleven_messages : list DeepSeekAPI.message :=
  List.map (fun rc => DeepSeekAPI.Message (lit (fst rc)) (lit (snd rc)) (lit "12:00"))
           [ ("user", "m1"); ("assistant", "m2"); ("user", "m3");
             ("assistant", "m4"); ("user", "m5"); ("assistant", "m6");
             ("user", "m7"); ("assistant", "m8"); ("user", "m9");
             ("assistant", "m10"); ("user", "m11") ]%string.

Ltac run_generate :=
  unfold OllamaClient.generate_response, OllamaClient.chat,
         try_except, except_Exception, bind, get_self, send, log, serves, fails_with;
  simpl.

(** [{"response":" Hi there "}]. *)
Definition hi_there : pyval :=
  PDict [(lit "response", PStr (lit " Hi there "))].

(** The beginnings by which the two clients mark a result as a failure. *)
Definition failure_prefixes : list pystr :=
  [ cross_mark; stopwatch; electric_plug;
    lit "Error: HTTP "; lit "Error generating response: " ].

Definition is_failure_text (v : pyval) : bool :=
  match v with
  | PStr s => existsb (fun p => starts_with p s) failure_prefixes
  | _ => false
  end.

(** The progress events of a pull: the statuses it has logged. *)
Definition progress_events (w : world) : list pyval :=
  flat_map (fun r => if String.eqb (log_fmt r) "Pull status: {data['status']}"
                     then log_args r else [])
           (logged w).

(** A line that carries the status object [{"status": s}]. *)
Definition status_line (s : string) : line :=
  Line (inr (PDict [(lit "status", PStr (lit s))])).

(** A line that is not JSON. *)
Definition garbled_line : line :=
  Line (inl (Exc JSONDecodeError (lit "Expecting value: line 1 column 1 (char 0)"))).

(** A 200 response that streams [ls] and then ends. *)
Definition stream_reply (ls : list line) : response :=
  Response 200 [] (inl (Exc JSONDecodeError (lit "Extra data"))) ls None.

Ltac run_pull :=
  unfold OllamaClient.pull_model, try_except, except_Exception, bind, get_self, send, log;
  simpl.

(* ===================================================================== *)
(** * Helper utilities (src/github_project_structure.py, [HELPERS_CODE]) *)
(* ===================================================================== *)

Module Helpers.

(** [text[:k]]: a negative bound counts from the end. *)
Definition slice_to (text : pystr) (k : Z) : pystr :=
  if k <? 0
  then firstn (Z.to_nat (Z.max 0 (len text + k))) text
  else firstn (Z.to_nat k) text.

Definition truncate_text (text : pystr) (max_length : Z) : pystr :=
  if len text <=? max_length then text
  else slice_to text (max_length - 3) ++ lit "...".

(** [s.replace(c, by)] for a one-character [c]. *)
Definition replace_char (c : N) (by_text : pystr) (s : pystr) : pystr :=
  flat_map (fun x => if (x =? c)%N then by_text else [x]) s.

(** [html.escape(s)], with its default [quote=True]: the ampersand first,
    then the angle brackets, the double quote and the single quote. *)
Definition html_escape (s : pystr) : pystr :=
  let s := replace_char 0x26 (lit "&amp;") s in
  let s := replace_char 0x3C (lit "&lt;") s in
  let s := replace_char 0x3E (lit "&gt;") s in
  let s := replace_char 0x22 (lit "&quot;") s in
  replace_char 0x27 (lit "&#x27;") s.

(** [s.replace('\r\n', '\n')]. *)
Fixpoint replace_crlf (s : pystr) : pystr :=
  match s with
  | [] => []
  | c :: rest =>
      match rest with
      | d :: rest' =>
          if ((c =? 0x0D) && (d =? 0x0A))%N
          then 0x0A%N :: replace_crlf rest'
          else c :: replace_crlf rest
      | [] => [c]
      end
  end.

(** What [re.sub(r'\n{3,}', '\n\n', ...)] leaves of a run of [n] line
    feeds. *)
Definition newline_run (n : nat) : pystr :=
  if (3 <=? n)%nat then newline ++ newline else repeat 0x0A%N n.

(** [re.sub(r'\n{3,}', '\n\n', s)], with [pending] line feeds read and not
    yet written. *)
Fixpoint limit_newlines_from (pending : nat) (s : pystr) : pystr :=
  match s with
  | [] => newline_run pending
  | c :: rest =>
      if (c =? 0x0A)%N
      then limit_newlines_from (S pending) rest
      else newline_run pending ++ c :: limit_newlines_from 0 rest
  end.

Definition limit_newlines (s : pystr) : pystr := limit_newlines_from 0 s.

Definition sanitize_text (text : pystr) : pystr :=
  match text with
  | [] => []
  | _ =>
      let sanitized := html_escape text in
      let sanitized := replace_char 0x0D newline (replace_crlf sanitized) in
      limit_newlines sanitized
  end.

(** [sanitize_text] on whatever value it is handed: a falsy value gives
    the empty text, a text is sanitized, and [html.escape] fails on
    anything else. *)
Definition sanitize_value (text : pyval) : res pystr :=
  if negb (py_truth text) then inr []
  else match text with
       | PStr s => inr (sanitize_text s)
       | _ => inl (no_attribute text "replace")
       end.

(** A [datetime]. *)
Record datetime : Type := Datetime {
  year : Z; month : Z; day : Z; hour : Z; minute : Z; second : Z
}.

(** A field of [strftime] that is padded to two digits. *)
Definition two_digits (z : Z) : pystr :=
  if z <? 10 then lit "0" ++ str_of_int z else str_of_int z.

(** [dt.strftime("%H:%M")]. *)
Definition format_timestamp (dt : datetime) : pystr :=
  two_digits (hour dt) ++ lit ":" ++ two_digits (minute dt).

End Helpers.

(* ===================================================================== *)
(** * Auxiliary definitions: the lines of a pull *)
(* ===================================================================== *)

(** The record [pull_model] logs for the status [v]. *)
Definition pull_status_log (v : pyval) : log_record :=
  Log INFO "Pull status: {data['status']}" [v].

(** The status a line reports, if it is an object with a truthy [status]. *)
Definition line_statuses (l : line) : list pyval :=
  match l with
  | Line (inr (PDict d)) =>
      match lookup (lit "status") d with
      | Some v => if py_truth v then [v] else []
      | None => []
      end
  | _ => []
  end.

(** The lines the loop of [pull_model] gets through: empty lines, lines
    on which [json.loads] raises [JSONDecodeError], and JSON objects. *)
Definition readable_line (l : line) : bool :=
  match l with
  | EmptyLine => true
  | Line (inl e) => is_JSONDecodeError e
  | Line (inr (PDict _)) => true
  | Line (inr _) => false
  end.

(** No text of [forbidden] occurs in [s]. *)
Definition free_of (forbidden : list N) (s : pystr) : Prop :=
  forall c, In c forbidden -> ~ In c s.

(** Takes apart the next [match] of the goal. *)
Ltac break_match :=
  match goal with
  | |- context [match ?x with _ => _ end] =>
      lazymatch x with
      | context [match _ with _ => _ end] => fail
      | _ => destruct x
      end
  end.

(** What [list_models] and [get_model_info] make of the transport's
    outcome. *)
Definition document_or_None (o : res response) : pyval :=
  match o with
  | inl _ => PNone
  | inr r =>
      if status_code r =? 200
      then match json r with
           | inr v => v
           | inl _ => PNone
           end
      else PNone
  end.

(** With [k] line feeds just before it, [s] nowhere completes a run of
    three line feeds. *)
Fixpoint newline_runs_short (k : nat) (s : pystr) : bool :=
  match s with
  | [] => true
  | c :: rest =>
      if (c =? 0x0A)%N
      then (k <? 2)%nat && newline_runs_short (S k) rest
      else newline_runs_short 0 rest
  end.

(** Three line feeds in a row. *)
Definition three_newlines : pystr := newline ++ newline ++ newline.

(* ===================================================================== *)
(** * [ChatScreen] (src/deepseek-python-mobile.py): the conversation *)
(* ===================================================================== *)

(** Runs a method of a part of the receiver (here: of its client). *)
Definition on_part {S P A : Type} (part : S -> P) (with_part : P -> S -> S)
           (c : Py P A) : Py S A :=
  fun s w =>
    match c (part s) w with
    | (r, p', w') => (r, with_part p' s, w')
    end.

Module ChatScreen.

(** The two colours of the connection button: [[1, 0, 0, 1]] and
    [[0, 1, 0, 1]]. *)
Inductive color : Type := red | green.

(** A [MessageBubble] that has been built; [bubble_id] tells the objects
    apart. *)
Record bubble : Type := Bubble {
  bubble_id : nat;
  bubble_text : pystr;
  bubble_is_user : bool;
  bubble_timestamp : pystr
}.

(** The fields of the screen that its methods read and write: the client,
    the history, the children of [messages_layout] (oldest first), the
    text of the input field, the colour of the connection button, and the
    number of bubbles built so far. *)
Record t : Type := Screen {
  api : DeepSeekAPI.t;
  conversation_history : list DeepSeekAPI.message;
  messages_layout : list bubble;
  text_input : pystr;
  connection_btn : color;
  bubbles_built : nat
}.

Definition greeting : pystr :=
  lit "Hello! I'm DeepSeek R1. How can I help you today?".

(** The text of the typing indicator, as the source file holds it. *)
Definition typing_text : pystr :=
  [0x201A; 0xF3; 0xE8; 0x20; 0x201A; 0xF3; 0xE8; 0x20; 0x201A; 0xF3; 0xE8; 0x20]%N
    ++ lit "Thinking...".

(** What [__init__] sets before [build_ui] runs. *)
Definition blank : t := Screen DeepSeekAPI.default [] [] [] red 0.

Definition with_api (a : DeepSeekAPI.t) (s : t) : t :=
  Screen a (conversation_history s) (messages_layout s) (text_input s)
         (connection_btn s) (bubbles_built s).

Definition on_api {A : Type} (c : Py DeepSeekAPI.t A) : Py t A :=
  on_part api with_api c.

(** [self.messages_layout.add_widget(b)]. *)
Definition add_widget (b : bubble) : Py t unit :=
  fun s w =>
    (inr tt,
     Screen (api s) (conversation_history s) (messages_layout s ++ [b]) (text_input s)
            (connection_btn s) (bubbles_built s),
     w).

(** [self.messages_layout.remove_widget(b)]. *)
Definition remove_widget (b : bubble) : Py t unit :=
  fun s w =>
    (inr tt,
     Screen (api s) (conversation_history s)
            (filter (fun x => negb (bubble_id x =? bubble_id b)%nat) (messages_layout s))
            (text_input s) (connection_btn s) (bubbles_built s),
     w).

(** [self.conversation_history.append(msg)]. *)
Definition append_history (msg : DeepSeekAPI.message) : Py t unit :=
  fun s w =>
    (inr tt,
     Screen (api s) (conversation_history s ++ [msg]) (messages_layout s) (text_input s)
            (connection_btn s) (bubbles_built s),
     w).

(** [self.text_input.text = text]. *)
Definition set_text_input (text : pystr) : Py t unit :=
  fun s w =>
    (inr tt,
     Screen (api s) (conversation_history s) (messages_layout s) text
            (connection_btn s) (bubbles_built s),
     w).

(** [self.connection_btn.color = c]. *)
Definition set_connection_btn (c : color) : Py t unit :=
  fun s w =>
    (inr tt,
     Screen (api s) (conversation_history s) (messages_layout s) (text_input s)
            c (bubbles_built s),
     w).

Section Widgets.

(** What the constructor of [MessageBubble] does with its arguments: it
    returns, or it raises.  The constructor of the source reads
    [self.texture_size] before it looks at its arguments (lines 107-111),
    which raises on a widget without that attribute: see
    [bubble_init_raises]. *)
Variable MessageBubble_init : pystr -> bool -> pystr -> option exc.

(** [MessageBubble(message, is_user, timestamp)]. *)
Definition MessageBubble (message : pystr) (is_user : bool) (timestamp : pystr)
  : Py t bubble :=
  fun s w =>
    match MessageBubble_init message is_user timestamp with
    | Some e => (inl e, s, w)
    | None =>
        (inr (Bubble (bubbles_built s) message is_user timestamp),
         Screen (api s) (conversation_history s) (messages_layout s) (text_input s)
                (connection_btn s) (S (bubbles_built s)),
         w)
    end.

(** [add_message]; [now] is what [datetime.now()] reads. *)
Definition add_message (now : Helpers.datetime) (text : pystr) (is_user : bool)
  : Py t unit :=
  let timestamp := Helpers.format_timestamp now in
  message_bubble <- MessageBubble text is_user timestamp ;;
  add_widget message_bubble ;;
  append_history
    (DeepSeekAPI.Message (if is_user then lit "user" else lit "assistant")
                         text timestamp).

(** [build_ui], as far as the fields above go: the welcome message. *)
Definition build_ui (now : Helpers.datetime) : Py t unit :=
  add_message now greeting false.

(** [send_message]: the arguments of the thread it starts, if it starts
    one. *)
Definition send_message (now : Helpers.datetime) : Py t (option (pystr * bubble)) :=
  self <- get_self ;;
  let message := strip (text_input self) in
  match message with
  | [] => ret None
  | _ =>
      add_message now message true ;;
      set_text_input [] ;;
      typing_bubble <- MessageBubble typing_text false [] ;;
      add_widget typing_bubble ;;
      ret (Some (message, typing_bubble))
  end.

(** [update_with_response]. *)
Definition update_with_response (now : Helpers.datetime) (response : pystr)
           (typing_bubble : bubble) : Py t unit :=
  remove_widget typing_bubble ;;
  add_message now response false.

(** [get_ai_response], with the update it schedules on the main thread run
    at once.  [generate_response] returns a text in every case; a value
    of another kind could not be shown. *)
Definition get_ai_response (net : session) (now : Helpers.datetime)
           (user_message : pystr) (typing_bubble : bubble) : Py t unit :=
  self <- get_self ;;
  response <-
    on_api (DeepSeekAPI.generate_response net user_message
                                          (Some (conversation_history self))) ;;
  match response with
  | PStr text => update_with_response now text typing_bubble
  | _ => raise (Exc TypeError (lit "the response is not a text"))
  end.

(** One exchange: [send_message], then the thread it starts, with no other
    event in between. *)
Definition exchange (net : session) (now_sent now_answered : Helpers.datetime)
  : Py t unit :=
  started <- send_message now_sent ;;
  match started with
  | None => ret tt
  | Some (message, typing_bubble) =>
      get_ai_response net now_answered message typing_bubble
  end.

(** [clear_chat]. *)
Definition clear_chat (now : Helpers.datetime) : Py t unit :=
  fun s w =>
    add_message now greeting false
                (Screen (api s) [] [] (text_input s) (connection_btn s) (bubbles_built s))
                w.

End Widgets.

(** [update_connection_status]. *)
Definition update_connection_status (is_connected : pyval) : Py t unit :=
  if py_truth is_connected then set_connection_btn green else set_connection_btn red.

(** [check_connection], with the update it schedules run at once. *)
Definition check_connection (net : session) : Py t unit :=
  is_connected <- on_api (DeepSeekAPI.check_connection net) ;;
  update_connection_status is_connected.

(** [save_settings] of the settings popup. *)
Definition save_settings (net : session) (url_input model_input : pystr) : Py t unit :=
  fun s w =>
    check_connection
      net
      (with_api (DeepSeekAPI.Self url_input model_input
                                  (DeepSeekAPI.is_connected (api s))) s)
      w.

End ChatScreen.

(** The bubbles of the screen are the messages of its history, in order,
    and each was built before the next bubble to come. *)
Definition shows_history (s : ChatScreen.t) : Prop :=
  List.map ChatScreen.bubble_text (ChatScreen.messages_layout s) =
    List.map DeepSeekAPI.content (ChatScreen.conversation_history s) /\
  forall b, In b (ChatScreen.messages_layout s) ->
            (ChatScreen.bubble_id b < ChatScreen.bubbles_built s)%nat.

(** A widget constructor that returns for every message. *)
Definition builds_every_bubble (init : pystr -> bool -> pystr -> option exc) : Prop :=
  forall message is_user timestamp, init message is_user timestamp = None.

(** Whether the constructor returns on these arguments. *)
Definition builds (init : pystr -> bool -> pystr -> option exc)
           (message : pystr) (is_user : bool) (timestamp : pystr) : bool :=
  match init message is_user timestamp with
  | None => true
  | Some _ => false
  end.

(** A quarter past nine, and a minute later. *)
Definition at_0915 : Helpers.datetime := Helpers.Datetime 2024 5 17 9 15 30.
Definition at_0916 : Helpers.datetime := Helpers.Datetime 2024 5 17 9 16 2.

(** The screen once it is built, with [text] typed into the input field. *)
Definition screen_with_input (text : string) : ChatScreen.t :=
  ChatScreen.Screen
    DeepSeekAPI.default
    [DeepSeekAPI.Message (lit "assistant") ChatScreen.greeting (lit "09:00")]
    [ChatScreen.Bubble 0 ChatScreen.greeting false (lit "09:00")]
    (lit text) ChatScreen.red 1.

(* ===================================================================== *)
(** * [DeepSeekAssistantApp] (src/github_project_structure.py,
      [CHAT_INTERFACE_CODE]): the handlers of the application *)
(* ===================================================================== *)

Module DeepSeekAssistantApp.

(** A child of [chat_layout]: a [ChatMessage], or the label of a system
    message; [widget_id] tells the objects apart. *)
Inductive widget : Type :=
| ChatMessageWidget (id : nat) (text : pystr) (is_user : bool) (timestamp : pystr)
| SystemMessage (id : nat) (label_text : pystr).

Definition widget_id (x : widget) : nat :=
  match x with
  | ChatMessageWidget id _ _ _ => id
  | SystemMessage id _ => id
  end.

(** An entry of [chat_history]. *)
Record entry : Type := Entry {
  text : pyval;
  is_user : bool;
  timestamp : pystr
}.

(** The fields of the application that its handlers read and write: the
    client, the history, the connection flag, the children of
    [chat_layout] (oldest first), the text of the input field, the text
    of the status indicator, and the number of widgets built so far. *)
Record t : Type := App {
  ollama_client : OllamaClient.t;
  chat_history : list entry;
  is_connected : pyval;
  chat_layout : list widget;
  text_input : pystr;
  status_label : pystr;
  widgets_built : nat
}.

Definition connected_text : pystr :=
  lit "[color=00ff00]" ++ [0x25CF%N] ++ lit "[/color] Connected".

Definition disconnected_text : pystr :=
  lit "[color=ff0000]" ++ [0x25CF%N] ++ lit "[/color] Disconnected".

Definition connected_message : pystr := [0x2705%N] ++ lit " Connected to Ollama server".

Definition disconnected_message : pystr :=
  cross_mark ++ lit " Disconnected - Please start Ollama server".

Definition connect_first_message : pystr :=
  [0x26A0; 0xFE0F]%N ++ lit " Please connect to Ollama first".

Definition installing_message : pystr :=
  [0x1F4E6%N] ++ lit " Installing DeepSeek-R1... This may take several minutes".

Definition installed_message : pystr :=
  [0x2705%N] ++ lit " DeepSeek-R1 installed successfully!".

Definition install_failed_message : pystr := cross_mark ++ lit " Failed to install model".

Definition thinking_text : pystr := [0x1F914%N] ++ lit " DeepSeek-R1 is thinking...".

Definition cleared_message : pystr := [0x1F5D1; 0xFE0F]%N ++ lit " Chat cleared".

(** The state [__init__] and [build] leave. *)
Definition initial : t :=
  App OllamaClient.default [] (PBool false) [] [] disconnected_text 0.

Definition with_client (c : OllamaClient.t) (s : t) : t :=
  App c (chat_history s) (is_connected s) (chat_layout s) (text_input s)
      (status_label s) (widgets_built s).

Definition on_client {A : Type} (c : Py OllamaClient.t A) : Py t A :=
  on_part ollama_client with_client c.

(** [self.chat_layout.add_widget(x)]. *)
Definition add_widget (x : widget) : Py t unit :=
  fun s w =>
    (inr tt,
     App (ollama_client s) (chat_history s) (is_connected s) (chat_layout s ++ [x])
         (text_input s) (status_label s) (widgets_built s),
     w).

(** [self.chat_layout.remove_widget(x)]. *)
Definition remove_widget (x : widget) : Py t unit :=
  fun s w =>
    (inr tt,
     App (ollama_client s) (chat_history s) (is_connected s)
         (filter (fun y => negb (widget_id y =? widget_id x)%nat) (chat_layout s))
         (text_input s) (status_label s) (widgets_built s),
     w).

(** [self.chat_history.append(e)]. *)
Definition append_history (e : entry) : Py t unit :=
  fun s w =>
    (inr tt,
     App (ollama_client s) (chat_history s ++ [e]) (is_connected s) (chat_layout s)
         (text_input s) (status_label s) (widgets_built s),
     w).

(** [self.text_input.text = text]. *)
Definition set_text_input (text : pystr) : Py t unit :=
  fun s w =>
    (inr tt,
     App (ollama_client s) (chat_history s) (is_connected s) (chat_layout s)
         text (status_label s) (widgets_built s),
     w).

(** [self.is_connected = connected]. *)
Definition set_is_connected (connected : pyval) : Py t unit :=
  fun s w =>
    (inr tt,
     App (ollama_client s) (chat_history s) connected (chat_layout s)
         (text_input s) (status_label s) (widgets_built s),
     w).

(** [StatusIndicator.update_status]. *)
Definition update_status (connected : pyval) : Py t unit :=
  fun s w =>
    (inr tt,
     App (ollama_client s) (chat_history s) (is_connected s) (chat_layout s)
         (text_input s)
         (if py_truth connected then connected_text else disconnected_text)
         (widgets_built s),
     w).

(** The next widget identity. *)
Definition new_widget_id : Py t nat :=
  fun s w =>
    (inr (widgets_built s),
     App (ollama_client s) (chat_history s) (is_connected s) (chat_layout s)
         (text_input s) (status_label s) (S (widgets_built s)),
     w).

(** The markup of a system message.  The break between its two lines is
    written as an escaped backslash and [n] inside the module text of
    [CHAT_INTERFACE_CODE]: a line feed in the module that text holds. *)
Definition system_markup (timestamp text : pystr) : pystr :=
  lit "[size=12][color=888888]" ++ timestamp ++ lit "[/color][/size]" ++ newline
      ++ lit "[color=ffaa00]" ++ text ++ lit "[/color]".

(** [_add_system_message]; [now] is what [datetime.now()] reads. *)
Definition _add_system_message (now : Helpers.datetime) (text : pystr) : Py t unit :=
  let timestamp := Helpers.format_timestamp now in
  id <- new_widget_id ;;
  add_widget (SystemMessage id (system_markup timestamp text)).

(** [_update_connection_status]. *)
Definition _update_connection_status (now : Helpers.datetime) (connected : pyval)
  : Py t unit :=
  set_is_connected connected ;;
  update_status connected ;;
  if py_truth connected
  then _add_system_message now connected_message
  else _add_system_message now disconnected_message.

(** [_on_connect] and [_check_initial_connection], with the update they
    schedule run at once. *)
Definition _on_connect (net : session) (now : Helpers.datetime) : Py t unit :=
  connected <- on_client (OllamaClient.check_connection net) ;;
  _update_connection_status now connected.

Definition _check_initial_connection (net : session) (now : Helpers.datetime)
  : Py t unit :=
  connected <- on_client (OllamaClient.check_connection net) ;;
  _update_connection_status now connected.

(** [_on_install_model], with its thread run at once. *)
Definition _on_install_model (net : session) (now later : Helpers.datetime) : Py t unit :=
  self <- get_self ;;
  if negb (py_truth (is_connected self)) then
    _add_system_message now connect_first_message
  else
    _add_system_message now installing_message ;;
    success <- on_client (OllamaClient.pull_model net None) ;;
    let message :=
      if py_truth success then installed_message else install_failed_message in
    _add_system_message later message.

(** [_on_clear_chat]. *)
Definition _on_clear_chat (now : Helpers.datetime) : Py t unit :=
  fun s w =>
    _add_system_message
      now cleared_message
      (App (ollama_client s) [] (is_connected s) [] (text_input s) (status_label s)
           (widgets_built s))
      w.

Section Widgets.

(** What the constructor of [ChatMessage] does with its arguments: it
    returns, or it raises. *)
Variable ChatMessage_init : pystr -> bool -> pystr -> option exc.

(** [ChatMessage(text, is_user, timestamp)]. *)
Definition ChatMessage (text : pystr) (is_user : bool) (timestamp : pystr)
  : Py t widget :=
  match ChatMessage_init text is_user timestamp with
  | Some e => raise e
  | None =>
      id <- new_widget_id ;;
      ret (ChatMessageWidget id text is_user timestamp)
  end.

(** [_add_chat_message]. *)
Definition _add_chat_message (now : Helpers.datetime) (text : pyval) (is_user : bool)
  : Py t widget :=
  let timestamp := Helpers.format_timestamp now in
  sanitized_text <- eval (Helpers.sanitize_value text) ;;
  message_widget <- ChatMessage sanitized_text is_user timestamp ;;
  add_widget message_widget ;;
  append_history (Entry text is_user timestamp) ;;
  ret message_widget.

(** [_update_ai_response]. *)
Definition _update_ai_response (now : Helpers.datetime) (thinking_widget : widget)
           (response : pyval) : Py t unit :=
  remove_widget thinking_widget ;;
  _add_chat_message now response false ;;
  ret tt.

(** [_on_send_message], with its thread and the update it schedules run at
    once; the three times are the readings of the clock for the user's
    message (or the warning), for the thinking indicator and for the
    answer. *)
Definition _on_send_message (net : session)
           (now now_thinking now_answered : Helpers.datetime) : Py t unit :=
  self <- get_self ;;
  let message := strip (text_input self) in
  match message with
  | [] => ret tt
  | _ =>
      if negb (py_truth (is_connected self)) then
        _add_system_message now connect_first_message
      else
        set_text_input [] ;;
        _add_chat_message now (PStr message) true ;;
        thinking_widget <- _add_chat_message now_thinking (PStr thinking_text) false ;;
        response <- on_client (OllamaClient.generate_response net message []) ;;
        _update_ai_response now_answered thinking_widget response
  end.

End Widgets.

End DeepSeekAssistantApp.

(** The chat messages on the screen hold no markup: no angle bracket, no
    quote, no carriage return. *)
Definition shows_sanitized_text (s : DeepSeekAssistantApp.t) : Prop :=
  forall id shown is_user timestamp,
    In (DeepSeekAssistantApp.ChatMessageWidget id shown is_user timestamp)
       (DeepSeekAssistantApp.chat_layout s) ->
    forall c, In c [0x3C; 0x3E; 0x22; 0x27; 0x0D]%N -> ~ In c shown.

(** A method keeps a property of the receiver, whether it returns or
    raises. *)
Definition keeps {S A : Type} (P : S -> Prop) (c : Py S A) : Prop :=
  forall s w, P s -> P (self_after (c s w)).

(** The constructor of [ChatMessage] that returns for every message. *)
Definition chat_message_init_returns : pystr -> bool -> pystr -> option exc :=
  fun _ _ _ => None.

(** The application, connected or not, with [text] typed into the input
    field. *)
Definition app_with_input (connected : bool) (text : string) : DeepSeekAssistantApp.t :=
  DeepSeekAssistantApp.App
    OllamaClient.default [] (PBool connected) [] (lit text)
    (if connected then DeepSeekAssistantApp.connected_text
     else DeepSeekAssistantApp.disconnected_text)
    0.

(** A widget whose text, if it is a chat message, holds no markup. *)
Definition widget_sanitized (x : DeepSeekAssistantApp.widget) : Prop :=
  match x with
  | DeepSeekAssistantApp.ChatMessageWidget _ shown _ _ =>
      forall c, In c [0x3C; 0x3E; 0x22; 0x27; 0x0D]%N -> ~ In c shown
  | DeepSeekAssistantApp.SystemMessage _ _ => True
  end.

(** The exception of a read of [texture_size] on a widget that has no
    such attribute. *)
Definition no_texture_size : exc :=
  Exc AttributeError (lit "'MessageBubble' object has no attribute 'texture_size'").

(** A constructor of [MessageBubble] that raises for every message. *)
Definition bubble_init_raises : pystr -> bool -> pystr -> option exc :=
  fun _ _ _ => Some no_texture_size.

(* ===================================================================== *)
(** * Facts about text, values and the monad *)
(* ===================================================================== *)

Lemma pystr_eqb_refl (a : pystr) : pystr_eqb a a = true.
Proof.
  induction a as [|x a IH]; simpl; [reflexivity|].
  now rewrite N.eqb_refl, IH.
Qed.

Lemma pystr_eqb_eq (a b : pystr) : pystr_eqb a b = true <-> a = b.
Proof.
  split.
  - revert b; induction a as [|x a IH]; intros [|y b] H; simpl in H;
      try discriminate; [reflexivity|].
    apply andb_true_iff in H as [Hx Hab].
    apply N.eqb_eq in Hx. apply IH in Hab. now subst.
  - intros ->. apply pystr_eqb_refl.
Qed.

Lemma str_in_list_In (s : pystr) (l : list pyval) :
  str_in_list s l = true <-> In (PStr s) l.
Proof.
  unfold str_in_list. rewrite existsb_exists. split.
  - intros [v [Hin Heq]]. destruct v; simpl in Heq; try discriminate.
    apply pystr_eqb_eq in Heq. now subst.
  - intros Hin. exists (PStr s). split; [assumption|].
    simpl. apply pystr_eqb_refl.
Qed.

Section MonadFacts.

Variables (Self A : Type).

(** A [try] whose handlers match every exception and themselves return
    lets nothing escape. *)
Lemma try_except_returns (body : Py Self A) (handlers : exc -> option (Py Self A)) :
  (forall e, exists h, handlers e = Some h /\ forall s w, returns h s w) ->
  forall s w, returns (try_except body handlers) s w.
Proof.
  intros Hall s w. unfold returns, try_except.
  destruct (body s w) as [[[e | a] s'] w'].
  - destruct (Hall e) as [h [-> Hh]]. apply Hh.
  - exists a. reflexivity.
Qed.

Lemma except_Exception_returns (body : Py Self A) (h : exc -> Py Self A) :
  (forall e s w, returns (h e) s w) ->
  forall s w, returns (try_except body (except_Exception h)) s w.
Proof.
  intros Hh. apply try_except_returns.
  intros e. exists (h e). split; [reflexivity | apply Hh].
Qed.

End MonadFacts.

(* ===================================================================== *)
(** * No operation lets an exception escape *)
(* ===================================================================== *)

(** Claim C2.  Whatever the transport does with the request (a response of
    any status and content, a timeout, any other raised exception) and
    whatever the arguments, every operation of both clients
    ([check_connection], [list_models], [generate_response], [chat],
    [pull_model], [get_model_info]) returns a value: no exception
    reaches the caller. *)
Theorem gateway_operations_always_return (net : session) :
  (forall self w, returns (DeepSeekAPI.check_connection net) self w) /\
  (forall prompt context self w,
      returns (DeepSeekAPI.generate_response net prompt context) self w) /\
  (forall self w, returns (OllamaClient.check_connection net) self w) /\
  (forall self w, returns (OllamaClient.list_models net) self w) /\
  (forall model_name self w,
      returns (OllamaClient.pull_model net model_name) self w) /\
  (forall prompt kwargs self w,
      returns (OllamaClient.generate_response net prompt kwargs) self w) /\
  (forall messages kwargs self w,
      returns (OllamaClient.chat net messages kwargs) self w) /\
  (forall model_name self w,
      returns (OllamaClient.get_model_info net model_name) self w).
Proof.
  repeat split; intros.
  - apply except_Exception_returns. runs_to_ret.
  - apply except_Exception_returns. runs_to_ret.
  - apply except_Exception_returns. runs_to_ret.
  - apply except_Exception_returns. runs_to_ret.
  - unfold OllamaClient.pull_model, bind at 1, get_self.
    apply except_Exception_returns. runs_to_ret.
  - apply try_except_returns. intros e.
    destruct (is_Timeout e); eexists; (split; [reflexivity | runs_to_ret]).
  - apply except_Exception_returns. runs_to_ret.
  - unfold OllamaClient.get_model_info, bind at 1, get_self.
    apply except_Exception_returns. runs_to_ret.
Qed.

(* ===================================================================== *)
(** * The health check *)
(* ===================================================================== *)

(** [DeepSeekAPI.check_connection], path by path. *)
Lemma DeepSeekAPI_check_connection_run (net : session) (self : DeepSeekAPI.t) (w : world) :
  DeepSeekAPI.check_connection net self w =
  let rq := DeepSeekAPI.tags_request self in
  let failed e :=
    (inr (PBool false),
     DeepSeekAPI.Self (DeepSeekAPI.base_url self) (DeepSeekAPI.model_name self) false,
     with_print (lit "Connection error: " ++ exc_str e) (sent rq w)) in
  match net rq with
  | inl e => failed e
  | inr r =>
      if status_code r =? 200 then
        match listed_names r with
        | inl e => failed e
        | inr names =>
            let found := str_in_list (DeepSeekAPI.model_name self) names in
            (inr (PBool found),
             DeepSeekAPI.Self (DeepSeekAPI.base_url self) (DeepSeekAPI.model_name self) found,
             sent rq w)
        end
      else (inr PNone, self, sent rq w)
  end.
Proof.
  unfold DeepSeekAPI.check_connection, try_except, bind, get_self, send. simpl.
  destruct (net (DeepSeekAPI.tags_request self)) as [e | r]; simpl; [reflexivity|].
  destruct (status_code r =? 200); simpl; [|reflexivity].
  unfold listed_names.
  destruct (json r) as [e | body]; simpl; [reflexivity|].
  destruct (py_get body "models" (PList [])) as [e | models]; simpl; [reflexivity|].
  destruct (py_iter models) as [e | entries]; simpl; [reflexivity|].
  destruct (comprehension _ entries) as [e | names]; reflexivity.
Qed.

(** [OllamaClient.check_connection], path by path. *)
Lemma OllamaClient_check_connection_run (net : session) (self : OllamaClient.t) (w : world) :
  OllamaClient.check_connection net self w =
  let rq := Request GET (OllamaClient.base_url self ++ lit "/api/tags") None (Some 5) false in
  match net rq with
  | inl e =>
      (inr (PBool false), self,
       with_log (Log WARNING "Connection check failed: {e}" [PStr (exc_str e)]) (sent rq w))
  | inr r => (inr (PBool (status_code r =? 200)), self, sent rq w)
  end.
Proof.
  unfold OllamaClient.check_connection, try_except, bind, get_self, send. simpl.
  destruct (net _) as [e | r]; reflexivity.
Qed.

(** Both clients answer [False] when the transport raises. *)
Lemma check_connection_False_on_fault (e : exc) :
  (forall self w,
      result (DeepSeekAPI.check_connection (fails_with e) self w) = inr (PBool false)) /\
  (forall self w,
      result (OllamaClient.check_connection (fails_with e) self w) = inr (PBool false)).
Proof.
  split; intros.
  - now rewrite DeepSeekAPI_check_connection_run.
  - now rewrite OllamaClient_check_connection_run.
Qed.

(** Both clients answer [True] only to a response of status 200. *)
Lemma check_connection_True_only_on_200 (net : session) :
  (forall self w,
      result (DeepSeekAPI.check_connection net self w) = inr (PBool true) ->
      exists r, net (DeepSeekAPI.tags_request self) = inr r /\ status_code r = 200) /\
  (forall self w,
      result (OllamaClient.check_connection net self w) = inr (PBool true) ->
      exists r rq, net rq = inr r /\ status_code r = 200).
Proof.
  split; intros self w.
  - rewrite DeepSeekAPI_check_connection_run. cbv zeta.
    destruct (net _) as [e | r]; [discriminate|].
    destruct (status_code r =? 200) eqn:E; [|discriminate].
    intros _. exists r. split; [reflexivity | now apply Z.eqb_eq].
  - rewrite OllamaClient_check_connection_run. cbv zeta.
    destruct (net _) as [e | r] eqn:Hnet; [discriminate|].
    unfold result; simpl. intros H. injection H as H.
    eexists r, _. split; [exact Hnet | now apply Z.eqb_eq].
Qed.

(** [OllamaClient.check_connection] answers [False] to every other status. *)
Lemma OllamaClient_check_connection_False_on_other_status (r : response) :
  status_code r <> 200 ->
  forall self w,
    result (OllamaClient.check_connection (serves r) self w) = inr (PBool false).
Proof.
  intros Hs self w. rewrite OllamaClient_check_connection_run.
  unfold serves, result; simpl.
  apply Z.eqb_neq in Hs. now rewrite Hs.
Qed.

(** The two mocks of the specification. *)
Example check_connection_mock_with_model :
  result (DeepSeekAPI.check_connection (serves (json_reply 200 tags_with_deepseek))
                                       DeepSeekAPI.default empty_world)
  = inr (PBool true) /\
  result (OllamaClient.check_connection (serves (json_reply 200 tags_with_deepseek))
                                        OllamaClient.default empty_world)
  = inr (PBool true).
Proof. split; reflexivity. Qed.

Example check_connection_mock_refused :
  result (DeepSeekAPI.check_connection (fails_with connection_refused)
                                       DeepSeekAPI.default empty_world)
  = inr (PBool false) /\
  result (OllamaClient.check_connection (fails_with connection_refused)
                                        OllamaClient.default empty_world)
  = inr (PBool false).
Proof. split; reflexivity. Qed.

(** Claim C1, where the code departs from it.  When the server answers
    with a status other than 200, [DeepSeekAPI.check_connection] reaches
    the end of the function without a [return]: the caller gets [None],
    which is not the boolean [False], and [is_connected] keeps whatever
    value it had. *)
Theorem DeepSeekAPI_check_connection_None_on_other_status
        (net : session) (self : DeepSeekAPI.t) (w : world) (r : response) :
  net (DeepSeekAPI.tags_request self) = inr r ->
  status_code r <> 200 ->
  result (DeepSeekAPI.check_connection net self w) = inr PNone /\
  result (DeepSeekAPI.check_connection net self w) <> inr (PBool false) /\
  self_after (DeepSeekAPI.check_connection net self w) = self.
Proof.
  intros Hnet Hs. rewrite DeepSeekAPI_check_connection_run. cbv zeta.
  rewrite Hnet. apply Z.eqb_neq in Hs. rewrite Hs.
  repeat split. discriminate.
Qed.

Lemma DeepSeekAPI_check_connection_None_on_404 :
  result (DeepSeekAPI.check_connection (serves not_found) DeepSeekAPI.default empty_world)
  = inr PNone /\
  result (DeepSeekAPI.check_connection (serves not_found) DeepSeekAPI.default empty_world)
  <> inr (PBool false) /\
  self_after (DeepSeekAPI.check_connection (serves not_found) DeepSeekAPI.default empty_world)
  = DeepSeekAPI.default.
Proof.
  apply (@DeepSeekAPI_check_connection_None_on_other_status
           (serves not_found) DeepSeekAPI.default empty_world not_found).
  - reflexivity.
  - simpl. lia.
Defined.

(** Claim C10.  To a response of status 200, [DeepSeekAPI.check_connection]
    answers [True] only when the configured model name is one of the names
    listed in the response, and it then records itself as connected; when
    the names can be read and the configured name is not among them, it
    answers [False] and records itself as not connected. *)
Theorem DeepSeekAPI_check_connection_needs_model
        (net : session) (self : DeepSeekAPI.t) (w : world) (r : response) :
  net (DeepSeekAPI.tags_request self) = inr r ->
  status_code r = 200 ->
  let out := DeepSeekAPI.check_connection net self w in
  (result out = inr (PBool true) ->
   exists names,
     listed_names r = inr names /\
     In (PStr (DeepSeekAPI.model_name self)) names /\
     DeepSeekAPI.is_connected (self_after out) = true) /\
  (forall names,
      listed_names r = inr names ->
      ~ In (PStr (DeepSeekAPI.model_name self)) names ->
      result out = inr (PBool false) /\
      DeepSeekAPI.is_connected (self_after out) = false).
Proof.
  intros Hnet Hs out. subst out.
  rewrite DeepSeekAPI_check_connection_run. cbv zeta.
  rewrite Hnet. apply Z.eqb_eq in Hs. rewrite Hs.
  split.
  - destruct (listed_names r) as [e | names]; [discriminate|].
    unfold result, self_after; simpl. intros H. injection H as H.
    exists names. repeat split; [|assumption].
    now apply str_in_list_In.
  - intros names Hnames Hnot. rewrite Hnames.
    unfold result, self_after; simpl.
    destruct (str_in_list (DeepSeekAPI.model_name self) names) eqn:E.
    + apply str_in_list_In in E. contradiction.
    + split; reflexivity.
Qed.

Lemma DeepSeekAPI_check_connection_needs_model_witness :
  let has := DeepSeekAPI.check_connection (serves (json_reply 200 tags_with_deepseek))
                                          DeepSeekAPI.default empty_world in
  let lacks := DeepSeekAPI.check_connection (serves (json_reply 200 tags_without_deepseek))
                                            DeepSeekAPI.default empty_world in
  (exists names,
      listed_names (json_reply 200 tags_with_deepseek) = inr names /\
      In (PStr (lit "deepseek-r1")) names /\
      DeepSeekAPI.is_connected (self_after has) = true) /\
  result lacks = inr (PBool false) /\
  DeepSeekAPI.is_connected (self_after lacks) = false.
Proof.
  split.
  - apply (proj1 (@DeepSeekAPI_check_connection_needs_model
                    (serves (json_reply 200 tags_with_deepseek))
                    DeepSeekAPI.default empty_world
                    (json_reply 200 tags_with_deepseek) eq_refl eq_refl)).
    reflexivity.
  - apply (proj2 (@DeepSeekAPI_check_connection_needs_model
                    (serves (json_reply 200 tags_without_deepseek))
                    DeepSeekAPI.default empty_world
                    (json_reply 200 tags_without_deepseek) eq_refl eq_refl)
                 [PStr (lit "llama3")]).
    + reflexivity.
    + simpl. intros [H | []]. discriminate H.
Defined.

(** A server that is up but lists another model reads as not connected. *)
Example check_connection_mock_without_model :
  result (DeepSeekAPI.check_connection (serves (json_reply 200 tags_without_deepseek))
                                       DeepSeekAPI.default empty_world)
  = inr (PBool false) /\
  result (OllamaClient.check_connection (serves (json_reply 200 tags_without_deepseek))
                                        OllamaClient.default empty_world)
  = inr (PBool true).
Proof. split; reflexivity. Qed.

(** Claim C9 as stated fails on [DeepSeekAPI]: the object starts with
    [is_connected = False], and one call of [check_connection] against a
    server that lists the model leaves it with [is_connected = True]; the
    method itself has written the field. *)
Lemma DeepSeekAPI_check_connection_writes_is_connected :
  DeepSeekAPI.is_connected DeepSeekAPI.default = false /\
  DeepSeekAPI.is_connected
    (self_after (DeepSeekAPI.check_connection
                   (serves (json_reply 200 tags_with_deepseek))
                   DeepSeekAPI.default empty_world)) = true.
Proof. split; reflexivity. Qed.

(** Claim C9, amended.  [OllamaClient.check_connection] changes no field
    of the client.  [DeepSeekAPI.check_connection] stores its answer
    itself: whenever it returns a boolean, [is_connected] holds that
    boolean afterwards; it changes no other field of the object, and it
    sends the one listing request. *)
Theorem check_connection_effect_on_client (net : session) :
  (forall self w,
      self_after (OllamaClient.check_connection net self w) = self) /\
  (forall self w,
      let out := DeepSeekAPI.check_connection net self w in
      DeepSeekAPI.base_url (self_after out) = DeepSeekAPI.base_url self /\
      DeepSeekAPI.model_name (self_after out) = DeepSeekAPI.model_name self /\
      (forall b, result out = inr (PBool b) ->
                 DeepSeekAPI.is_connected (self_after out) = b) /\
      wire (world_after out) = wire w ++ [DeepSeekAPI.tags_request self]).
Proof.
  split; intros self w.
  - rewrite OllamaClient_check_connection_run. cbv zeta.
    destruct (net _); reflexivity.
  - cbv zeta. rewrite DeepSeekAPI_check_connection_run. cbv zeta.
    destruct (net _) as [e | r].
    + unfold result, self_after, world_after; simpl.
      repeat split. intros b H. now injection H as <-.
    + destruct (status_code r =? 200).
      * destruct (listed_names r) as [e | names];
          unfold result, self_after, world_after; simpl;
          repeat split; intros b H; now injection H as <-.
      * unfold result, self_after, world_after; simpl.
        repeat split. intros b H. discriminate H.
Qed.

(* ===================================================================== *)
(** * The context window *)
(* ===================================================================== *)

(** [DeepSeekAPI.generate_response], path by path. *)
Lemma DeepSeekAPI_generate_response_run
      (net : session) (prompt : pystr) (context : option (list DeepSeekAPI.message))
      (self : DeepSeekAPI.t) (w : world) :
  DeepSeekAPI.generate_response net prompt context self w =
  let rq := DeepSeekAPI.generate_request self (DeepSeekAPI.full_prompt prompt context) in
  (inr (or_error_text
          match net rq with
          | inl e => inl e
          | inr r =>
              if status_code r =? 200 then
                match json r with
                | inl e => inl e
                | inr body =>
                    match py_get body "response" (PStr []) with
                    | inl e => inl e
                    | inr field => py_strip field
                    end
                end
              else inr (PStr (lit "Error: HTTP " ++ str_of_int (status_code r)))
          end),
   self, sent rq w).
Proof.
  unfold DeepSeekAPI.generate_response, try_except, bind, get_self, send. simpl.
  destruct (net _) as [e | r]; simpl; [reflexivity|].
  destruct (status_code r =? 200); simpl; [|reflexivity].
  destruct (json r) as [e | body]; simpl; [reflexivity|].
  destruct (py_get body "response" (PStr [])) as [e | field]; simpl; [reflexivity|].
  destruct (py_strip field) as [e | v]; reflexivity.
Qed.

(** The transcript labels each message by its role. *)
Lemma transcript_line_label (msg : DeepSeekAPI.message) :
  DeepSeekAPI.transcript_line msg =
  (if pystr_eqb (DeepSeekAPI.role msg) (lit "user")
   then lit "Human: " else lit "Assistant: ") ++ DeepSeekAPI.content msg.
Proof.
  unfold DeepSeekAPI.transcript_line.
  destruct (pystr_eqb _ _); reflexivity.
Qed.

(** The prompt travels in the [prompt] field of the payload. *)
Lemma payload_prompt (self : DeepSeekAPI.t) (fp : pystr) :
  py_getitem (DeepSeekAPI.payload self fp) "prompt" = inr (PStr fp).
Proof. reflexivity. Qed.

(** A transcript followed by a line feed, line by line: every message
    gives its label, its content and a line feed. *)
Lemma transcript_lines (l : list DeepSeekAPI.message) (rest : pystr) :
  l <> [] ->
  join newline (List.map DeepSeekAPI.transcript_line l) ++ newline ++ rest =
  List.concat (List.map
            (fun msg =>
               (if pystr_eqb (DeepSeekAPI.role msg) (lit "user")
                then lit "Human: " else lit "Assistant: ")
                 ++ DeepSeekAPI.content msg ++ newline)
            l)
    ++ rest.
Proof.
  induction l as [|a l IH]; intros Hne; [contradiction|].
  destruct l as [|b l].
  - cbn [List.map join List.concat]. rewrite transcript_line_label, app_nil_r.
    now rewrite <- !app_assoc.
  - change (join newline (List.map DeepSeekAPI.transcript_line (a :: b :: l)))
      with (DeepSeekAPI.transcript_line a ++ newline
              ++ join newline (List.map DeepSeekAPI.transcript_line (b :: l))).
    rewrite <- !app_assoc. rewrite IH by discriminate.
    rewrite transcript_line_label. cbn [List.map List.concat].
    now rewrite <- !app_assoc.
Qed.

(** The prompt of a history that is not empty, line by line. *)
Lemma full_prompt_lines (h : list DeepSeekAPI.message) (p : pystr) :
  h <> [] ->
  DeepSeekAPI.full_prompt p (Some h) =
  List.concat (List.map
            (fun msg =>
               (if pystr_eqb (DeepSeekAPI.role msg) (lit "user")
                then lit "Human: " else lit "Assistant: ")
                 ++ DeepSeekAPI.content msg ++ newline)
            (skipn (List.length h - 10) h))
    ++ lit "Human: " ++ p ++ newline ++ lit "Assistant:".
Proof.
  intros Hne.
  assert (Hrecent : skipn (List.length h - 10) h <> []).
  { intros E. apply (f_equal (@List.length _)) in E.
    rewrite length_skipn in E. change (List.length (@nil DeepSeekAPI.message)) with 0%nat in E.
    assert (List.length h <> 0)%nat by (destruct h; [contradiction | discriminate]).
    lia. }
  rewrite <- transcript_lines by assumption.
  destruct h as [|m h']; [contradiction | reflexivity].
Qed.

(** What [DeepSeekAPI.generate_response] sends: one POST to the generation
    endpoint with a 30 second timeout, whose body carries the prompt in
    its [prompt] field. *)
Lemma DeepSeekAPI_generate_response_sends
      (net : session) (p : pystr) (context : option (list DeepSeekAPI.message))
      (self : DeepSeekAPI.t) (w : world) :
  exists body,
    wire (world_after (DeepSeekAPI.generate_response net p context self w)) =
      wire w ++ [Request POST (DeepSeekAPI.base_url self ++ lit "/api/generate")
                         (Some body) (Some 30) false] /\
    py_getitem body "prompt" = inr (PStr (DeepSeekAPI.full_prompt p context)).
Proof.
  exists (DeepSeekAPI.payload self (DeepSeekAPI.full_prompt p context)).
  split; [|apply payload_prompt].
  now rewrite DeepSeekAPI_generate_response_run.
Qed.

(** Claim C3.  When the history [h] has more than ten messages, the prompt
    built for the generation call holds exactly the ten last messages of
    [h], in the order of [h], each on a line of its own that starts with
    [Human: ] when the role of the message is [user] and with
    [Assistant: ] otherwise and goes on with the content of the message;
    then come the line of the new user turn and the open assistant
    marker.  Nothing of the older messages enters the prompt.  That
    prompt is what the one request of the call carries in its [prompt]
    field. *)
Theorem context_is_the_last_ten_messages
        (h : list DeepSeekAPI.message) (p : pystr) :
  (10 < List.length h)%nat ->
  exists older recent,
    h = older ++ recent /\
    List.length recent = 10%nat /\
    let line (msg : DeepSeekAPI.message) :=
      (if pystr_eqb (DeepSeekAPI.role msg) (lit "user")
       then lit "Human: " else lit "Assistant: ")
        ++ DeepSeekAPI.content msg ++ newline in
    let prompt :=
      List.concat (List.map line recent)
        ++ lit "Human: " ++ p ++ newline ++ lit "Assistant:" in
    DeepSeekAPI.full_prompt p (Some h) = prompt /\
    forall net self w,
      exists body,
        wire (world_after (DeepSeekAPI.generate_response net p (Some h) self w)) =
          wire w ++ [Request POST (DeepSeekAPI.base_url self ++ lit "/api/generate")
                             (Some body) (Some 30) false] /\
        py_getitem body "prompt" = inr (PStr prompt).
Proof.
  intros Hlen.
  assert (Hne : h <> []) by (destruct h; [simpl in Hlen; lia | discriminate]).
  exists (firstn (List.length h - 10) h), (skipn (List.length h - 10) h).
  split; [symmetry; apply firstn_skipn|].
  split; [rewrite length_skipn; lia|].
  cbv zeta. split; [now apply full_prompt_lines|].
  intros net self w.
  destruct (DeepSeekAPI_generate_response_sends net p (Some h) self w)
    as [body [Hwire Hprompt]].
  exists body. split; [exact Hwire|].
  rewrite Hprompt. now rewrite full_prompt_lines.
Qed.

Lemma context_is_the_last_ten_messages_witness :
  exists older recent,
    eleven_messages = older ++ recent /\
    List.length recent = 10%nat /\
    let line (msg : DeepSeekAPI.message) :=
      (if pystr_eqb (DeepSeekAPI.role msg) (lit "user")
       then lit "Human: " else lit "Assistant: ")
        ++ DeepSeekAPI.content msg ++ newline in
    let prompt :=
      List.concat (List.map line recent)
        ++ lit "Human: " ++ lit "next" ++ newline ++ lit "Assistant:" in
    DeepSeekAPI.full_prompt (lit "next") (Some eleven_messages) = prompt /\
    forall net self w,
      exists body,
        wire (world_after (DeepSeekAPI.generate_response
                             net (lit "next") (Some eleven_messages) self w)) =
          wire w ++ [Request POST (DeepSeekAPI.base_url self ++ lit "/api/generate")
                             (Some body) (Some 30) false] /\
        py_getitem body "prompt" = inr (PStr prompt).
Proof.
  apply (@context_is_the_last_ten_messages eleven_messages (lit "next")).
  simpl. lia.
Defined.

(** On the eleven messages the transcript starts at ["m2"]. *)
Example full_prompt_of_eleven_messages :
  DeepSeekAPI.full_prompt (lit "next") (Some eleven_messages) =
  join newline
       [ lit "Assistant: m2"; lit "Human: m3"; lit "Assistant: m4";
         lit "Human: m5"; lit "Assistant: m6"; lit "Human: m7";
         lit "Assistant: m8"; lit "Human: m9"; lit "Assistant: m10";
         lit "Human: m11"; lit "Human: next"; lit "Assistant:" ].
Proof. reflexivity. Qed.

(** A shorter history enters whole, and without one the prompt goes out
    as it is. *)
Lemma full_prompt_short_history (h : list DeepSeekAPI.message) (p : pystr) :
  (List.length h <= 10)%nat -> h <> [] ->
  DeepSeekAPI.full_prompt p (Some h) =
    join newline (List.map DeepSeekAPI.transcript_line h)
      ++ newline ++ lit "Human: " ++ p ++ newline ++ lit "Assistant:".
Proof.
  intros Hlen Hne. destruct h as [|m h']; [contradiction|].
  unfold DeepSeekAPI.full_prompt, DeepSeekAPI.last10.
  replace (List.length (m :: h') - 10)%nat with 0%nat by lia.
  reflexivity.
Qed.

Lemma full_prompt_no_history (p : pystr) :
  DeepSeekAPI.full_prompt p None = p /\ DeepSeekAPI.full_prompt p (Some []) = p.
Proof. split; reflexivity. Qed.

(* ===================================================================== *)
(** * Generation: what is returned on each path *)
(* ===================================================================== *)

(** [OllamaClient.generate_response] when the transport raises: the
    timeout text for a timeout, the connection text for anything else. *)
Lemma OllamaClient_generate_response_on_fault
      (e : exc) (prompt : pystr) (kwargs : list (pystr * pyval))
      (self : OllamaClient.t) (w : world) :
  result (OllamaClient.generate_response (fails_with e) prompt kwargs self w) =
  inr (PStr (if is_Timeout e
             then stopwatch ++ lit " " ++ OllamaClient.timed_out_msg
             else electric_plug ++ lit " " ++ lit "Connection error: " ++ exc_str e)).
Proof.
  run_generate. destruct (is_Timeout e); reflexivity.
Qed.

(** [OllamaClient.generate_response] on a status other than 200. *)
Lemma OllamaClient_generate_response_on_other_status
      (r : response) (prompt : pystr) (kwargs : list (pystr * pyval))
      (self : OllamaClient.t) (w : world) :
  status_code r <> 200 ->
  result (OllamaClient.generate_response (serves r) prompt kwargs self w) =
  inr (PStr (cross_mark ++ lit " Error: " ++ lit "Generation failed: "
               ++ str_of_int (status_code r) ++ lit " - " ++ text r)).
Proof.
  intros Hs. apply Z.eqb_neq in Hs. run_generate. now rewrite Hs.
Qed.

(** [OllamaClient.generate_response] on a 200 whose body is an object:
    the [response] field as it came, or the default text, provided the
    duration, if there is one, can be divided. *)
Lemma OllamaClient_generate_response_on_200
      (r : response) (d : list (pystr * pyval)) (prompt : pystr)
      (kwargs : list (pystr * pyval)) (self : OllamaClient.t) (w : world) :
  status_code r = 200 ->
  json r = inr (PDict d) ->
  (forall v, lookup (lit "eval_duration") d = Some v -> exists f, py_div_1e9 v = inr f) ->
  result (OllamaClient.generate_response (serves r) prompt kwargs self w) =
  inr (match lookup (lit "response") d with
       | Some v => v
       | None => PStr (lit "No response generated")
       end).
Proof.
  intros Hs Hj Hd. apply Z.eqb_eq in Hs. run_generate. rewrite Hs, Hj. simpl.
  destruct (lookup (lit "response") d) as [v |]; simpl;
    (destruct (lookup (lit "eval_duration") d) as [dur |] eqn:E; simpl;
     [destruct (Hd dur eq_refl) as [f ->]; reflexivity | reflexivity]).
Qed.

(** [OllamaClient.chat], on the same three kinds of outcome. *)
Lemma OllamaClient_chat_on_fault
      (e : exc) (messages : list pyval) (kwargs : list (pystr * pyval))
      (self : OllamaClient.t) (w : world) :
  result (OllamaClient.chat (fails_with e) messages kwargs self w) =
  inr (PStr (electric_plug ++ lit " Chat connection error: " ++ exc_str e)).
Proof. reflexivity. Qed.

Lemma OllamaClient_chat_on_other_status
      (r : response) (messages : list pyval) (kwargs : list (pystr * pyval))
      (self : OllamaClient.t) (w : world) :
  status_code r <> 200 ->
  result (OllamaClient.chat (serves r) messages kwargs self w) =
  inr (PStr (cross_mark ++ lit " Chat error: " ++ str_of_int (status_code r)
               ++ lit " - " ++ text r)).
Proof.
  intros Hs. apply Z.eqb_neq in Hs. run_generate. now rewrite Hs.
Qed.

(** [OllamaClient.chat] on a 200 whose body is an object without a
    [message], or with one that has no [content]. *)
Lemma OllamaClient_chat_without_content
      (r : response) (d : list (pystr * pyval)) (messages : list pyval)
      (kwargs : list (pystr * pyval)) (self : OllamaClient.t) (w : world) :
  status_code r = 200 ->
  json r = inr (PDict d) ->
  (lookup (lit "message") d = None \/
   exists m, lookup (lit "message") d = Some (PDict m) /\ lookup (lit "content") m = None) ->
  result (OllamaClient.chat (serves r) messages kwargs self w) =
  inr (PStr (lit "No response generated")).
Proof.
  intros Hs Hj Hm. apply Z.eqb_eq in Hs. run_generate. rewrite Hs, Hj. simpl.
  destruct Hm as [-> | [m [-> Hc]]]; simpl; [reflexivity|].
  now rewrite Hc.
Qed.

(** [DeepSeekAPI.generate_response] on a 200 whose body is an object: the
    [response] field trimmed, when it is text; the empty text when there
    is no such field. *)
Lemma DeepSeekAPI_generate_response_on_200
      (r : response) (d : list (pystr * pyval)) (prompt : pystr)
      (context : option (list DeepSeekAPI.message)) (self : DeepSeekAPI.t) (w : world) :
  status_code r = 200 ->
  json r = inr (PDict d) ->
  (forall s, lookup (lit "response") d = Some (PStr s) ->
             result (DeepSeekAPI.generate_response (serves r) prompt context self w)
             = inr (PStr (strip s))) /\
  (lookup (lit "response") d = None ->
   result (DeepSeekAPI.generate_response (serves r) prompt context self w)
   = inr (PStr [])).
Proof.
  intros Hs Hj. apply Z.eqb_eq in Hs.
  rewrite DeepSeekAPI_generate_response_run. cbv zeta.
  unfold serves, result. simpl. rewrite Hs, Hj. simpl.
  split.
  - intros s ->. reflexivity.
  - intros ->. reflexivity.
Qed.

(** [DeepSeekAPI.generate_response] on the other two kinds of outcome. *)
Lemma DeepSeekAPI_generate_response_on_fault
      (e : exc) (prompt : pystr) (context : option (list DeepSeekAPI.message))
      (self : DeepSeekAPI.t) (w : world) :
  result (DeepSeekAPI.generate_response (fails_with e) prompt context self w) =
  inr (PStr (lit "Error generating response: " ++ exc_str e)).
Proof. now rewrite DeepSeekAPI_generate_response_run. Qed.

Lemma DeepSeekAPI_generate_response_on_other_status
      (r : response) (prompt : pystr) (context : option (list DeepSeekAPI.message))
      (self : DeepSeekAPI.t) (w : world) :
  status_code r <> 200 ->
  result (DeepSeekAPI.generate_response (serves r) prompt context self w) =
  inr (PStr (lit "Error: HTTP " ++ str_of_int (status_code r))).
Proof.
  intros Hs. apply Z.eqb_neq in Hs.
  rewrite DeepSeekAPI_generate_response_run. cbv zeta.
  unfold serves, result. simpl. now rewrite Hs.
Qed.

(** The mock of the specification that answers 500. *)
Example generate_response_mock_500 :
  result (DeepSeekAPI.generate_response (serves (text_reply 500 (lit "boom")))
                                        (lit "hello") None DeepSeekAPI.default empty_world)
  = inr (PStr (lit "Error: HTTP 500")) /\
  result (OllamaClient.generate_response (serves (text_reply 500 (lit "boom")))
                                         (lit "hello") [] OllamaClient.default empty_world)
  = inr (PStr (cross_mark ++ lit " Error: Generation failed: 500 - boom")).
Proof. split; reflexivity. Qed.

(* ===================================================================== *)
(** * Generation: the claims *)
(* ===================================================================== *)

(** [DeepSeekAPI.generate_response] trims the mock's text. *)
Example DeepSeekAPI_generate_response_mock_hi_there :
  result (DeepSeekAPI.generate_response (serves (json_reply 200 hi_there))
                                        (lit "hello") None DeepSeekAPI.default empty_world)
  = inr (PStr (lit "Hi there")).
Proof. reflexivity. Qed.

(** Claim C4, where the code departs from it.  Against the mock body
    [{"response":" Hi there "}] with status 200,
    [OllamaClient.generate_response] returns the field as it came, with
    its leading and trailing blanks, and not the trimmed text
    ["Hi there"] that [DeepSeekAPI.generate_response] returns. *)
Theorem OllamaClient_generate_response_keeps_whitespace :
  result (OllamaClient.generate_response (serves (json_reply 200 hi_there))
                                         (lit "hello") [] OllamaClient.default empty_world)
  = inr (PStr (lit " Hi there ")) /\
  strip (lit " Hi there ") = lit "Hi there" /\
  lit " Hi there " <> lit "Hi there".
Proof.
  split; [reflexivity|]. split; [reflexivity|]. discriminate.
Qed.

(** The three failure texts of [OllamaClient.generate_response] begin
    with three different code points. *)
Lemma OllamaClient_failure_kinds_differ (a b c : pystr) :
  stopwatch ++ a <> electric_plug ++ b /\
  stopwatch ++ a <> cross_mark ++ c /\
  electric_plug ++ b <> cross_mark ++ c.
Proof. repeat split; discriminate. Qed.

(** The mock of the specification that never answers in time. *)
Example OllamaClient_generate_response_mock_timeout :
  result (OllamaClient.generate_response (fails_with read_timed_out)
                                         (lit "hello") [] OllamaClient.default empty_world)
  = inr (PStr (stopwatch
                 ++ lit " Request timed out. The model might be processing a complex query.")).
Proof. reflexivity. Qed.

(** Claim C5, where the code departs from it.  [DeepSeekAPI.generate_response]
    has one handler for every exception: a timeout yields the same result
    as a refused connection that carries the same text, namely
    ["Error generating response: "] followed by that text.  Nothing in
    the result tells the timeout apart. *)
Theorem DeepSeekAPI_generate_response_timeout_not_told_apart
        (detail prompt : pystr) (context : option (list DeepSeekAPI.message))
        (self : DeepSeekAPI.t) (w : world) :
  is_Timeout (Exc ReadTimeout detail) = true /\
  is_Timeout (Exc ConnectionError detail) = false /\
  result (DeepSeekAPI.generate_response
            (fails_with (Exc ReadTimeout detail)) prompt context self w)
  = inr (PStr (lit "Error generating response: " ++ detail)) /\
  result (DeepSeekAPI.generate_response
            (fails_with (Exc ReadTimeout detail)) prompt context self w)
  = result (DeepSeekAPI.generate_response
              (fails_with (Exc ConnectionError detail)) prompt context self w).
Proof.
  repeat split; now rewrite ?DeepSeekAPI_generate_response_on_fault.
Qed.

(** Claim C6, where the code departs from it.  [OllamaClient.chat] has no
    handler of its own for timeouts: a timeout yields the connection
    text, the same result as a refused connection that carries the same
    text, while [generate_response] of the same client answers the same
    timeout with its timeout text. *)
Theorem OllamaClient_chat_timeout_reported_as_connection_error
        (detail prompt : pystr) (messages : list pyval)
        (kwargs : list (pystr * pyval)) (self : OllamaClient.t) (w : world) :
  result (OllamaClient.chat (fails_with (Exc ReadTimeout detail)) messages kwargs self w)
  = inr (PStr (electric_plug ++ lit " Chat connection error: " ++ detail)) /\
  result (OllamaClient.chat (fails_with (Exc ReadTimeout detail)) messages kwargs self w)
  = result (OllamaClient.chat (fails_with (Exc ConnectionError detail)) messages kwargs self w) /\
  result (OllamaClient.generate_response
            (fails_with (Exc ReadTimeout detail)) prompt kwargs self w)
  = inr (PStr (stopwatch ++ lit " " ++ OllamaClient.timed_out_msg)).
Proof.
  split; [reflexivity | split; reflexivity].
Qed.

(** Claim C7 as stated fails: against a 200 whose body is the empty
    object, each generation operation returns its default text, which
    carries no failure mark; [OllamaClient.generate_response] returns
    what it returns when the server sends that very text as its
    response. *)
Lemma missing_field_is_not_reported_as_failure :
  let empty_body := serves (json_reply 200 (PDict [])) in
  let default_text := PStr (lit "No response generated") in
  result (OllamaClient.generate_response empty_body (lit "hello") []
                                         OllamaClient.default empty_world)
  = inr default_text /\
  result (OllamaClient.chat empty_body [] [] OllamaClient.default empty_world)
  = inr default_text /\
  result (DeepSeekAPI.generate_response empty_body (lit "hello") None
                                        DeepSeekAPI.default empty_world)
  = inr (PStr []) /\
  is_failure_text default_text = false /\
  is_failure_text (PStr []) = false /\
  result (OllamaClient.generate_response empty_body (lit "hello") []
                                         OllamaClient.default empty_world)
  = result (OllamaClient.generate_response
              (serves (json_reply 200 (PDict [(lit "response", default_text)])))
              (lit "hello") [] OllamaClient.default empty_world).
Proof. repeat split. Qed.

(** Claim C7, amended.  When a generation call receives status 200 and a
    JSON object without the expected field, the operation returns its
    default text as an ordinary result: the empty text from
    [DeepSeekAPI.generate_response]; ["No response generated"] from
    [OllamaClient.generate_response] (the duration, if the body has one,
    being a number it can divide) and from [OllamaClient.chat] (the body
    having no [message], or a [message] object without [content]). *)
Theorem missing_field_yields_default_text
        (r : response) (d : list (pystr * pyval)) :
  status_code r = 200 ->
  json r = inr (PDict d) ->
  (lookup (lit "response") d = None ->
   (forall prompt context self w,
       result (DeepSeekAPI.generate_response (serves r) prompt context self w)
       = inr (PStr [])) /\
   ((forall v, lookup (lit "eval_duration") d = Some v ->
               exists f, py_div_1e9 v = inr f) ->
    forall prompt kwargs self w,
      result (OllamaClient.generate_response (serves r) prompt kwargs self w)
      = inr (PStr (lit "No response generated")))) /\
  ((lookup (lit "message") d = None \/
    exists m, lookup (lit "message") d = Some (PDict m) /\
              lookup (lit "content") m = None) ->
   forall messages kwargs self w,
     result (OllamaClient.chat (serves r) messages kwargs self w)
     = inr (PStr (lit "No response generated"))).
Proof.
  intros Hs Hj. split.
  - intros Hnone. split.
    + intros prompt context self w.
      now apply (@DeepSeekAPI_generate_response_on_200 r d prompt context self w Hs Hj).
    + intros Hd prompt kwargs self w.
      rewrite (@OllamaClient_generate_response_on_200 r d prompt kwargs self w Hs Hj Hd).
      now rewrite Hnone.
  - intros Hm messages kwargs self w.
    now apply (@OllamaClient_chat_without_content r d messages kwargs self w Hs Hj).
Qed.

Lemma missing_field_yields_default_text_witness :
  let r := json_reply 200 (PDict [(lit "done", PBool true)]) in
  (forall prompt context self w,
      result (DeepSeekAPI.generate_response (serves r) prompt context self w)
      = inr (PStr [])) /\
  (forall prompt kwargs self w,
      result (OllamaClient.generate_response (serves r) prompt kwargs self w)
      = inr (PStr (lit "No response generated"))) /\
  (forall messages kwargs self w,
      result (OllamaClient.chat (serves r) messages kwargs self w)
      = inr (PStr (lit "No response generated"))).
Proof.
  destruct (@missing_field_yields_default_text
              (json_reply 200 (PDict [(lit "done", PBool true)]))
              [(lit "done", PBool true)] eq_refl eq_refl) as [Hgen Hchat].
  destruct (Hgen eq_refl) as [Hdeepseek Hollama].
  split; [exact Hdeepseek|]. split.
  - apply Hollama. intros v Hv. discriminate Hv.
  - apply Hchat. left. reflexivity.
Defined.

(* ===================================================================== *)
(** * Pulling a model *)
(* ===================================================================== *)

(** A line on which [json.loads] raises [JSONDecodeError] is passed over:
    the loop goes on as if the line were not there. *)
Lemma pull_line_skips_undecodable (e : exc) (self : OllamaClient.t) (w : world) :
  is_JSONDecodeError e = true ->
  OllamaClient.pull_line (Line (inl e)) self w = (inr tt, self, w).
Proof.
  intros He. unfold OllamaClient.pull_line, try_except, bind. simpl. now rewrite He.
Qed.

Lemma pull_lines_skip_undecodable (e : exc) (ls : list line)
      (self : OllamaClient.t) (w : world) :
  is_JSONDecodeError e = true ->
  OllamaClient.pull_lines (Line (inl e) :: ls) self w = OllamaClient.pull_lines ls self w.
Proof.
  intros He.
  change (OllamaClient.pull_lines (Line (inl e) :: ls))
    with (bind (OllamaClient.pull_line (Line (inl e)))
               (fun _ => OllamaClient.pull_lines ls)).
  unfold bind. now rewrite pull_line_skips_undecodable.
Qed.

(** [pull_model] answers [True] only to a response of status 200. *)
Lemma pull_model_True_only_on_200
      (net : session) (model_name : option pystr) (self : OllamaClient.t) (w : world) :
  result (OllamaClient.pull_model net model_name self w) = inr (PBool true) ->
  exists r,
    net (OllamaClient.pull_request self (OllamaClient.or_model model_name self)) = inr r /\
    status_code r = 200.
Proof.
  run_pull.
  destruct (net _) as [e | r] eqn:Hnet; simpl; [discriminate|].
  destruct (status_code r =? 200) eqn:Hs; simpl; [|discriminate].
  intros _. exists r. split; [reflexivity | now apply Z.eqb_eq].
Qed.

(** When the transport raises, [pull_model] answers [False] and no
    progress event has been produced. *)
Lemma pull_model_False_on_fault
      (e : exc) (model_name : option pystr) (self : OllamaClient.t) (w : world) :
  let out := OllamaClient.pull_model (fails_with e) model_name self w in
  result out = inr (PBool false) /\
  progress_events (world_after out) = progress_events w.
Proof.
  split; [reflexivity|].
  unfold progress_events, world_after. run_pull.
  rewrite !flat_map_app. simpl. now rewrite !app_nil_r.
Qed.

(** To a status other than 200, [pull_model] answers [False] and no
    progress event has been produced, whatever the body holds. *)
Lemma pull_model_False_on_other_status
      (r : response) (model_name : option pystr) (self : OllamaClient.t) (w : world) :
  status_code r <> 200 ->
  let out := OllamaClient.pull_model (serves r) model_name self w in
  result out = inr (PBool false) /\
  progress_events (world_after out) = progress_events w.
Proof.
  intros Hs out. subst out. apply Z.eqb_neq in Hs.
  unfold progress_events, world_after, result, serves. run_pull. rewrite Hs. simpl.
  split; [reflexivity|].
  rewrite !flat_map_app. simpl. now rewrite !app_nil_r.
Qed.

(** The two mocks of the specification: three status lines and the end
    of the stream; a 404 that carries status lines in its body. *)
Example pull_model_mock_three_lines :
  let out := OllamaClient.pull_model
               (serves (stream_reply [ status_line "pulling manifest";
                                       status_line "verifying sha256 digest";
                                       status_line "success" ]))
               None OllamaClient.default empty_world in
  result out = inr (PBool true) /\
  progress_events (world_after out) =
    [ PStr (lit "pulling manifest"); PStr (lit "verifying sha256 digest");
      PStr (lit "success") ].
Proof. split; reflexivity. Qed.

Example pull_model_mock_404 :
  let out := OllamaClient.pull_model
               (serves (Response 404 (lit "model not found")
                                 (inr (PDict [(lit "error", PStr (lit "model not found"))]))
                                 [status_line "pulling manifest"] None))
               None OllamaClient.default empty_world in
  result out = inr (PBool false) /\ progress_events (world_after out) = [].
Proof. split; reflexivity. Qed.

(** A line that is not JSON, and an empty one, between two status lines. *)
Example pull_model_passes_over_garbled_line :
  let out := OllamaClient.pull_model
               (serves (stream_reply [ status_line "pulling manifest"; garbled_line;
                                       EmptyLine; status_line "success" ]))
               None OllamaClient.default empty_world in
  result out = inr (PBool true) /\
  progress_events (world_after out) =
    [ PStr (lit "pulling manifest"); PStr (lit "success") ].
Proof. split; reflexivity. Qed.

(** Claim C8, where the code departs from it.  The inner handler of
    [pull_model] catches [JSONDecodeError] only.  A line that is JSON but
    not an object (here the line [5]) makes [data.get] raise
    [AttributeError], which leaves the loop: the status 200 stream of
    three lines that ends normally is answered with [False], and the
    status line after the malformed one is never reported. *)
Theorem pull_model_aborts_on_non_object_line :
  let out := OllamaClient.pull_model
               (serves (stream_reply [ status_line "pulling manifest";
                                       Line (inr (PInt 5));
                                       status_line "success" ]))
               None OllamaClient.default empty_world in
  result out = inr (PBool false) /\
  progress_events (world_after out) = [ PStr (lit "pulling manifest") ].
Proof. split; reflexivity. Qed.

(* ===================================================================== *)
(** * More on pulling a model *)
(* ===================================================================== *)

Lemma progress_events_logged (a : list request) (l1 l2 : list log_record) (c : list pystr) :
  progress_events (World a (l1 ++ l2) c) =
  progress_events (World a l1 c) ++ progress_events (World a l2 c).
Proof. unfold progress_events. simpl. apply flat_map_app. Qed.

Lemma progress_events_of_statuses (a : list request) (vs : list pyval) (c : list pystr) :
  progress_events (World a (List.map pull_status_log vs) c) = vs.
Proof.
  unfold progress_events. simpl.
  induction vs as [|v vs IH]; simpl; [reflexivity | now rewrite IH].
Qed.

(** The loop body on a readable line: the status, if any, is logged and
    nothing else happens. *)
Lemma pull_line_readable (l : line) (self : OllamaClient.t) (w : world) :
  readable_line l = true ->
  OllamaClient.pull_line l self w =
  (inr tt, self,
   World (wire w) (logged w ++ List.map pull_status_log (line_statuses l)) (printed w)).
Proof.
  intros Hl. destruct w as [a lg c].
  destruct l as [| [e | v]].
  - simpl. now rewrite app_nil_r.
  - simpl in Hl. rewrite pull_line_skips_undecodable by assumption.
    simpl. now rewrite app_nil_r.
  - destruct v; try discriminate Hl.
    unfold OllamaClient.pull_line, try_except, bind, log. simpl.
    destruct (lookup (lit "status") items) as [v |] eqn:E; simpl.
    + destruct (py_truth v); simpl; [reflexivity | now rewrite app_nil_r].
    + now rewrite app_nil_r.
Qed.

(** The loop body on any other line raises, and nothing has happened. *)
Lemma pull_line_unreadable (l : line) (self : OllamaClient.t) (w : world) :
  readable_line l = false ->
  exists e, OllamaClient.pull_line l self w = (inl e, self, w).
Proof.
  intros Hl. destruct l as [| [e | v]]; simpl in *; try discriminate.
  - exists e. unfold OllamaClient.pull_line, try_except, bind. simpl. now rewrite Hl.
  - exists (no_attribute v "get").
    destruct v; try discriminate; reflexivity.
Qed.

Lemma pull_lines_readable (ls : list line) (self : OllamaClient.t) (w : world) :
  forallb readable_line ls = true ->
  OllamaClient.pull_lines ls self w =
  (inr tt, self,
   World (wire w) (logged w ++ List.map pull_status_log (flat_map line_statuses ls))
         (printed w)).
Proof.
  revert w. induction ls as [|l ls IH]; intros w Hall; simpl in Hall.
  - simpl. unfold ret. destruct w; simpl. now rewrite app_nil_r.
  - apply andb_true_iff in Hall as [Hl Hls].
    change (OllamaClient.pull_lines (l :: ls))
      with (bind (OllamaClient.pull_line l) (fun _ => OllamaClient.pull_lines ls)).
    unfold bind. rewrite pull_line_readable by assumption.
    rewrite IH by assumption. simpl.
    now rewrite map_app, app_assoc.
Qed.

Lemma pull_lines_stop (pre post : list line) (bad : line)
      (self : OllamaClient.t) (w : world) :
  forallb readable_line pre = true ->
  readable_line bad = false ->
  exists e,
    OllamaClient.pull_lines (pre ++ bad :: post) self w =
    (inl e, self,
     World (wire w) (logged w ++ List.map pull_status_log (flat_map line_statuses pre))
           (printed w)).
Proof.
  revert w. induction pre as [|l pre IH]; intros w Hpre Hbad; simpl in Hpre.
  - destruct (@pull_line_unreadable bad self w Hbad) as [e He].
    exists e. simpl app.
    change (OllamaClient.pull_lines (bad :: post))
      with (bind (OllamaClient.pull_line bad) (fun _ => OllamaClient.pull_lines post)).
    unfold bind. rewrite He. destruct w; simpl. now rewrite app_nil_r.
  - apply andb_true_iff in Hpre as [Hl Hpre].
    destruct (IH (World (wire w) (logged w ++ List.map pull_status_log (line_statuses l))
                        (printed w)) Hpre Hbad) as [e He].
    exists e. simpl app.
    change (OllamaClient.pull_lines (l :: pre ++ bad :: post))
      with (bind (OllamaClient.pull_line l)
                 (fun _ => OllamaClient.pull_lines (pre ++ bad :: post))).
    unfold bind. rewrite pull_line_readable by assumption.
    rewrite He. simpl. now rewrite map_app, app_assoc.
Qed.

(** [pull_model] on a status 200 response, from what the loop comes to. *)
Lemma pull_model_on_200
      (r : response) (model_name : option pystr) (self : OllamaClient.t) (w : world) :
  status_code r = 200 ->
  OllamaClient.pull_model (serves r) model_name self w =
  let m := OllamaClient.or_model model_name self in
  let failed e :=
    with_log (Log ERROR "Error pulling model {model_to_pull}: {e}"
                  [PStr m; PStr (exc_str e)]) in
  match OllamaClient.pull_lines
          (lines r) self
          (with_log (Log INFO "Pulling model: {model_to_pull}" [PStr m])
                    (sent (OllamaClient.pull_request self m) w)) with
  | (inl e, s2, w2) => (inr (PBool false), s2, failed e w2)
  | (inr _, s2, w2) =>
      match lines_fault r with
      | Some e => (inr (PBool false), s2, failed e w2)
      | None =>
          (inr (PBool true), s2,
           with_log (Log INFO "Successfully pulled model: {model_to_pull}" [PStr m]) w2)
      end
  end.
Proof.
  intros Hs. apply Z.eqb_eq in Hs.
  unfold OllamaClient.pull_model, try_except, except_Exception, bind, get_self,
    send, log, serves, with_log, sent.
  cbn beta iota zeta. rewrite Hs. cbn [wire logged printed].
  destruct (OllamaClient.pull_lines _ _ _) as [[[e | u] s2] w2]; [reflexivity|].
  destruct (lines_fault r) as [e |]; reflexivity.
Qed.

(** X1.  Over a status 200 stream whose lines are all readable (objects,
    empty lines, lines that are not JSON), [pull_model] reports the truthy
    statuses of the object lines, each once and in the order of the
    stream, whatever was logged before; it answers [True] when the stream
    ends normally and [False] when the transport breaks it off, the
    statuses read until then having been reported all the same. *)
Theorem pull_model_reports_statuses_in_order
        (r : response) (model_name : option pystr) (self : OllamaClient.t) (w : world) :
  status_code r = 200 ->
  forallb readable_line (lines r) = true ->
  let out := OllamaClient.pull_model (serves r) model_name self w in
  progress_events (world_after out) =
    progress_events w ++ flat_map line_statuses (lines r) /\
  result out =
    inr (PBool match lines_fault r with None => true | Some _ => false end).
Proof.
  intros Hs Hall out. subst out.
  rewrite pull_model_on_200 by assumption. cbv zeta.
  rewrite pull_lines_readable by assumption.
  destruct w as [a lg c].
  destruct (lines_fault r) as [e |]; unfold world_after, result, with_log, sent; simpl;
    (split; [|reflexivity]);
    rewrite !progress_events_logged, progress_events_of_statuses;
    unfold progress_events; simpl; now rewrite !app_nil_r.
Qed.

Lemma pull_model_reports_statuses_in_order_witness :
  let r := Response 200 [] (inl (Exc JSONDecodeError []))
                    [ status_line "pulling manifest"; garbled_line; EmptyLine;
                      Line (inr (PDict [(lit "status", PStr [])]));
                      status_line "downloading" ]
                    (Some (Exc ChunkedEncodingError (lit "Connection broken"))) in
  let out := OllamaClient.pull_model (serves r) None OllamaClient.default empty_world in
  progress_events (world_after out) =
    [ PStr (lit "pulling manifest"); PStr (lit "downloading") ] /\
  result out = inr (PBool false).
Proof.
  apply (@pull_model_reports_statuses_in_order
           (Response 200 [] (inl (Exc JSONDecodeError []))
                     [ status_line "pulling manifest"; garbled_line; EmptyLine;
                       Line (inr (PDict [(lit "status", PStr [])]));
                       status_line "downloading" ]
                     (Some (Exc ChunkedEncodingError (lit "Connection broken"))))
           None OllamaClient.default empty_world).
  - reflexivity.
  - reflexivity.
Defined.

(** X2.  [pull_model] stops at the first line it cannot read (a JSON
    value that is not an object, or a line on which [json.loads] raises
    anything but [JSONDecodeError]): it answers [False], and exactly the
    statuses of the lines before that one have been reported. *)
Theorem pull_model_stops_at_first_unreadable_line
        (r : response) (pre post : list line) (bad : line)
        (model_name : option pystr) (self : OllamaClient.t) (w : world) :
  status_code r = 200 ->
  lines r = pre ++ bad :: post ->
  forallb readable_line pre = true ->
  readable_line bad = false ->
  let out := OllamaClient.pull_model (serves r) model_name self w in
  result out = inr (PBool false) /\
  progress_events (world_after out) = progress_events w ++ flat_map line_statuses pre.
Proof.
  intros Hs Hlines Hpre Hbad out. subst out.
  rewrite pull_model_on_200 by assumption. cbv zeta. rewrite Hlines.
  match goal with
  | |- context [OllamaClient.pull_lines _ ?s ?w0] =>
      destruct (@pull_lines_stop pre post bad s w0 Hpre Hbad) as [e He]; rewrite He
  end.
  destruct w as [a lg c]. unfold world_after, result, with_log, sent; simpl.
  split; [reflexivity|].
  rewrite !progress_events_logged, progress_events_of_statuses.
  unfold progress_events; simpl. now rewrite !app_nil_r.
Qed.

Lemma pull_model_stops_at_first_unreadable_line_witness :
  let r := stream_reply [ status_line "pulling manifest"; Line (inr PNone);
                          status_line "success" ] in
  let out := OllamaClient.pull_model (serves r) None OllamaClient.default empty_world in
  result out = inr (PBool false) /\
  progress_events (world_after out) = [ PStr (lit "pulling manifest") ].
Proof.
  apply (@pull_model_stops_at_first_unreadable_line
           (stream_reply [ status_line "pulling manifest"; Line (inr PNone);
                           status_line "success" ])
           [ status_line "pulling manifest" ] [ status_line "success" ]
           (Line (inr PNone)) None OllamaClient.default empty_world).
  - reflexivity.
  - reflexivity.
  - reflexivity.
  - reflexivity.
Defined.

(* ===================================================================== *)
(** * More on [OllamaClient] *)
(* ===================================================================== *)

(** The loop of [pull_model] neither touches the client nor the wire. *)
Lemma pull_lines_frame (ls : list line) (self : OllamaClient.t) (w : world) :
  self_after (OllamaClient.pull_lines ls self w) = self /\
  wire (world_after (OllamaClient.pull_lines ls self w)) = wire w.
Proof.
  revert w. induction ls as [|l ls IH]; intros w; [split; reflexivity|].
  change (OllamaClient.pull_lines (l :: ls))
    with (bind (OllamaClient.pull_line l) (fun _ => OllamaClient.pull_lines ls)).
  unfold bind.
  destruct (readable_line l) eqn:Hl.
  - rewrite pull_line_readable by assumption.
    match goal with
    | |- context [OllamaClient.pull_lines ls self ?w0] => destruct (IH w0) as [H1 H2]
    end.
    split; [exact H1 | exact H2].
  - destruct (@pull_line_unreadable l self w Hl) as [e ->]. split; reflexivity.
Qed.

(** X3.  Every operation of [OllamaClient] puts exactly one request on the
    wire, whatever the transport answers: the listing with a 5 second
    timeout for the health check and with none for [list_models], the
    streamed pull with 600 seconds, generation and chat with 120 seconds,
    the model query with none.  A missing or empty model name stands for
    the configured model.  No operation changes a field of the client. *)
Theorem OllamaClient_sends_one_request
        (net : session) (self : OllamaClient.t) (w : world) :
  let one (out : res pyval * OllamaClient.t * world) (rq : request) :=
    self_after out = self /\ wire (world_after out) = wire w ++ [rq] in
  one (OllamaClient.check_connection net self w)
      (Request GET (OllamaClient.base_url self ++ lit "/api/tags") None (Some 5) false) /\
  one (OllamaClient.list_models net self w)
      (Request GET (OllamaClient.base_url self ++ lit "/api/tags") None None false) /\
  (forall name,
      one (OllamaClient.pull_model net (Some name) self w)
          (Request POST (OllamaClient.base_url self ++ lit "/api/pull")
                   (Some (PDict [(lit "name",
                                  PStr match name with [] => OllamaClient.model self
                                                  | _ => name end)]))
                   (Some 600) true)) /\
  one (OllamaClient.pull_model net None self w)
      (Request POST (OllamaClient.base_url self ++ lit "/api/pull")
               (Some (PDict [(lit "name", PStr (OllamaClient.model self))]))
               (Some 600) true) /\
  (forall prompt kwargs,
      one (OllamaClient.generate_response net prompt kwargs self w)
          (Request POST (OllamaClient.base_url self ++ lit "/api/generate")
                   (Some (OllamaClient.generate_params self prompt kwargs))
                   (Some 120) false)) /\
  (forall messages kwargs,
      one (OllamaClient.chat net messages kwargs self w)
          (Request POST (OllamaClient.base_url self ++ lit "/api/chat")
                   (Some (OllamaClient.chat_params self messages kwargs))
                   (Some 120) false)) /\
  (forall name,
      one (OllamaClient.get_model_info net name self w)
          (Request POST (OllamaClient.base_url self ++ lit "/api/show")
                   (Some (PDict [(lit "name", PStr (OllamaClient.or_model name self))]))
                   None false)).
Proof.
  cbv zeta.
  assert (Hpull : forall name,
             self_after (OllamaClient.pull_model net name self w) = self /\
             wire (world_after (OllamaClient.pull_model net name self w)) =
             wire w ++ [OllamaClient.pull_request self (OllamaClient.or_model name self)]).
  { intros name.
    unfold OllamaClient.pull_model, try_except, except_Exception, bind, get_self, send, log.
    cbn beta iota zeta. cbn [wire logged printed].
    destruct (net _) as [e | r]; [split; reflexivity|].
    destruct (status_code r =? 200); [|split; reflexivity].
    match goal with
    | |- context [OllamaClient.pull_lines ?ls ?s ?w0] =>
        destruct (@pull_lines_frame ls s w0) as [Hself Hwire];
        destruct (OllamaClient.pull_lines ls s w0) as [[[e | u] s2] w2]
    end; unfold self_after, world_after in *; simpl in *; subst.
    - split; [reflexivity | now rewrite Hwire].
    - destruct (lines_fault r); simpl; (split; [reflexivity | now rewrite Hwire]). }
  repeat split.
  - rewrite OllamaClient_check_connection_run. cbv zeta. now destruct (net _).
  - rewrite OllamaClient_check_connection_run. cbv zeta. now destruct (net _).
  - unfold OllamaClient.list_models, try_except, except_Exception, bind, get_self, send,
      log, eval, ret, raise.
    simpl. repeat (break_match; simpl); reflexivity.
  - unfold OllamaClient.list_models, try_except, except_Exception, bind, get_self, send,
      log, eval, ret, raise.
    simpl. repeat (break_match; simpl); reflexivity.
  - exact (proj1 (Hpull (Some name))).
  - destruct name; exact (proj2 (Hpull (Some _))).
  - exact (proj1 (Hpull None)).
  - exact (proj2 (Hpull None)).
  - run_generate. unfold eval, ret, raise. repeat (break_match; simpl); reflexivity.
  - run_generate. unfold eval, ret, raise. repeat (break_match; simpl); reflexivity.
  - run_generate. unfold eval, ret, raise. repeat (break_match; simpl); reflexivity.
  - run_generate. unfold eval, ret, raise. repeat (break_match; simpl); reflexivity.
  - unfold OllamaClient.get_model_info, try_except, except_Exception, bind, get_self,
      send, log, eval, ret, raise.
    simpl. repeat (break_match; simpl); reflexivity.
  - unfold OllamaClient.get_model_info, try_except, except_Exception, bind, get_self,
      send, log, eval, ret, raise.
    simpl. repeat (break_match; simpl); reflexivity.
Qed.

Ltac run_listing :=
  unfold OllamaClient.list_models, OllamaClient.get_model_info, try_except,
    except_Exception, bind, get_self, send, log, eval, ret, raise;
  simpl.

(** X4.  [list_models] and [get_model_info] hand back the JSON document of
    a status 200 response untouched; they answer [None] in every other
    case (the transport raised, another status, a body that is not JSON).
    So an answer other than [None] is always a document the server sent
    with status 200, and an answer [None] is what a server that sends the
    document [null] gets as well. *)
Theorem listing_returns_document_or_None
        (net : session) (name : option pystr) (self : OllamaClient.t) (w : world) :
  let tags := Request GET (OllamaClient.base_url self ++ lit "/api/tags") None None false in
  let show := Request POST (OllamaClient.base_url self ++ lit "/api/show")
                      (Some (PDict [(lit "name", PStr (OllamaClient.or_model name self))]))
                      None false in
  result (OllamaClient.list_models net self w) = inr (document_or_None (net tags)) /\
  result (OllamaClient.get_model_info net name self w) = inr (document_or_None (net show)) /\
  (forall rq v,
      document_or_None (net rq) = v -> v <> PNone ->
      exists r, net rq = inr r /\ status_code r = 200 /\ json r = inr v) /\
  (forall rq r v,
      net rq = inr r -> status_code r = 200 -> json r = inr v ->
      document_or_None (net rq) = v).
Proof.
  cbv zeta. repeat split.
  - run_listing. unfold document_or_None. repeat (break_match; simpl); reflexivity.
  - run_listing. unfold document_or_None. repeat (break_match; simpl); reflexivity.
  - intros rq v Hv Hnone. unfold document_or_None in Hv.
    destruct (net rq) as [e | r] eqn:Hnet; [congruence|].
    destruct (status_code r =? 200) eqn:Hs; [|congruence].
    destruct (json r) as [e | v'] eqn:Hj; [congruence|].
    exists r. subst. split; [reflexivity|]. split; [now apply Z.eqb_eq | exact Hj].
  - intros rq r v Hnet Hs Hj. unfold document_or_None.
    apply Z.eqb_eq in Hs. now rewrite Hnet, Hs, Hj.
Qed.

(** The failures of [list_models] are logged, one record each. *)
Lemma list_models_logs_failures (net : session) (self : OllamaClient.t) (w : world) :
  let tags := Request GET (OllamaClient.base_url self ++ lit "/api/tags") None None false in
  (forall r v, net tags = inr r -> status_code r = 200 -> json r = inr v ->
               logged (world_after (OllamaClient.list_models net self w)) = logged w) /\
  ((forall r, net tags = inr r -> status_code r <> 200 \/ exists e, json r = inl e) ->
   exists record,
     log_lvl record = ERROR /\
     logged (world_after (OllamaClient.list_models net self w)) = logged w ++ [record]).
Proof.
  cbv zeta. split.
  - intros r v Hnet Hs Hj. apply Z.eqb_eq in Hs.
    run_listing. now rewrite Hnet, Hs, Hj.
  - intros Hfail. run_listing.
    destruct (net _) as [e | r] eqn:Hnet; simpl.
    + eexists. split; [|reflexivity]. reflexivity.
    + destruct (Hfail r eq_refl) as [Hs | [e He]].
      * apply Z.eqb_neq in Hs. rewrite Hs. simpl.
        eexists. split; [|reflexivity]. reflexivity.
      * rewrite He. destruct (status_code r =? 200); simpl;
          (eexists; split; [|reflexivity]; reflexivity).
Qed.

(** What [s.rstrip(c)] and [s.lstrip(c)] take away is a run of [c]. *)
Lemma lstrip_char_split (c : N) (s : pystr) :
  exists n,
    s = repeat c n ++ lstrip_by (fun x => (x =? c)%N) s /\
    forall rest, lstrip_by (fun x => (x =? c)%N) s <> c :: rest.
Proof.
  induction s as [|x s [n [Hs Hhead]]].
  - exists 0%nat. split; [reflexivity | discriminate].
  - simpl. destruct (x =? c)%N eqn:E.
    + apply N.eqb_eq in E. subst x. exists (S n). split; [|exact Hhead].
      simpl. now f_equal.
    + exists 0%nat. split; [reflexivity|].
      intros rest H. injection H as H _. subst x. now rewrite N.eqb_refl in E.
Qed.

(** X5.  The constructor of [OllamaClient] removes every trailing slash of
    the address it is given, and nothing else: the address is the stored
    one followed by slashes only, and the stored one does not end with a
    slash.  The model name is stored as given. *)
Theorem OllamaClient_init_strips_trailing_slashes (base_url model : pystr) :
  let client := OllamaClient.init base_url model in
  (exists n, base_url = OllamaClient.base_url client ++ repeat 0x2F%N n) /\
  (forall s, OllamaClient.base_url client <> s ++ [0x2F%N]) /\
  OllamaClient.model client = model.
Proof.
  cbv zeta. unfold OllamaClient.init, rstrip_slash, rstrip_by. simpl.
  destruct (lstrip_char_split 0x2F%N (rev base_url)) as [n [Hsplit Hhead]].
  repeat split.
  - exists n. rewrite <- (rev_involutive base_url) at 1.
    rewrite Hsplit at 1. now rewrite rev_app_distr, rev_repeat.
  - intros s Hs. apply (Hhead (rev s)).
    rewrite <- (rev_involutive (lstrip_by _ (rev base_url))).
    rewrite Hs. now rewrite rev_app_distr.
Qed.

(** The division of the duration fails with a [TypeError] or an
    [OverflowError], never with a timeout. *)
Lemma py_div_1e9_error (v : pyval) (e : exc) :
  py_div_1e9 v = inl e -> is_Timeout e = false.
Proof.
  destruct v; simpl; intros H; try discriminate; try (now injection H as <-).
  unfold float_of_int in H.
  destruct (PrimFloat.is_infinity _); [|discriminate].
  now injection H as <-.
Qed.

(** X6.  When a status 200 body has an [eval_duration] that cannot be
    divided (a text, a list, an integer too large for a float),
    [OllamaClient.generate_response] gives up the response it has already
    read and returns the connection-error text with the arithmetic
    error's message. *)
Theorem generate_response_unusable_duration
        (r : response) (d : list (pystr * pyval)) (duration : pyval) (e : exc)
        (prompt : pystr) (kwargs : list (pystr * pyval))
        (self : OllamaClient.t) (w : world) :
  status_code r = 200 ->
  json r = inr (PDict d) ->
  lookup (lit "eval_duration") d = Some duration ->
  py_div_1e9 duration = inl e ->
  result (OllamaClient.generate_response (serves r) prompt kwargs self w) =
  inr (PStr (electric_plug ++ lit " " ++ lit "Connection error: " ++ exc_str e)).
Proof.
  intros Hs Hj Hd He. apply Z.eqb_eq in Hs.
  pose proof (py_div_1e9_error _ He) as Ht.
  run_generate. rewrite Hs, Hj. simpl.
  destruct (lookup (lit "response") d); simpl; rewrite Hd; simpl; rewrite He; simpl;
    now rewrite Ht.
Qed.

Lemma generate_response_unusable_duration_witness :
  result (OllamaClient.generate_response
            (serves (json_reply 200 (PDict [ (lit "response", PStr (lit "Hi"));
                                             (lit "eval_duration", PInt (2 ^ 1024)) ])))
            (lit "hello") [] OllamaClient.default empty_world) =
  inr (PStr (electric_plug ++ lit " " ++ lit "Connection error: "
               ++ lit "int too large to convert to float")).
Proof.
  apply (@generate_response_unusable_duration
           (json_reply 200 (PDict [ (lit "response", PStr (lit "Hi"));
                                    (lit "eval_duration", PInt (2 ^ 1024)) ]))
           [ (lit "response", PStr (lit "Hi")); (lit "eval_duration", PInt (2 ^ 1024)) ]
           (PInt (2 ^ 1024))
           (Exc OverflowError (lit "int too large to convert to float"))).
  - reflexivity.
  - reflexivity.
  - reflexivity.
  - vm_compute. reflexivity.
Defined.

(** X7.  A status 200 response whose body is not JSON is reported by the
    generation operations as a failure of the connection: with the
    connection-error text by [OllamaClient.generate_response] and
    [OllamaClient.chat], with the general error text by
    [DeepSeekAPI.generate_response]; each carries the decoder's message. *)
Theorem undecodable_body_reported_as_connection_error
        (r : response) (e : exc) :
  status_code r = 200 ->
  json r = inl e ->
  is_Timeout e = false ->
  (forall prompt kwargs self w,
      result (OllamaClient.generate_response (serves r) prompt kwargs self w) =
      inr (PStr (electric_plug ++ lit " " ++ lit "Connection error: " ++ exc_str e))) /\
  (forall messages kwargs self w,
      result (OllamaClient.chat (serves r) messages kwargs self w) =
      inr (PStr (electric_plug ++ lit " Chat connection error: " ++ exc_str e))) /\
  (forall prompt context self w,
      result (DeepSeekAPI.generate_response (serves r) prompt context self w) =
      inr (PStr (lit "Error generating response: " ++ exc_str e))).
Proof.
  intros Hs Hj Ht. apply Z.eqb_eq in Hs. repeat split; intros.
  - run_generate. rewrite Hs, Hj. simpl. now rewrite Ht.
  - run_generate. now rewrite Hs, Hj.
  - rewrite DeepSeekAPI_generate_response_run. cbv zeta.
    unfold serves, result. simpl. now rewrite Hs, Hj.
Qed.

Lemma undecodable_body_reported_as_connection_error_witness :
  let r := text_reply 200 (lit "<html>Bad gateway</html>") in
  let detail := lit "Expecting value: line 1 column 1 (char 0)" in
  (forall prompt kwargs self w,
      result (OllamaClient.generate_response (serves r) prompt kwargs self w) =
      inr (PStr (electric_plug ++ lit " " ++ lit "Connection error: " ++ detail))) /\
  (forall messages kwargs self w,
      result (OllamaClient.chat (serves r) messages kwargs self w) =
      inr (PStr (electric_plug ++ lit " Chat connection error: " ++ detail))) /\
  (forall prompt context self w,
      result (DeepSeekAPI.generate_response (serves r) prompt context self w) =
      inr (PStr (lit "Error generating response: " ++ detail))).
Proof.
  apply (@undecodable_body_reported_as_connection_error
           (text_reply 200 (lit "<html>Bad gateway</html>"))
           (Exc JSONDecodeError (lit "Expecting value: line 1 column 1 (char 0)"))).
  - reflexivity.
  - reflexivity.
  - reflexivity.
Defined.

(* ===================================================================== *)
(** * More on [DeepSeekAPI] *)
(* ===================================================================== *)

(** X8.  [DeepSeekAPI.generate_response] always returns a text, whatever
    the transport does and whatever the body holds: the trimmed response,
    or one of its two error texts.  It never returns [None], and never a
    value of another type that a server put in the [response] field. *)
Theorem DeepSeekAPI_generate_response_returns_text
        (net : session) (prompt : pystr) (context : option (list DeepSeekAPI.message))
        (self : DeepSeekAPI.t) (w : world) :
  exists s, result (DeepSeekAPI.generate_response net prompt context self w) = inr (PStr s).
Proof.
  rewrite DeepSeekAPI_generate_response_run. cbv zeta. unfold result. simpl.
  destruct (net _) as [e | r]; simpl; [eexists; reflexivity|].
  destruct (status_code r =? 200); [|eexists; reflexivity].
  destruct (json r) as [e | body]; simpl; [eexists; reflexivity|].
  destruct (py_get body "response" (PStr [])) as [e | field]; simpl; [eexists; reflexivity|].
  destruct field; simpl; eexists; reflexivity.
Qed.

(** X9.  For every history [h] that is not empty, the prompt
    [DeepSeekAPI.generate_response] sends holds the last [min(n, 10)]
    messages of [h], in order, each on a line of its own that starts with
    [Human: ] when the role of the message is [user] and with
    [Assistant: ] otherwise and goes on with its content; then come the
    new user turn and the assistant marker.  A history of at most ten
    messages enters whole. *)
Theorem context_is_the_recent_suffix
        (h : list DeepSeekAPI.message) (p : pystr) :
  h <> [] ->
  exists older recent,
    h = older ++ recent /\
    List.length recent = Nat.min (List.length h) 10 /\
    let line (msg : DeepSeekAPI.message) :=
      (if pystr_eqb (DeepSeekAPI.role msg) (lit "user")
       then lit "Human: " else lit "Assistant: ")
        ++ DeepSeekAPI.content msg ++ newline in
    let prompt :=
      List.concat (List.map line recent)
        ++ lit "Human: " ++ p ++ newline ++ lit "Assistant:" in
    forall net self w,
      exists body,
        wire (world_after (DeepSeekAPI.generate_response net p (Some h) self w)) =
          wire w ++ [Request POST (DeepSeekAPI.base_url self ++ lit "/api/generate")
                             (Some body) (Some 30) false] /\
        py_getitem body "prompt" = inr (PStr prompt).
Proof.
  intros Hne.
  exists (firstn (List.length h - 10) h), (skipn (List.length h - 10) h).
  split; [symmetry; apply firstn_skipn|].
  split; [rewrite length_skipn; lia|].
  cbv zeta. intros net self w.
  destruct (DeepSeekAPI_generate_response_sends net p (Some h) self w)
    as [body [Hwire Hprompt]].
  exists body. split; [exact Hwire|].
  rewrite Hprompt. now rewrite full_prompt_lines.
Qed.

Lemma context_is_the_recent_suffix_witness :
  let h := [ DeepSeekAPI.Message (lit "assistant") (lit "Hello!") (lit "09:00");
             DeepSeekAPI.Message (lit "user") (lit "Hi") (lit "09:01") ] in
  exists older recent,
    h = older ++ recent /\
    List.length recent = Nat.min (List.length h) 10 /\
    let line (msg : DeepSeekAPI.message) :=
      (if pystr_eqb (DeepSeekAPI.role msg) (lit "user")
       then lit "Human: " else lit "Assistant: ")
        ++ DeepSeekAPI.content msg ++ newline in
    let prompt :=
      List.concat (List.map line recent)
        ++ lit "Human: " ++ lit "next" ++ newline ++ lit "Assistant:" in
    forall net self w,
      exists body,
        wire (world_after (DeepSeekAPI.generate_response net (lit "next") (Some h) self w)) =
          wire w ++ [Request POST (DeepSeekAPI.base_url self ++ lit "/api/generate")
                             (Some body) (Some 30) false] /\
        py_getitem body "prompt" = inr (PStr prompt).
Proof.
  apply (@context_is_the_recent_suffix
           [ DeepSeekAPI.Message (lit "assistant") (lit "Hello!") (lit "09:00");
             DeepSeekAPI.Message (lit "user") (lit "Hi") (lit "09:01") ]
           (lit "next")).
  discriminate.
Defined.

(** With the greeting and one message of the user in the history, the
    prompt reads as follows. *)
Example full_prompt_of_two_messages :
  DeepSeekAPI.full_prompt
    (lit "next")
    (Some [ DeepSeekAPI.Message (lit "assistant") (lit "Hello!") (lit "09:00");
            DeepSeekAPI.Message (lit "user") (lit "Hi") (lit "09:01") ])
  = lit "Assistant: Hello!" ++ newline ++ lit "Human: Hi" ++ newline
        ++ lit "Human: next" ++ newline ++ lit "Assistant:".
Proof. reflexivity. Qed.

(** A comprehension fails as soon as one element does. *)
Lemma comprehension_fails (f : pyval -> res pyval) (l : list pyval) (x : pyval) (e : exc) :
  In x l -> f x = inl e -> exists e', comprehension f l = inl e'.
Proof.
  intros Hin Hx. induction l as [|y l IH]; [contradiction|].
  simpl. destruct (f y) as [ey | vy] eqn:Hy; [eexists; reflexivity|].
  destruct Hin as [-> | Hin]; [congruence|].
  destruct (IH Hin) as [e' ->]. eexists; reflexivity.
Qed.

(** X10.  One entry of the model list from which no [name] can be read (an
    object without that key, or a value that is not an object) makes
    [DeepSeekAPI.check_connection] answer [False] and record itself as not
    connected, even when the configured model is listed next to it. *)
Theorem DeepSeekAPI_check_connection_fails_on_nameless_entry
        (net : session) (self : DeepSeekAPI.t) (w : world) (r : response)
        (d : list (pystr * pyval)) (entries : list pyval) (entry : pyval) (e : exc) :
  net (DeepSeekAPI.tags_request self) = inr r ->
  status_code r = 200 ->
  json r = inr (PDict d) ->
  lookup (lit "models") d = Some (PList entries) ->
  In entry entries ->
  py_getitem entry "name" = inl e ->
  let out := DeepSeekAPI.check_connection net self w in
  result out = inr (PBool false) /\
  DeepSeekAPI.is_connected (self_after out) = false.
Proof.
  intros Hnet Hs Hj Hm Hin He out. subst out.
  rewrite DeepSeekAPI_check_connection_run. cbv zeta.
  rewrite Hnet. apply Z.eqb_eq in Hs. rewrite Hs.
  unfold listed_names. rewrite Hj. simpl. rewrite Hm. simpl.
  destruct (@comprehension_fails (fun model => py_getitem model "name")
                                 entries entry e Hin He) as [e' ->].
  split; reflexivity.
Qed.

Lemma DeepSeekAPI_check_connection_fails_on_nameless_entry_witness :
  let body := PDict [(lit "models",
                      PList [ PDict [(lit "name", PStr (lit "deepseek-r1"))];
                              PDict [(lit "model", PStr (lit "llama3"))] ])] in
  let out := DeepSeekAPI.check_connection (serves (json_reply 200 body))
                                          DeepSeekAPI.default empty_world in
  result out = inr (PBool false) /\
  DeepSeekAPI.is_connected (self_after out) = false.
Proof.
  apply (@DeepSeekAPI_check_connection_fails_on_nameless_entry
           (serves (json_reply 200
                      (PDict [(lit "models",
                               PList [ PDict [(lit "name", PStr (lit "deepseek-r1"))];
                                       PDict [(lit "model", PStr (lit "llama3"))] ])])))
           DeepSeekAPI.default empty_world
           (json_reply 200
              (PDict [(lit "models",
                       PList [ PDict [(lit "name", PStr (lit "deepseek-r1"))];
                               PDict [(lit "model", PStr (lit "llama3"))] ])]))
           [(lit "models",
             PList [ PDict [(lit "name", PStr (lit "deepseek-r1"))];
                     PDict [(lit "model", PStr (lit "llama3"))] ])]
           [ PDict [(lit "name", PStr (lit "deepseek-r1"))];
             PDict [(lit "model", PStr (lit "llama3"))] ]
           (PDict [(lit "model", PStr (lit "llama3"))])
           (Exc KeyError (lit "'" ++ lit "name" ++ lit "'"))).
  - reflexivity.
  - reflexivity.
  - reflexivity.
  - reflexivity.
  - simpl. right. left. reflexivity.
  - reflexivity.
Defined.

(* ===================================================================== *)
(** * The helper utilities *)
(* ===================================================================== *)

Lemma len_app (a b : pystr) : len (a ++ b) = len a + len b.
Proof. unfold len. rewrite length_app. lia. Qed.

Lemma len_ellipsis : len (lit "...") = 3.
Proof. reflexivity. Qed.

(** X11.  With a bound of at least three, [truncate_text] never returns
    more than [max_length] characters: a text that fits comes back as it
    is; a longer one comes back as its first [max_length - 3] characters
    followed by three dots, [max_length] characters in all. *)
Theorem truncate_text_within_bound (text : pystr) (max_length : Z) :
  3 <= max_length ->
  len (Helpers.truncate_text text max_length) <= max_length /\
  (len text <= max_length -> Helpers.truncate_text text max_length = text) /\
  (max_length < len text ->
   Helpers.truncate_text text max_length =
     firstn (Z.to_nat (max_length - 3)) text ++ lit "..." /\
   len (Helpers.truncate_text text max_length) = max_length).
Proof.
  intros Hmax. unfold Helpers.truncate_text.
  destruct (len text <=? max_length) eqn:E.
  - apply Z.leb_le in E. repeat split; [assumption | lia | lia].
  - apply Z.leb_gt in E.
    unfold Helpers.slice_to.
    replace (max_length - 3 <? 0) with false by (symmetry; apply Z.ltb_ge; lia).
    assert (Hlen : len (firstn (Z.to_nat (max_length - 3)) text ++ lit "...") = max_length).
    { rewrite len_app, len_ellipsis. unfold len in *. rewrite length_firstn. lia. }
    repeat split; [lia | lia | assumption].
Qed.

Lemma truncate_text_within_bound_witness :
  len (Helpers.truncate_text (lit "Hello, world") 8) <= 8 /\
  (len (lit "Hello, world") <= 8 ->
   Helpers.truncate_text (lit "Hello, world") 8 = lit "Hello, world") /\
  (8 < len (lit "Hello, world") ->
   Helpers.truncate_text (lit "Hello, world") 8 =
     firstn (Z.to_nat (8 - 3)) (lit "Hello, world") ++ lit "..." /\
   len (Helpers.truncate_text (lit "Hello, world") 8) = 8).
Proof.
  apply (@truncate_text_within_bound (lit "Hello, world") 8). lia.
Defined.

(** X12.  With a bound below three, [truncate_text] returns more than
    [max_length] characters for every text that does not fit: the slice
    bound [max_length - 3] is negative and counts from the end, so the
    result is the text without its last [3 - max_length] characters,
    followed by three dots. *)
Theorem truncate_text_exceeds_small_bound (text : pystr) (max_length : Z) :
  max_length < 3 ->
  max_length < len text ->
  Helpers.truncate_text text max_length =
    firstn (Z.to_nat (len text + max_length - 3)) text ++ lit "..." /\
  len (Helpers.truncate_text text max_length) = Z.max 0 (len text + max_length - 3) + 3 /\
  max_length < len (Helpers.truncate_text text max_length).
Proof.
  intros Hmax Hlong. unfold Helpers.truncate_text.
  replace (len text <=? max_length) with false by (symmetry; apply Z.leb_gt; lia).
  unfold Helpers.slice_to.
  replace (max_length - 3 <? 0) with true by (symmetry; apply Z.ltb_lt; lia).
  replace (Z.to_nat (Z.max 0 (len text + (max_length - 3))))
    with (Z.to_nat (len text + max_length - 3)) by lia.
  assert (Hlen : len (firstn (Z.to_nat (len text + max_length - 3)) text ++ lit "...")
                 = Z.max 0 (len text + max_length - 3) + 3).
  { rewrite len_app, len_ellipsis. unfold len in *. rewrite length_firstn. lia. }
  repeat split; [assumption | lia].
Qed.

Lemma truncate_text_exceeds_small_bound_witness :
  Helpers.truncate_text (lit "hello") 2 =
    firstn (Z.to_nat (len (lit "hello") + 2 - 3)) (lit "hello") ++ lit "..." /\
  len (Helpers.truncate_text (lit "hello") 2) = Z.max 0 (len (lit "hello") + 2 - 3) + 3 /\
  2 < len (Helpers.truncate_text (lit "hello") 2).
Proof.
  apply (@truncate_text_exceeds_small_bound (lit "hello") 2).
  - lia.
  - vm_compute. reflexivity.
Defined.

Example truncate_text_hello_2 :
  Helpers.truncate_text (lit "hello") 2 = lit "hell...".
Proof. reflexivity. Qed.

(** The characters of [s.replace(x, by)] come from [by], or from [s] and
    are not [x]. *)
Lemma In_replace_char (x : N) (by_text s : pystr) (c : N) :
  In c (Helpers.replace_char x by_text s) ->
  In c by_text \/ (In c s /\ c <> x).
Proof.
  unfold Helpers.replace_char. rewrite in_flat_map. intros [y [Hy Hc]].
  destruct (y =? x)%N eqn:E.
  - now left.
  - right. destruct Hc as [<- | []]. split; [assumption|].
    now apply N.eqb_neq.
Qed.

Lemma replace_char_absent (x : N) (by_text s : pystr) :
  ~ In x s -> Helpers.replace_char x by_text s = s.
Proof.
  unfold Helpers.replace_char. induction s as [|y s IH]; intros Hx; [reflexivity|].
  simpl. destruct (y =? x)%N eqn:E.
  - apply N.eqb_eq in E. subst. exfalso. apply Hx. now left.
  - simpl. f_equal. apply IH. intros H. apply Hx. now right.
Qed.

Lemma html_escape_output (s : pystr) (c : N) :
  In c [0x3C; 0x3E; 0x22; 0x27]%N -> ~ In c (Helpers.html_escape s).
Proof.
  intros Hc Hin. unfold Helpers.html_escape in Hin. cbv zeta in Hin.
  destruct Hc as [<- | [<- | [<- | [<- | []]]]];
    repeat (apply In_replace_char in Hin;
            destruct Hin as [Hin | [Hin ?]];
            [vm_compute in Hin; intuition discriminate | try congruence]).
Qed.

Lemma html_escape_plain (s : pystr) :
  (forall c, In c [0x26; 0x3C; 0x3E; 0x22; 0x27]%N -> ~ In c s) ->
  Helpers.html_escape s = s.
Proof.
  intros H. unfold Helpers.html_escape. cbv zeta.
  rewrite (@replace_char_absent 0x26%N) by (apply H; simpl; tauto).
  rewrite (@replace_char_absent 0x3C%N) by (apply H; simpl; tauto).
  rewrite (@replace_char_absent 0x3E%N) by (apply H; simpl; tauto).
  rewrite (@replace_char_absent 0x22%N) by (apply H; simpl; tauto).
  apply replace_char_absent. apply H. simpl. tauto.
Qed.

(** [replace('\r\n', '\n')] brings in no character, and changes nothing
    where there is no carriage return. *)
Lemma replace_crlf_facts (s : pystr) :
  ((forall c, In c (Helpers.replace_crlf s) -> In c s) /\
   (~ In 0x0D%N s -> Helpers.replace_crlf s = s)) /\
  forall x,
    (forall c, In c (Helpers.replace_crlf (x :: s)) -> In c (x :: s)) /\
    (~ In 0x0D%N (x :: s) -> Helpers.replace_crlf (x :: s) = x :: s).
Proof.
  induction s as [|y s [[IH1 IH1'] IH2]].
  - split; [split|]; [intros c []| reflexivity |].
    intros x. split; [intros c H; exact H | reflexivity].
  - split; [apply IH2|].
    intros x. destruct (IH2 y) as [IHy IHy'].
    change (Helpers.replace_crlf (x :: y :: s))
      with (if ((x =? 0x0D) && (y =? 0x0A))%N
            then 0x0A%N :: Helpers.replace_crlf s
            else x :: Helpers.replace_crlf (y :: s)).
    destruct ((x =? 0x0D) && (y =? 0x0A))%N eqn:E.
    + apply andb_true_iff in E as [Ex Ey].
      apply N.eqb_eq in Ex, Ey. subst. split.
      * intros c [<- | Hc]; [right; now left|].
        right. right. now apply IH1.
      * intros Hcr. exfalso. apply Hcr. now left.
    + split.
      * intros c [<- | Hc]; [now left|]. right. now apply IHy.
      * intros Hcr. f_equal. apply IHy'. intros H. apply Hcr. now right.
Qed.

Lemma In_newline_run (n : nat) (c : N) :
  In c (Helpers.newline_run n) -> c = 0x0A%N.
Proof.
  unfold Helpers.newline_run. destruct (3 <=? n)%nat.
  - intros [<- | [<- | []]]; reflexivity.
  - intros H. now apply repeat_spec in H.
Qed.

Lemma In_limit_newlines_from (s : pystr) (pending : nat) (c : N) :
  In c (Helpers.limit_newlines_from pending s) -> c = 0x0A%N \/ In c s.
Proof.
  revert pending. induction s as [|x s IH]; intros pending; simpl.
  - intros H. left. now apply In_newline_run in H.
  - destruct (x =? 0x0A)%N.
    + intros H. destruct (IH _ H); [now left | right; now right].
    + rewrite in_app_iff. intros [H | [<- | H]].
      * left. now apply In_newline_run in H.
      * right. now left.
      * destruct (IH _ H); [now left | right; now right].
Qed.

(** A character of what [sanitize_text] returns is a line feed, or a
    character of the escaped text other than a carriage return. *)
Lemma sanitize_text_origin (text : pystr) (c : N) :
  In c (Helpers.sanitize_text text) ->
  c = 0x0A%N \/ (In c (Helpers.html_escape text) /\ c <> 0x0D%N).
Proof.
  intros Hin. unfold Helpers.sanitize_text in Hin.
  destruct text as [|x text]; [contradiction|]. cbv zeta in Hin.
  unfold Helpers.limit_newlines in Hin.
  apply In_limit_newlines_from in Hin.
  destruct Hin as [-> | Hin]; [now left|].
  apply In_replace_char in Hin.
  destruct Hin as [Hin | [Hin Hcr]].
  - left. now destruct Hin as [<- | []].
  - right. split; [|assumption].
    now apply (proj1 (proj1 (replace_crlf_facts _))) in Hin.
Qed.

(** X13.  The text [sanitize_text] returns holds no angle bracket, no
    double or single quote and no carriage return, whatever text it is
    given. *)
Theorem sanitize_text_has_no_markup (text : pystr) (c : N) :
  In c [0x3C; 0x3E; 0x22; 0x27; 0x0D]%N ->
  ~ In c (Helpers.sanitize_text text).
Proof.
  intros Hc Hin. apply sanitize_text_origin in Hin.
  destruct Hin as [-> | [Hin Hcr]];
    [simpl in Hc; intuition discriminate|].
  destruct Hc as [<- | [<- | [<- | [<- | [<- | []]]]]];
    first [ congruence
          | revert Hin; apply html_escape_output; simpl; tauto ].
Qed.

Lemma sanitize_text_has_no_markup_witness :
  ~ In 0x3C%N (Helpers.sanitize_text (lit "<b>bold</b>")).
Proof.
  apply (@sanitize_text_has_no_markup (lit "<b>bold</b>") 0x3C%N).
  simpl. tauto.
Defined.

Example sanitize_text_markup :
  Helpers.sanitize_text (lit "<b>Tom & Jerry</b>") =
  lit "&lt;b&gt;Tom &amp; Jerry&lt;/b&gt;".
Proof. reflexivity. Qed.

(** A text that contains three line feeds in a row fails the check. *)
Lemma newline_runs_short_sound (a b : pystr) (k : nat) :
  newline_runs_short k (a ++ three_newlines ++ b) = false.
Proof.
  revert k. induction a as [|x a IH]; intros k.
  - simpl. destruct (k <? 2)%nat eqn:E1; [|reflexivity].
    destruct (S k <? 2)%nat eqn:E2; [|reflexivity].
    apply Nat.ltb_lt in E2.
    replace (S (S k) <? 2)%nat with false by (symmetry; apply Nat.ltb_ge; lia).
    reflexivity.
  - simpl. destruct (x =? 0x0A)%N.
    + rewrite IH. apply andb_false_r.
    + apply IH.
Qed.

(** A text that fails the check contains three line feeds in a row, the
    first [k] of which may be the ones before it. *)
Lemma newline_runs_short_complete (s : pystr) (k : nat) :
  (k <= 2)%nat ->
  newline_runs_short k s = false ->
  exists a b, repeat 0x0A%N k ++ s = a ++ three_newlines ++ b.
Proof.
  revert k. induction s as [|x s IH]; intros k Hk H; simpl in H; [discriminate|].
  destruct (x =? 0x0A)%N eqn:E.
  - apply N.eqb_eq in E. subst x.
    apply andb_false_iff in H as [H | H].
    + apply Nat.ltb_ge in H. assert (k = 2)%nat as -> by lia.
      exists [], s. reflexivity.
    + destruct (k <? 2)%nat eqn:E2.
      * apply Nat.ltb_lt in E2.
        destruct (IH (S k) ltac:(lia) H) as [a [b Hab]].
        exists a, b. rewrite <- Hab.
        change (0x0A%N :: s) with ([0x0A%N] ++ s).
        rewrite app_assoc. f_equal.
        change [0x0A%N] with (repeat 0x0A%N 1).
        rewrite <- repeat_app. f_equal. lia.
      * apply Nat.ltb_ge in E2. assert (k = 2)%nat as -> by lia.
        exists [], s. reflexivity.
  - destruct (IH 0%nat ltac:(lia) H) as [a [b Hab]]. simpl in Hab.
    exists (repeat 0x0A%N k ++ x :: a), b. rewrite Hab.
    now rewrite <- app_assoc.
Qed.

Lemma newline_runs_short_after_run (n : nat) (x : N) (s : pystr) :
  (x =? 0x0A)%N = false ->
  newline_runs_short 0 (Helpers.newline_run n ++ x :: s) = newline_runs_short 0 s.
Proof.
  intros Hx. unfold Helpers.newline_run.
  destruct n as [|[|[|n]]]; simpl; rewrite Hx; reflexivity.
Qed.

Lemma limit_newlines_from_short (s : pystr) (pending : nat) :
  newline_runs_short 0 (Helpers.limit_newlines_from pending s) = true.
Proof.
  revert pending. induction s as [|x s IH]; intros pending; simpl.
  - unfold Helpers.newline_run. destruct pending as [|[|[|n]]]; reflexivity.
  - destruct (x =? 0x0A)%N eqn:E; [apply IH|].
    rewrite newline_runs_short_after_run by assumption. apply IH.
Qed.

Lemma repeat_shift (x : N) (n : nat) (s : pystr) :
  repeat x (S n) ++ s = repeat x n ++ x :: s.
Proof.
  induction n as [|n IH]; [reflexivity|].
  simpl in *. now rewrite IH.
Qed.

Lemma limit_newlines_from_unchanged (s : pystr) (pending : nat) :
  (pending <= 2)%nat ->
  newline_runs_short pending s = true ->
  Helpers.limit_newlines_from pending s = repeat 0x0A%N pending ++ s.
Proof.
  revert pending. induction s as [|x s IH]; intros pending Hp H; simpl in *.
  - unfold Helpers.newline_run.
    replace (3 <=? pending)%nat with false by (symmetry; apply Nat.leb_gt; lia).
    now rewrite app_nil_r.
  - destruct (x =? 0x0A)%N eqn:E.
    + apply N.eqb_eq in E. subst x.
      apply andb_true_iff in H as [H1 H2]. apply Nat.ltb_lt in H1.
      rewrite IH by (assumption || lia).
      apply repeat_shift.
    + rewrite (IH 0%nat) by (assumption || lia). simpl.
      unfold Helpers.newline_run.
      replace (3 <=? pending)%nat with false by (symmetry; apply Nat.leb_gt; lia).
      reflexivity.
Qed.

(** X14.  The text [sanitize_text] returns nowhere holds three line feeds
    in a row. *)
Theorem sanitize_text_has_no_three_newlines (text a b : pystr) :
  Helpers.sanitize_text text <> a ++ three_newlines ++ b.
Proof.
  intros H.
  assert (Hshort : newline_runs_short 0 (Helpers.sanitize_text text) = true).
  { unfold Helpers.sanitize_text. destruct text; [reflexivity|].
    cbv zeta. apply limit_newlines_from_short. }
  rewrite H, newline_runs_short_sound in Hshort. discriminate.
Qed.

(** X15.  A text without ampersand, angle bracket, quote or carriage
    return, and without three line feeds in a row, comes back from
    [sanitize_text] as it is. *)
Theorem sanitize_text_keeps_plain_text (text : pystr) :
  (forall c, In c [0x26; 0x3C; 0x3E; 0x22; 0x27; 0x0D]%N -> ~ In c text) ->
  (forall a b, text <> a ++ three_newlines ++ b) ->
  Helpers.sanitize_text text = text.
Proof.
  intros Hplain Hruns. unfold Helpers.sanitize_text.
  destruct text as [|x text]; [reflexivity|]. cbv zeta.
  rewrite html_escape_plain by (intros c Hc; apply Hplain; simpl in *; tauto).
  rewrite (proj2 (proj1 (replace_crlf_facts _))) by (apply Hplain; simpl; tauto).
  rewrite replace_char_absent by (apply Hplain; simpl; tauto).
  unfold Helpers.limit_newlines.
  rewrite limit_newlines_from_unchanged; [reflexivity | lia |].
  destruct (newline_runs_short 0 (x :: text)) eqn:E; [reflexivity|].
  destruct (@newline_runs_short_complete (x :: text) 0%nat ltac:(lia) E) as [a [b Hab]].
  exfalso. exact (Hruns a b Hab).
Qed.

Lemma sanitize_text_keeps_plain_text_witness :
  Helpers.sanitize_text (lit "Hello, world") = lit "Hello, world".
Proof.
  apply (@sanitize_text_keeps_plain_text (lit "Hello, world")).
  - intros c Hc Hin. vm_compute in Hin. simpl in Hc.
    intuition (subst; discriminate).
  - intros a b H.
    assert (E : newline_runs_short 0 (lit "Hello, world") = true) by reflexivity.
    rewrite H, newline_runs_short_sound in E. discriminate.
Defined.

(* ===================================================================== *)
(** * The conversation of [ChatScreen] *)
(* ===================================================================== *)

(** [DeepSeekAPI.generate_response] as a whole: a text comes back, the
    client is as before, one request has been sent. *)
Lemma DeepSeekAPI_generate_response_outcome
      (net : session) (prompt : pystr) (context : option (list DeepSeekAPI.message))
      (self : DeepSeekAPI.t) (w : world) :
  exists reply,
    DeepSeekAPI.generate_response net prompt context self w =
    (inr (PStr reply), self,
     sent (DeepSeekAPI.generate_request self (DeepSeekAPI.full_prompt prompt context)) w).
Proof.
  rewrite DeepSeekAPI_generate_response_run. cbv zeta.
  destruct (net _) as [e | r]; simpl; [eexists; reflexivity|].
  destruct (status_code r =? 200); [|eexists; reflexivity].
  destruct (json r) as [e | body]; simpl; [eexists; reflexivity|].
  destruct (py_get body "response" (PStr [])) as [e | field]; simpl; [eexists; reflexivity|].
  destruct field; simpl; eexists; reflexivity.
Qed.

Lemma join_last (sep : pystr) (parts : list pystr) (x : pystr) :
  exists prefix, join sep (parts ++ [x]) = prefix ++ x.
Proof.
  induction parts as [|p parts [prefix IH]].
  - exists []. reflexivity.
  - simpl app. destruct (parts ++ [x]) as [|q rest] eqn:E.
    + destruct parts; discriminate.
    + exists (p ++ sep ++ prefix).
      change (join sep (p :: q :: rest)) with (p ++ sep ++ join sep (q :: rest)).
      rewrite IH. now rewrite <- !app_assoc.
Qed.

(** When the history ends with a message, the transcript ends with its
    line. *)
Lemma full_prompt_after_last (h : list DeepSeekAPI.message) (msg : DeepSeekAPI.message)
      (p : pystr) :
  exists prefix,
    DeepSeekAPI.full_prompt p (Some (h ++ [msg])) =
    prefix ++ DeepSeekAPI.transcript_line msg
           ++ newline ++ lit "Human: " ++ p ++ newline ++ lit "Assistant:".
Proof.
  assert (Hlast : DeepSeekAPI.last10 (h ++ [msg]) =
                  skipn (List.length (h ++ [msg]) - 10) h ++ [msg]).
  { unfold DeepSeekAPI.last10. rewrite skipn_app.
    replace (List.length (h ++ [msg]) - 10 - List.length h)%nat with 0%nat
      by (rewrite length_app; simpl; lia).
    reflexivity. }
  destruct (join_last newline
              (List.map DeepSeekAPI.transcript_line
                        (skipn (List.length (h ++ [msg]) - 10) h))
              (DeepSeekAPI.transcript_line msg)) as [prefix Hjoin].
  exists prefix.
  destruct (h ++ [msg]) as [|m0 rest] eqn:E; [destruct h; discriminate|].
  unfold DeepSeekAPI.full_prompt. rewrite Hlast.
  rewrite map_app. simpl List.map at 2. rewrite Hjoin.
  now rewrite <- !app_assoc.
Qed.

Section ChatScreenFacts.

Variable init : pystr -> bool -> pystr -> option exc.

(** [add_message]: nothing happens when the bubble cannot be built. *)
Lemma add_message_run (now : Helpers.datetime) (text : pystr) (is_user : bool)
      (s : ChatScreen.t) (w : world) :
  ChatScreen.add_message init now text is_user s w =
  match init text is_user (Helpers.format_timestamp now) with
  | Some e => (inl e, s, w)
  | None =>
      (inr tt,
       ChatScreen.Screen
         (ChatScreen.api s)
         (ChatScreen.conversation_history s
            ++ [DeepSeekAPI.Message (if is_user then lit "user" else lit "assistant")
                                    text (Helpers.format_timestamp now)])
         (ChatScreen.messages_layout s
            ++ [ChatScreen.Bubble (ChatScreen.bubbles_built s) text is_user
                                  (Helpers.format_timestamp now)])
         (ChatScreen.text_input s) (ChatScreen.connection_btn s)
         (S (ChatScreen.bubbles_built s)),
       w)
  end.
Proof.
  unfold ChatScreen.add_message, ChatScreen.MessageBubble, bind. cbv zeta.
  destruct (init text is_user (Helpers.format_timestamp now)); reflexivity.
Qed.

(** [send_message] on a text that is not blank, by what the constructor
    does on the user's message and on the typing indicator. *)
Lemma send_message_run (now : Helpers.datetime) (s : ChatScreen.t) (w : world) :
  strip (ChatScreen.text_input s) <> [] ->
  ChatScreen.send_message init now s w =
  let n := ChatScreen.bubbles_built s in
  let m := strip (ChatScreen.text_input s) in
  let h := ChatScreen.conversation_history s
             ++ [DeepSeekAPI.Message (lit "user") m (Helpers.format_timestamp now)] in
  let user_bubble := ChatScreen.Bubble n m true (Helpers.format_timestamp now) in
  let typing := ChatScreen.Bubble (S n) ChatScreen.typing_text false [] in
  match init m true (Helpers.format_timestamp now) with
  | Some e => (inl e, s, w)
  | None =>
      match init ChatScreen.typing_text false [] with
      | Some e =>
          (inl e,
           ChatScreen.Screen (ChatScreen.api s) h
                             (ChatScreen.messages_layout s ++ [user_bubble])
                             [] (ChatScreen.connection_btn s) (S n),
           w)
      | None =>
          (inr (Some (m, typing)),
           ChatScreen.Screen (ChatScreen.api s) h
                             (ChatScreen.messages_layout s ++ [user_bubble; typing])
                             [] (ChatScreen.connection_btn s) (S (S n)),
           w)
      end
  end.
Proof.
  intros Hm. unfold ChatScreen.send_message. unfold bind at 1. unfold get_self at 1.
  destruct (strip (ChatScreen.text_input s)) as [|c m]; [contradiction|].
  unfold bind at 1. rewrite add_message_run. cbv zeta.
  destruct (init (c :: m) true (Helpers.format_timestamp now)); [reflexivity|].
  unfold bind, ChatScreen.set_text_input, ChatScreen.MessageBubble, ChatScreen.add_widget.
  simpl.
  destruct (init ChatScreen.typing_text false []); [reflexivity|].
  simpl. now rewrite <- app_assoc.
Qed.

(** An exchange, from the text in the input field to the state it leaves,
    by what the constructor does on the user's message, on the typing
    indicator and on the reply. *)
Lemma exchange_run (net : session) (now_sent now_answered : Helpers.datetime)
      (s : ChatScreen.t) (w : world) :
  strip (ChatScreen.text_input s) <> [] ->
  let n := ChatScreen.bubbles_built s in
  let m := strip (ChatScreen.text_input s) in
  let user_turn := DeepSeekAPI.Message (lit "user") m (Helpers.format_timestamp now_sent) in
  let h := ChatScreen.conversation_history s ++ [user_turn] in
  let user_bubble := ChatScreen.Bubble n m true (Helpers.format_timestamp now_sent) in
  let typing := ChatScreen.Bubble (S n) ChatScreen.typing_text false [] in
  let shown :=
    filter (fun x => negb (ChatScreen.bubble_id x =? S n)%nat)
           (ChatScreen.messages_layout s ++ [user_bubble; typing]) in
  let rq := DeepSeekAPI.generate_request (ChatScreen.api s)
                                         (DeepSeekAPI.full_prompt m (Some h)) in
  exists reply,
    DeepSeekAPI.generate_response net m (Some h) (ChatScreen.api s) w =
    (inr (PStr reply), ChatScreen.api s, sent rq w) /\
    ChatScreen.exchange init net now_sent now_answered s w =
    match init m true (Helpers.format_timestamp now_sent) with
    | Some e => (inl e, s, w)
    | None =>
        match init ChatScreen.typing_text false [] with
        | Some e =>
            (inl e,
             ChatScreen.Screen (ChatScreen.api s) h
                               (ChatScreen.messages_layout s ++ [user_bubble])
                               [] (ChatScreen.connection_btn s) (S n),
             w)
        | None =>
            match init reply false (Helpers.format_timestamp now_answered) with
            | Some e =>
                (inl e,
                 ChatScreen.Screen (ChatScreen.api s) h shown
                                   [] (ChatScreen.connection_btn s) (S (S n)),
                 sent rq w)
            | None =>
                (inr tt,
                 ChatScreen.Screen
                   (ChatScreen.api s)
                   (h ++ [DeepSeekAPI.Message (lit "assistant") reply
                                              (Helpers.format_timestamp now_answered)])
                   (shown ++ [ChatScreen.Bubble (S (S n)) reply false
                                                (Helpers.format_timestamp now_answered)])
                   [] (ChatScreen.connection_btn s) (S (S (S n))),
                 sent rq w)
            end
        end
    end.
Proof.
  intros Hm. cbv zeta.
  destruct (DeepSeekAPI_generate_response_outcome
              net (strip (ChatScreen.text_input s))
              (Some (ChatScreen.conversation_history s
                       ++ [DeepSeekAPI.Message (lit "user") (strip (ChatScreen.text_input s))
                                               (Helpers.format_timestamp now_sent)]))
              (ChatScreen.api s) w) as [reply Hreply].
  exists reply. split; [exact Hreply|].
  unfold ChatScreen.exchange. unfold bind at 1.
  rewrite send_message_run by assumption. cbv zeta.
  destruct (init (strip (ChatScreen.text_input s)) true (Helpers.format_timestamp now_sent));
    [reflexivity|].
  destruct (init ChatScreen.typing_text false []); [reflexivity|].
  unfold ChatScreen.get_ai_response. unfold bind at 1. unfold get_self at 1.
  unfold bind at 1. unfold ChatScreen.on_api, on_part.
  cbn [ChatScreen.api ChatScreen.conversation_history].
  rewrite Hreply.
  unfold ChatScreen.update_with_response. unfold bind at 1.
  unfold ChatScreen.remove_widget. rewrite add_message_run.
  destruct (init reply false (Helpers.format_timestamp now_answered)); reflexivity.
Qed.

End ChatScreenFacts.

(** X16.  [send_message] does nothing when the input field is empty or
    holds only blanks: no bubble, no entry in the history, no thread, the
    field as it was. *)
Theorem send_message_ignores_blank_input
        (init : pystr -> bool -> pystr -> option exc) (now : Helpers.datetime)
        (s : ChatScreen.t) (w : world) :
  strip (ChatScreen.text_input s) = [] ->
  ChatScreen.send_message init now s w = (inr None, s, w).
Proof.
  intros Hblank. unfold ChatScreen.send_message, bind, get_self.
  now rewrite Hblank.
Qed.

Lemma send_message_ignores_blank_input_witness :
  ChatScreen.send_message bubble_init_raises at_0915 (screen_with_input "   ") empty_world
  = (inr None, screen_with_input "   ", empty_world).
Proof.
  apply (@send_message_ignores_blank_input
           bubble_init_raises at_0915 (screen_with_input "   ") empty_world).
  reflexivity.
Defined.

(** X17.  Whatever the constructor of [MessageBubble] does, an exchange
    sends a request exactly when the bubbles of the user's message and of
    the typing indicator could be built, and that request carries the
    user's message twice: [send_message] has stored the message in the
    history before [get_ai_response] builds the prompt from that history
    and the same message, so the prompt ends with the line of the message,
    the same line again, and the assistant marker.  When one of the two
    bubbles cannot be built, nothing is sent. *)
Theorem exchange_sends_user_turn_twice
        (init : pystr -> bool -> pystr -> option exc) (net : session)
        (now_sent now_answered : Helpers.datetime) (s : ChatScreen.t) (w : world) :
  strip (ChatScreen.text_input s) <> [] ->
  let m := strip (ChatScreen.text_input s) in
  exists prefix body,
    py_getitem body "prompt" =
      inr (PStr (prefix ++ lit "Human: " ++ m ++ newline
                        ++ lit "Human: " ++ m ++ newline ++ lit "Assistant:")) /\
    wire (world_after (ChatScreen.exchange init net now_sent now_answered s w)) =
    wire w ++
    (if builds init m true (Helpers.format_timestamp now_sent)
        && builds init ChatScreen.typing_text false []
     then [Request POST (DeepSeekAPI.base_url (ChatScreen.api s) ++ lit "/api/generate")
                   (Some body) (Some 30) false]
     else []).
Proof.
  intros Hm. cbv zeta.
  destruct (full_prompt_after_last
              (ChatScreen.conversation_history s)
              (DeepSeekAPI.Message (lit "user") (strip (ChatScreen.text_input s))
                                   (Helpers.format_timestamp now_sent))
              (strip (ChatScreen.text_input s))) as [prefix Hprompt].
  exists prefix.
  exists (DeepSeekAPI.payload
            (ChatScreen.api s)
            (DeepSeekAPI.full_prompt
               (strip (ChatScreen.text_input s))
               (Some (ChatScreen.conversation_history s
                        ++ [DeepSeekAPI.Message (lit "user")
                                                (strip (ChatScreen.text_input s))
                                                (Helpers.format_timestamp now_sent)])))).
  split.
  - rewrite payload_prompt, Hprompt.
    unfold DeepSeekAPI.transcript_line. cbn [DeepSeekAPI.role DeepSeekAPI.content].
    replace (pystr_eqb (lit "user") (lit "user")) with true by reflexivity.
    now rewrite <- !app_assoc.
  - destruct (@exchange_run init net now_sent now_answered s w Hm) as [reply [_ Hrun]].
    cbv zeta in Hrun. rewrite Hrun. unfold builds.
    destruct (init (strip (ChatScreen.text_input s)) true _);
      [symmetry; apply app_nil_r|].
    destruct (init ChatScreen.typing_text false []); [symmetry; apply app_nil_r|].
    destruct (init reply false _); reflexivity.
Qed.

Lemma exchange_sends_user_turn_twice_witness :
  exists prefix body,
    py_getitem body "prompt" =
      inr (PStr (prefix ++ lit "Human: " ++ strip (lit " What is Rocq? ") ++ newline
                        ++ lit "Human: " ++ strip (lit " What is Rocq? ") ++ newline
                        ++ lit "Assistant:")) /\
    wire (world_after (ChatScreen.exchange bubble_init_raises
                                           (serves (json_reply 200 hi_there))
                                           at_0915 at_0916
                                           (screen_with_input " What is Rocq? ")
                                           empty_world)) =
    wire empty_world ++ [].
Proof.
  apply (@exchange_sends_user_turn_twice
           bubble_init_raises (serves (json_reply 200 hi_there)) at_0915 at_0916
           (screen_with_input " What is Rocq? ") empty_world).
  vm_compute. discriminate.
Defined.

(** X18.  Whatever the constructor of [MessageBubble] does, an exchange
    stores a message only once its bubble is on the screen.  The history
    gains the trimmed text of the input field as a user message when the
    bubble of that message could be built, and then the input field is
    emptied; it gains what [generate_response] returned as an assistant
    message when the bubbles of the typing indicator and of the reply
    could be built as well.  The exchange returns exactly when all three
    bubbles could be built, and it leaves the client as it was, whatever
    the transport did.  When the first bubble cannot be built, history
    and input field stay as they were. *)
Theorem exchange_extends_history
        (init : pystr -> bool -> pystr -> option exc) (net : session)
        (now_sent now_answered : Helpers.datetime) (s : ChatScreen.t) (w : world) :
  strip (ChatScreen.text_input s) <> [] ->
  let m := strip (ChatScreen.text_input s) in
  let user_turn := DeepSeekAPI.Message (lit "user") m (Helpers.format_timestamp now_sent) in
  let out := ChatScreen.exchange init net now_sent now_answered s w in
  exists reply,
    result (DeepSeekAPI.generate_response
              net m (Some (ChatScreen.conversation_history s ++ [user_turn]))
              (ChatScreen.api s) w) = inr (PStr reply) /\
    let user_built := builds init m true (Helpers.format_timestamp now_sent) in
    let typing_built := builds init ChatScreen.typing_text false [] in
    let reply_built := builds init reply false (Helpers.format_timestamp now_answered) in
    ChatScreen.conversation_history (self_after out) =
      ChatScreen.conversation_history s
        ++ (if user_built
            then user_turn
                   :: (if typing_built && reply_built
                       then [DeepSeekAPI.Message (lit "assistant") reply
                                                 (Helpers.format_timestamp now_answered)]
                       else [])
            else []) /\
    ChatScreen.text_input (self_after out) =
      (if user_built then [] else ChatScreen.text_input s) /\
    ChatScreen.api (self_after out) = ChatScreen.api s /\
    (result out = inr tt <-> user_built && typing_built && reply_built = true).
Proof.
  intros Hm. cbv zeta.
  destruct (@exchange_run init net now_sent now_answered s w Hm) as [reply [Hreply Hrun]].
  cbv zeta in Hreply, Hrun. exists reply. rewrite Hreply, Hrun.
  split; [reflexivity|]. unfold builds.
  destruct (init (strip (ChatScreen.text_input s)) true _).
  { unfold result, self_after. simpl. rewrite app_nil_r.
    repeat split; discriminate. }
  destruct (init ChatScreen.typing_text false []).
  { unfold result, self_after. simpl. repeat split; discriminate. }
  destruct (init reply false _).
  { unfold result, self_after. simpl. repeat split; discriminate. }
  unfold result, self_after. simpl. rewrite <- app_assoc.
  repeat split.
Qed.

Lemma exchange_extends_history_witness :
  let s := screen_with_input " What is Rocq? " in
  let out := ChatScreen.exchange bubble_init_raises (serves (json_reply 200 hi_there))
                                 at_0915 at_0916 s empty_world in
  exists reply,
    result (DeepSeekAPI.generate_response
              (serves (json_reply 200 hi_there)) (strip (ChatScreen.text_input s))
              (Some (ChatScreen.conversation_history s
                       ++ [DeepSeekAPI.Message (lit "user") (strip (ChatScreen.text_input s))
                                               (Helpers.format_timestamp at_0915)]))
              (ChatScreen.api s) empty_world) = inr (PStr reply) /\
    ChatScreen.conversation_history (self_after out) =
      ChatScreen.conversation_history s ++ [] /\
    ChatScreen.text_input (self_after out) = ChatScreen.text_input s /\
    ChatScreen.api (self_after out) = ChatScreen.api s /\
    (result out = inr tt <-> false = true).
Proof.
  apply (@exchange_extends_history
           bubble_init_raises (serves (json_reply 200 hi_there)) at_0915 at_0916
           (screen_with_input " What is Rocq? ") empty_world).
  vm_compute. discriminate.
Defined.

(** X19.  A failure is stored like an answer: when the server replies with
    a status other than 200, the text that enters the history as the
    assistant's message, and so the context of the prompts to come, is
    the error text [Error: HTTP <status>].  As for every reply, it enters
    only when the three bubbles of the exchange could be built; the
    user's message enters when its own bubble could be built. *)
Theorem failed_exchange_is_remembered
        (init : pystr -> bool -> pystr -> option exc) (r : response)
        (now_sent now_answered : Helpers.datetime) (s : ChatScreen.t) (w : world) :
  strip (ChatScreen.text_input s) <> [] ->
  status_code r <> 200 ->
  let m := strip (ChatScreen.text_input s) in
  let failure := lit "Error: HTTP " ++ str_of_int (status_code r) in
  ChatScreen.conversation_history
    (self_after (ChatScreen.exchange init (serves r) now_sent now_answered s w)) =
  ChatScreen.conversation_history s
    ++ (if builds init m true (Helpers.format_timestamp now_sent)
        then DeepSeekAPI.Message (lit "user") m (Helpers.format_timestamp now_sent)
               :: (if builds init ChatScreen.typing_text false []
                      && builds init failure false (Helpers.format_timestamp now_answered)
                   then [DeepSeekAPI.Message (lit "assistant") failure
                                             (Helpers.format_timestamp now_answered)]
                   else [])
        else []).
Proof.
  intros Hm Hs. cbv zeta.
  destruct (@exchange_run init (serves r) now_sent now_answered s w Hm)
    as [reply [Hreply Hrun]].
  cbv zeta in Hreply, Hrun.
  assert (Hr : inr (PStr reply)
               = inr (A := exc) (PStr (lit "Error: HTTP " ++ str_of_int (status_code r)))).
  { pose proof (@DeepSeekAPI_generate_response_on_other_status
                  r (strip (ChatScreen.text_input s))
                  (Some (ChatScreen.conversation_history s
                           ++ [DeepSeekAPI.Message (lit "user")
                                                   (strip (ChatScreen.text_input s))
                                                   (Helpers.format_timestamp now_sent)]))
                  (ChatScreen.api s) w Hs) as Hstatus.
    rewrite Hreply in Hstatus. exact Hstatus. }
  injection Hr as ->. rewrite Hrun. unfold builds.
  destruct (init (strip (ChatScreen.text_input s)) true _).
  { unfold self_after. simpl. now rewrite app_nil_r. }
  destruct (init ChatScreen.typing_text false []); [reflexivity|].
  destruct (init _ false _); [reflexivity|].
  unfold self_after. simpl. now rewrite <- app_assoc.
Qed.

Lemma failed_exchange_is_remembered_witness :
  ChatScreen.conversation_history
    (self_after (ChatScreen.exchange bubble_init_raises (serves not_found)
                                     at_0915 at_0916 (screen_with_input "Hello")
                                     empty_world)) =
  ChatScreen.conversation_history (screen_with_input "Hello") ++ [].
Proof.
  apply (@failed_exchange_is_remembered
           bubble_init_raises not_found at_0915 at_0916 (screen_with_input "Hello")
           empty_world).
  - vm_compute. discriminate.
  - simpl. lia.
Defined.

Lemma filter_keeps_older_bubbles (l : list ChatScreen.bubble) (n : nat) :
  (forall b, In b l -> (ChatScreen.bubble_id b < n)%nat) ->
  filter (fun x => negb (ChatScreen.bubble_id x =? S n)%nat) l = l.
Proof.
  induction l as [|b l IH]; intros Hids; [reflexivity|].
  simpl. replace (ChatScreen.bubble_id b =? S n)%nat with false.
  - simpl. f_equal. apply IH. intros b' Hb'. apply Hids. now right.
  - symmetry. apply Nat.eqb_neq. specialize (Hids b (or_introl eq_refl)). lia.
Qed.

(** One more message, with its bubble, on a screen that shows its
    history. *)
Lemma shows_history_add (s : ChatScreen.t) (msg : DeepSeekAPI.message) (is_user : bool)
      (timestamp text_input : pystr) :
  shows_history s ->
  shows_history
    (ChatScreen.Screen
       (ChatScreen.api s)
       (ChatScreen.conversation_history s ++ [msg])
       (ChatScreen.messages_layout s
          ++ [ChatScreen.Bubble (ChatScreen.bubbles_built s) (DeepSeekAPI.content msg)
                                is_user timestamp])
       text_input (ChatScreen.connection_btn s) (S (ChatScreen.bubbles_built s))).
Proof.
  intros [Htexts Hids]. unfold shows_history.
  cbn [ChatScreen.messages_layout ChatScreen.conversation_history ChatScreen.bubbles_built].
  split.
  - rewrite !map_app, Htexts. reflexivity.
  - intros b Hb. rewrite in_app_iff in Hb.
    destruct Hb as [Hb | [<- | []]]; [specialize (Hids b Hb); lia | simpl; lia].
Qed.

(** X20.  Whatever the constructor of [MessageBubble] does, the bubbles on
    the screen are the messages of the history, in the same order: this
    holds once [build_ui] has run, it holds after [clear_chat] whatever
    was shown before, and an exchange keeps it, also when one of them
    ends with the constructor's exception; in particular the typing
    indicator is gone when an exchange has got as far as the reply. *)
Theorem screen_shows_the_history
        (init : pystr -> bool -> pystr -> option exc) (now : Helpers.datetime) (w : world) :
  shows_history (self_after (ChatScreen.build_ui init now ChatScreen.blank w)) /\
  (forall s, shows_history (self_after (ChatScreen.clear_chat init now s w))) /\
  (forall net later s,
      shows_history s ->
      shows_history (self_after (ChatScreen.exchange init net now later s w))).
Proof.
  assert (Hempty : forall a t c k,
             shows_history (ChatScreen.Screen a [] [] t c k)).
  { intros a t c k. split; [reflexivity | intros b []]. }
  split; [|split].
  - unfold ChatScreen.build_ui. rewrite add_message_run.
    destruct (init _ _ _); unfold self_after; cbn [fst snd]; [apply Hempty|].
    apply (@shows_history_add
             ChatScreen.blank
             (DeepSeekAPI.Message (lit "assistant") ChatScreen.greeting
                                  (Helpers.format_timestamp now))
             false (Helpers.format_timestamp now) []).
    apply Hempty.
  - intros s. unfold ChatScreen.clear_chat. rewrite add_message_run.
    destruct (init _ _ _); unfold self_after; cbn [fst snd]; [apply Hempty|].
    apply (@shows_history_add
             (ChatScreen.Screen (ChatScreen.api s) [] [] (ChatScreen.text_input s)
                                (ChatScreen.connection_btn s) (ChatScreen.bubbles_built s))
             (DeepSeekAPI.Message (lit "assistant") ChatScreen.greeting
                                  (Helpers.format_timestamp now))
             false (Helpers.format_timestamp now) (ChatScreen.text_input s)).
    apply Hempty.
  - intros net later s Hshows.
    destruct (strip (ChatScreen.text_input s)) as [|c m] eqn:Hm.
    + unfold ChatScreen.exchange, ChatScreen.send_message, bind, get_self.
      now rewrite Hm.
    + assert (Hne : strip (ChatScreen.text_input s) <> []) by (rewrite Hm; discriminate).
      destruct (@exchange_run init net now later s w Hne) as [reply [_ Hrun]].
      cbv zeta in Hrun. rewrite Hrun. clear Hrun.
      set (user_turn := DeepSeekAPI.Message (lit "user") (strip (ChatScreen.text_input s))
                                            (Helpers.format_timestamp now)).
      pose proof (@shows_history_add s user_turn true (Helpers.format_timestamp now) []
                                     Hshows) as Hstored.
      cbn [DeepSeekAPI.content user_turn] in Hstored.
      destruct (init (strip (ChatScreen.text_input s)) true _); [exact Hshows|].
      destruct (init ChatScreen.typing_text false []); [exact Hstored|].
      assert (Hshown :
                filter (fun x => negb (ChatScreen.bubble_id x =? S (ChatScreen.bubbles_built s))%nat)
                       (ChatScreen.messages_layout s
                          ++ [ChatScreen.Bubble (ChatScreen.bubbles_built s)
                                                (strip (ChatScreen.text_input s)) true
                                                (Helpers.format_timestamp now);
                              ChatScreen.Bubble (S (ChatScreen.bubbles_built s))
                                                ChatScreen.typing_text false []])
                = ChatScreen.messages_layout s
                    ++ [ChatScreen.Bubble (ChatScreen.bubbles_built s)
                                          (strip (ChatScreen.text_input s)) true
                                          (Helpers.format_timestamp now)]).
      { rewrite filter_app, filter_keeps_older_bubbles by apply Hshows.
        cbn [filter ChatScreen.bubble_id]. rewrite Nat.eqb_refl.
        replace (ChatScreen.bubbles_built s =? S (ChatScreen.bubbles_built s))%nat
          with false by (symmetry; apply Nat.eqb_neq; lia).
        reflexivity. }
      rewrite Hshown.
      destruct Hstored as [Htexts Hids].
      cbn [ChatScreen.messages_layout ChatScreen.conversation_history
           ChatScreen.bubbles_built] in Htexts, Hids.
      assert (Hremoved :
                shows_history
                  (ChatScreen.Screen
                     (ChatScreen.api s)
                     (ChatScreen.conversation_history s ++ [user_turn])
                     (ChatScreen.messages_layout s
                        ++ [ChatScreen.Bubble (ChatScreen.bubbles_built s)
                                              (strip (ChatScreen.text_input s)) true
                                              (Helpers.format_timestamp now)])
                     [] (ChatScreen.connection_btn s)
                     (S (S (ChatScreen.bubbles_built s))))).
      { split; [exact Htexts|].
        intros b Hb. specialize (Hids b Hb).
        cbn [ChatScreen.bubbles_built]. lia. }
      destruct (init reply false _); unfold self_after; cbn [fst snd]; [exact Hremoved|].
      exact (@shows_history_add
               _ (DeepSeekAPI.Message (lit "assistant") reply (Helpers.format_timestamp later))
               false (Helpers.format_timestamp later) [] Hremoved).
Qed.

Lemma screen_shows_the_history_witness :
  shows_history (screen_with_input "Hello") /\
  shows_history
    (self_after (ChatScreen.exchange bubble_init_raises (serves (json_reply 200 hi_there))
                                     at_0915 at_0916 (screen_with_input "Hello")
                                     empty_world)).
Proof.
  assert (H : shows_history (screen_with_input "Hello")).
  { split; [reflexivity|]. intros b [<- | []]. simpl. lia. }
  split; [exact H|].
  apply (@screen_shows_the_history bubble_init_raises at_0915 empty_world).
  exact H.
Defined.

(** X21.  [clear_chat] empties the history and the screen before it builds
    the welcome message again.  When the bubble of the welcome message
    can be built, the history holds that message and nothing else; when
    the constructor raises, [clear_chat] ends with that exception and
    history and screen stay empty.  Either way the history is what
    [build_ui] leaves on a new screen, the settings of the client, the
    connection button and the text typed so far stay as they are, and
    nothing is sent. *)
Theorem clear_chat_restarts_conversation
        (init : pystr -> bool -> pystr -> option exc) (now : Helpers.datetime)
        (s : ChatScreen.t) (w : world) :
  let out := ChatScreen.clear_chat init now s w in
  let welcome := DeepSeekAPI.Message (lit "assistant") ChatScreen.greeting
                                     (Helpers.format_timestamp now) in
  match init ChatScreen.greeting false (Helpers.format_timestamp now) with
  | None =>
      result out = inr tt /\
      ChatScreen.conversation_history (self_after out) = [welcome] /\
      List.map ChatScreen.bubble_text (ChatScreen.messages_layout (self_after out))
        = [ChatScreen.greeting]
  | Some e =>
      result out = inl e /\
      ChatScreen.conversation_history (self_after out) = [] /\
      ChatScreen.messages_layout (self_after out) = []
  end /\
  ChatScreen.conversation_history (self_after out) =
    ChatScreen.conversation_history
      (self_after (ChatScreen.build_ui init now ChatScreen.blank w)) /\
  ChatScreen.api (self_after out) = ChatScreen.api s /\
  ChatScreen.connection_btn (self_after out) = ChatScreen.connection_btn s /\
  ChatScreen.text_input (self_after out) = ChatScreen.text_input s /\
  world_after out = w.
Proof.
  intros out welcome. subst out welcome.
  unfold ChatScreen.clear_chat, ChatScreen.build_ui.
  rewrite !add_message_run.
  destruct (init ChatScreen.greeting false (Helpers.format_timestamp now));
    repeat split.
Qed.

Lemma clear_chat_restarts_conversation_witness :
  let out := ChatScreen.clear_chat bubble_init_raises at_0916
                                   (screen_with_input "draft") empty_world in
  (result out = inl no_texture_size /\
   ChatScreen.conversation_history (self_after out) = [] /\
   ChatScreen.messages_layout (self_after out) = []) /\
  ChatScreen.conversation_history (self_after out) =
    ChatScreen.conversation_history
      (self_after (ChatScreen.build_ui bubble_init_raises at_0916
                                       ChatScreen.blank empty_world)) /\
  ChatScreen.api (self_after out) = ChatScreen.api (screen_with_input "draft") /\
  ChatScreen.connection_btn (self_after out) =
    ChatScreen.connection_btn (screen_with_input "draft") /\
  ChatScreen.text_input (self_after out) = ChatScreen.text_input (screen_with_input "draft") /\
  world_after out = empty_world.
Proof.
  exact (@clear_chat_restarts_conversation
           bubble_init_raises at_0916 (screen_with_input "draft") empty_world).
Defined.

(** The button after a check, from what the check returned. *)
Lemma ChatScreen_check_connection_run (net : session) (s : ChatScreen.t) (w : world) :
  ChatScreen.connection_btn (self_after (ChatScreen.check_connection net s w)) =
  match result (DeepSeekAPI.check_connection net (ChatScreen.api s) w) with
  | inr (PBool true) => ChatScreen.green
  | _ => ChatScreen.red
  end.
Proof.
  unfold ChatScreen.check_connection, ChatScreen.on_api, on_part, bind.
  rewrite DeepSeekAPI_check_connection_run. cbv zeta.
  destruct (net _) as [e | r]; [reflexivity|].
  destruct (status_code r =? 200); [|reflexivity].
  destruct (listed_names r) as [e | names]; [reflexivity|].
  unfold result. simpl.
  destruct (str_in_list _ names); reflexivity.
Qed.

(** A check changes neither the address nor the model of the client, and
    sends the one listing request. *)
Lemma ChatScreen_check_connection_frame (net : session) (s : ChatScreen.t) (w : world) :
  let out := ChatScreen.check_connection net s w in
  DeepSeekAPI.base_url (ChatScreen.api (self_after out))
    = DeepSeekAPI.base_url (ChatScreen.api s) /\
  DeepSeekAPI.model_name (ChatScreen.api (self_after out))
    = DeepSeekAPI.model_name (ChatScreen.api s) /\
  wire (world_after out) = wire w ++ [DeepSeekAPI.tags_request (ChatScreen.api s)].
Proof.
  cbv zeta.
  unfold ChatScreen.check_connection, ChatScreen.on_api, on_part, bind,
    ChatScreen.update_connection_status, ChatScreen.set_connection_btn.
  rewrite DeepSeekAPI_check_connection_run. cbv zeta.
  destruct (net _) as [e | r]; [repeat split|].
  destruct (status_code r =? 200); [|repeat split].
  destruct (listed_names r) as [e | names]; [repeat split|].
  simpl. destruct (str_in_list _ names); repeat split.
Qed.

(** X22.  After a check the connection button is green exactly when the
    server answered the listing with status 200 and the configured model
    name is among the names listed; in every other case (another status,
    an unreadable list, a transport fault) it is red.  [save_settings]
    stores the address and the model it is given and makes this check
    against them. *)
Theorem connection_button_follows_check (net : session) (s : ChatScreen.t) (w : world) :
  (ChatScreen.connection_btn (self_after (ChatScreen.check_connection net s w))
   = ChatScreen.green <->
   exists r names,
     net (DeepSeekAPI.tags_request (ChatScreen.api s)) = inr r /\
     status_code r = 200 /\
     listed_names r = inr names /\
     In (PStr (DeepSeekAPI.model_name (ChatScreen.api s))) names) /\
  (forall url model,
      let out := ChatScreen.save_settings net url model s w in
      DeepSeekAPI.base_url (ChatScreen.api (self_after out)) = url /\
      DeepSeekAPI.model_name (ChatScreen.api (self_after out)) = model /\
      wire (world_after out) =
        wire w ++ [Request GET (url ++ lit "/api/tags") None (Some 5) false] /\
      (ChatScreen.connection_btn (self_after out) = ChatScreen.green <->
       exists r names,
         net (Request GET (url ++ lit "/api/tags") None (Some 5) false) = inr r /\
         status_code r = 200 /\
         listed_names r = inr names /\
         In (PStr model) names)).
Proof.
  assert (Hcheck : forall s0,
             ChatScreen.connection_btn (self_after (ChatScreen.check_connection net s0 w))
             = ChatScreen.green <->
             exists r names,
               net (DeepSeekAPI.tags_request (ChatScreen.api s0)) = inr r /\
               status_code r = 200 /\
               listed_names r = inr names /\
               In (PStr (DeepSeekAPI.model_name (ChatScreen.api s0))) names).
  { intros s0. rewrite ChatScreen_check_connection_run.
    rewrite DeepSeekAPI_check_connection_run. cbv zeta.
    destruct (net _) as [e | r] eqn:Hnet.
    - split; [discriminate|]. intros [r [names [H _]]]. discriminate.
    - destruct (status_code r =? 200) eqn:Hs.
      + apply Z.eqb_eq in Hs.
        destruct (listed_names r) as [e | names] eqn:Hn.
        * split; [discriminate|]. intros [r' [names [H [_ [Hn' _]]]]].
          injection H as <-. congruence.
        * unfold result. simpl.
          destruct (str_in_list _ names) eqn:Hin.
          -- split; [|reflexivity]. intros _. exists r, names.
             repeat split; try assumption. now apply str_in_list_In.
          -- split; [discriminate|]. intros [r' [names' [H [_ [Hn' Hin']]]]].
             injection H as <-. rewrite Hn in Hn'. injection Hn' as <-.
             apply str_in_list_In in Hin'. congruence.
      + apply Z.eqb_neq in Hs.
        split; [discriminate|]. intros [r' [names [H [Hs' _]]]].
        injection H as <-. contradiction. }
  split; [apply Hcheck|].
  intros url model out. subst out. unfold ChatScreen.save_settings.
  destruct (ChatScreen_check_connection_frame
              net
              (ChatScreen.with_api
                 (DeepSeekAPI.Self url model (DeepSeekAPI.is_connected (ChatScreen.api s))) s)
              w) as [Hurl [Hmodel Hwire]].
  split; [exact Hurl|]. split; [exact Hmodel|]. split; [exact Hwire|].
  apply (Hcheck (ChatScreen.with_api
                   (DeepSeekAPI.Self url model
                                     (DeepSeekAPI.is_connected (ChatScreen.api s))) s)).
Qed.

(* ===================================================================== *)
(** * The handlers of [DeepSeekAssistantApp] *)
(* ===================================================================== *)

(** [OllamaClient.generate_response] as a whole: a value comes back, the
    client is as before, one request has been sent. *)
Lemma OllamaClient_generate_response_outcome
      (net : session) (prompt : pystr) (kwargs : list (pystr * pyval))
      (self : OllamaClient.t) (w : world) :
  exists v w',
    OllamaClient.generate_response net prompt kwargs self w = (inr v, self, w') /\
    wire w' =
      wire w ++ [Request POST (OllamaClient.base_url self ++ lit "/api/generate")
                         (Some (OllamaClient.generate_params self prompt kwargs))
                         (Some 120) false].
Proof.
  run_generate. unfold eval, ret, raise.
  repeat (break_match; simpl); eexists; eexists; (split; [reflexivity|]); reflexivity.
Qed.

Lemma add_system_message_run (now : Helpers.datetime) (text : pystr)
      (s : DeepSeekAssistantApp.t) (w : world) :
  DeepSeekAssistantApp._add_system_message now text s w =
  (inr tt,
   DeepSeekAssistantApp.App
     (DeepSeekAssistantApp.ollama_client s) (DeepSeekAssistantApp.chat_history s)
     (DeepSeekAssistantApp.is_connected s)
     (DeepSeekAssistantApp.chat_layout s
        ++ [DeepSeekAssistantApp.SystemMessage
              (DeepSeekAssistantApp.widgets_built s)
              (DeepSeekAssistantApp.system_markup (Helpers.format_timestamp now) text)])
     (DeepSeekAssistantApp.text_input s) (DeepSeekAssistantApp.status_label s)
     (S (DeepSeekAssistantApp.widgets_built s)),
   w).
Proof. reflexivity. Qed.





Lemma on_connect_run (net : session) (now : Helpers.datetime)
      (s : DeepSeekAssistantApp.t) (w : world) :
  DeepSeekAssistantApp._on_connect net now s w =
  let rq := Request GET (OllamaClient.base_url (DeepSeekAssistantApp.ollama_client s)
                           ++ lit "/api/tags") None (Some 5) false in
  let up := match net rq with
            | inr r => status_code r =? 200
            | inl _ => false
            end in
  (inr tt,
   DeepSeekAssistantApp.App
     (DeepSeekAssistantApp.ollama_client s) (DeepSeekAssistantApp.chat_history s)
     (PBool up)
     (DeepSeekAssistantApp.chat_layout s
        ++ [DeepSeekAssistantApp.SystemMessage
              (DeepSeekAssistantApp.widgets_built s)
              (DeepSeekAssistantApp.system_markup
                 (Helpers.format_timestamp now)
                 (if up then DeepSeekAssistantApp.connected_message
                  else DeepSeekAssistantApp.disconnected_message))])
     (DeepSeekAssistantApp.text_input s)
     (if up then DeepSeekAssistantApp.connected_text
      else DeepSeekAssistantApp.disconnected_text)
     (S (DeepSeekAssistantApp.widgets_built s)),
   world_after (OllamaClient.check_connection
                  net (DeepSeekAssistantApp.ollama_client s) w)).
Proof.
  unfold DeepSeekAssistantApp._on_connect, DeepSeekAssistantApp.on_client, on_part,
    DeepSeekAssistantApp._update_connection_status, bind,
    DeepSeekAssistantApp.set_is_connected, DeepSeekAssistantApp.update_status.
  rewrite OllamaClient_check_connection_run. cbv zeta.
  destruct (net _) as [e | r]; [reflexivity|].
  cbn [py_truth]. destruct (status_code r =? 200); reflexivity.
Qed.

(** X24.  After [Connect] (and after the check at start-up) the
    application counts as connected exactly when the server answered the
    listing with status 200, whatever models it lists; the status
    indicator reads accordingly, and a system message tells the outcome. *)
Theorem connect_follows_the_listing
        (net : session) (now : Helpers.datetime)
        (s : DeepSeekAssistantApp.t) (w : world) :
  let rq := Request GET (OllamaClient.base_url (DeepSeekAssistantApp.ollama_client s)
                           ++ lit "/api/tags") None (Some 5) false in
  let up := match net rq with
            | inr r => status_code r =? 200
            | inl _ => false
            end in
  let out := DeepSeekAssistantApp._on_connect net now s w in
  DeepSeekAssistantApp._check_initial_connection net now s w = out /\
  result out = inr tt /\
  DeepSeekAssistantApp.is_connected (self_after out) = PBool up /\
  DeepSeekAssistantApp.status_label (self_after out) =
    (if up then DeepSeekAssistantApp.connected_text
     else DeepSeekAssistantApp.disconnected_text) /\
  DeepSeekAssistantApp.chat_layout (self_after out) =
    DeepSeekAssistantApp.chat_layout s
      ++ [DeepSeekAssistantApp.SystemMessage
            (DeepSeekAssistantApp.widgets_built s)
            (DeepSeekAssistantApp.system_markup
               (Helpers.format_timestamp now)
               (if up then DeepSeekAssistantApp.connected_message
                else DeepSeekAssistantApp.disconnected_message))] /\
  DeepSeekAssistantApp.chat_history (self_after out) = DeepSeekAssistantApp.chat_history s.
Proof.
  cbv zeta. split; [reflexivity|].
  rewrite on_connect_run. cbv zeta.
  destruct (net _) as [e | r]; [repeat split|].
  destruct (status_code r =? 200); repeat split.
Qed.

Section AppFacts.

Variable init : pystr -> bool -> pystr -> option exc.
Hypothesis init_returns : forall text is_user timestamp, init text is_user timestamp = None.

Lemma add_chat_message_run (now : Helpers.datetime) (text : pyval) (is_user : bool)
      (shown : pystr) (s : DeepSeekAssistantApp.t) (w : world) :
  Helpers.sanitize_value text = inr shown ->
  DeepSeekAssistantApp._add_chat_message init now text is_user s w =
  let x := DeepSeekAssistantApp.ChatMessageWidget
             (DeepSeekAssistantApp.widgets_built s) shown is_user
             (Helpers.format_timestamp now) in
  (inr x,
   DeepSeekAssistantApp.App
     (DeepSeekAssistantApp.ollama_client s)
     (DeepSeekAssistantApp.chat_history s
        ++ [DeepSeekAssistantApp.Entry text is_user (Helpers.format_timestamp now)])
     (DeepSeekAssistantApp.is_connected s)
     (DeepSeekAssistantApp.chat_layout s ++ [x])
     (DeepSeekAssistantApp.text_input s) (DeepSeekAssistantApp.status_label s)
     (S (DeepSeekAssistantApp.widgets_built s)),
   w).
Proof.
  intros Hshown.
  unfold DeepSeekAssistantApp._add_chat_message, DeepSeekAssistantApp.ChatMessage,
    bind, eval, ret.
  cbv zeta. rewrite Hshown. cbn beta iota. rewrite init_returns. reflexivity.
Qed.

Lemma add_chat_message_fails (now : Helpers.datetime) (text : pyval) (is_user : bool)
      (e : exc) (s : DeepSeekAssistantApp.t) (w : world) :
  Helpers.sanitize_value text = inl e ->
  DeepSeekAssistantApp._add_chat_message init now text is_user s w = (inl e, s, w).
Proof.
  intros He. unfold DeepSeekAssistantApp._add_chat_message. cbv zeta.
  rewrite He. reflexivity.
Qed.

Lemma sanitize_value_of_text (m : pystr) :
  m <> [] -> Helpers.sanitize_value (PStr m) = inr (Helpers.sanitize_text m).
Proof. destruct m; [contradiction | reflexivity]. Qed.

(** [Send] while connected, from the text in the input field to the state
    it leaves. *)
Lemma on_send_message_run (net : session)
      (now now_thinking now_answered : Helpers.datetime)
      (s : DeepSeekAssistantApp.t) (w : world) :
  py_truth (DeepSeekAssistantApp.is_connected s) = true ->
  strip (DeepSeekAssistantApp.text_input s) <> [] ->
  let n := DeepSeekAssistantApp.widgets_built s in
  let m := strip (DeepSeekAssistantApp.text_input s) in
  let client := DeepSeekAssistantApp.ollama_client s in
  let history :=
    DeepSeekAssistantApp.chat_history s
      ++ [DeepSeekAssistantApp.Entry (PStr m) true (Helpers.format_timestamp now);
          DeepSeekAssistantApp.Entry (PStr DeepSeekAssistantApp.thinking_text) false
                                     (Helpers.format_timestamp now_thinking)] in
  let layout :=
    filter (fun y => negb (DeepSeekAssistantApp.widget_id y =? S n)%nat)
           (DeepSeekAssistantApp.chat_layout s
              ++ [DeepSeekAssistantApp.ChatMessageWidget
                    n (Helpers.sanitize_text m) true (Helpers.format_timestamp now);
                  DeepSeekAssistantApp.ChatMessageWidget
                    (S n) (Helpers.sanitize_text DeepSeekAssistantApp.thinking_text) false
                    (Helpers.format_timestamp now_thinking)]) in
  exists reply w',
    OllamaClient.generate_response net m [] client w = (inr reply, client, w') /\
    wire w' =
      wire w ++ [Request POST (OllamaClient.base_url client ++ lit "/api/generate")
                         (Some (OllamaClient.generate_params client m []))
                         (Some 120) false] /\
    DeepSeekAssistantApp._on_send_message init net now now_thinking now_answered s w =
    match Helpers.sanitize_value reply with
    | inr shown =>
        (inr tt,
         DeepSeekAssistantApp.App
           client
           (history ++ [DeepSeekAssistantApp.Entry reply false
                                                   (Helpers.format_timestamp now_answered)])
           (DeepSeekAssistantApp.is_connected s)
           (layout ++ [DeepSeekAssistantApp.ChatMessageWidget
                         (S (S n)) shown false (Helpers.format_timestamp now_answered)])
           [] (DeepSeekAssistantApp.status_label s) (S (S (S n))),
         w')
    | inl e =>
        (inl e,
         DeepSeekAssistantApp.App client history (DeepSeekAssistantApp.is_connected s)
                                  layout [] (DeepSeekAssistantApp.status_label s)
                                  (S (S n)),
         w')
    end.
Proof.
  intros Hon Hm. cbv zeta.
  destruct (OllamaClient_generate_response_outcome
              net (strip (DeepSeekAssistantApp.text_input s)) []
              (DeepSeekAssistantApp.ollama_client s) w) as [reply [w' [Hgen Hwire]]].
  exists reply, w'. split; [exact Hgen|]. split; [exact Hwire|].
  unfold DeepSeekAssistantApp._on_send_message.
  unfold bind at 1. unfold get_self at 1. rewrite Hon. cbn [negb].
  destruct (strip (DeepSeekAssistantApp.text_input s)) as [|c m] eqn:Em; [contradiction|].
  unfold bind at 1. unfold DeepSeekAssistantApp.set_text_input at 1.
  unfold bind at 1.
  rewrite (@add_chat_message_run _ (PStr (c :: m)) true (Helpers.sanitize_text (c :: m)))
    by reflexivity.
  cbv zeta. unfold bind at 1.
  rewrite (@add_chat_message_run
             _ (PStr DeepSeekAssistantApp.thinking_text) false
             (Helpers.sanitize_text DeepSeekAssistantApp.thinking_text))
    by reflexivity.
  cbv zeta. unfold bind at 1.
  unfold DeepSeekAssistantApp.on_client, on_part.
  cbn [DeepSeekAssistantApp.ollama_client DeepSeekAssistantApp.chat_history
       DeepSeekAssistantApp.is_connected DeepSeekAssistantApp.chat_layout
       DeepSeekAssistantApp.text_input DeepSeekAssistantApp.status_label
       DeepSeekAssistantApp.widgets_built].
  rewrite Hgen.
  unfold DeepSeekAssistantApp._update_ai_response, DeepSeekAssistantApp.with_client.
  unfold bind at 1. unfold DeepSeekAssistantApp.remove_widget at 1.
  cbn [DeepSeekAssistantApp.ollama_client DeepSeekAssistantApp.chat_history
       DeepSeekAssistantApp.is_connected DeepSeekAssistantApp.chat_layout
       DeepSeekAssistantApp.text_input DeepSeekAssistantApp.status_label
       DeepSeekAssistantApp.widgets_built DeepSeekAssistantApp.widget_id].
  unfold bind at 1.
  destruct (Helpers.sanitize_value reply) as [e | shown] eqn:Hshown.
  - rewrite (@add_chat_message_fails _ reply false e) by assumption.
    rewrite <- !app_assoc. reflexivity.
  - rewrite (@add_chat_message_run _ reply false shown) by assumption.
    cbv zeta. unfold ret.
    cbn [DeepSeekAssistantApp.ollama_client DeepSeekAssistantApp.chat_history
         DeepSeekAssistantApp.is_connected DeepSeekAssistantApp.chat_layout
         DeepSeekAssistantApp.text_input DeepSeekAssistantApp.status_label
         DeepSeekAssistantApp.widgets_built].
    rewrite <- !app_assoc. reflexivity.
Qed.

End AppFacts.

(** X25.  [Send] while connected asks the model about the trimmed text of
    the input field alone, without any of the history, and empties the
    field.  When the answer can be shown, the history gains three
    entries: the user's message, the thinking indicator, and the answer;
    the indicator is taken off the screen but stays in the history. *)
Theorem send_keeps_thinking_indicator_in_history
        (init : pystr -> bool -> pystr -> option exc) (net : session)
        (now now_thinking now_answered : Helpers.datetime)
        (s : DeepSeekAssistantApp.t) (w : world) :
  builds_every_bubble init ->
  py_truth (DeepSeekAssistantApp.is_connected s) = true ->
  strip (DeepSeekAssistantApp.text_input s) <> [] ->
  let m := strip (DeepSeekAssistantApp.text_input s) in
  let client := DeepSeekAssistantApp.ollama_client s in
  let out :=
    DeepSeekAssistantApp._on_send_message init net now now_thinking now_answered s w in
  exists reply,
    result (OllamaClient.generate_response net m [] client w) = inr reply /\
    wire (world_after out) =
      wire w ++ [Request POST (OllamaClient.base_url client ++ lit "/api/generate")
                         (Some (OllamaClient.generate_params client m []))
                         (Some 120) false] /\
    py_getitem (OllamaClient.generate_params client m []) "prompt" = inr (PStr m) /\
    DeepSeekAssistantApp.text_input (self_after out) = [] /\
    forall shown,
      Helpers.sanitize_value reply = inr shown ->
      result out = inr tt /\
      DeepSeekAssistantApp.chat_history (self_after out) =
        DeepSeekAssistantApp.chat_history s
          ++ [DeepSeekAssistantApp.Entry (PStr m) true (Helpers.format_timestamp now);
              DeepSeekAssistantApp.Entry (PStr DeepSeekAssistantApp.thinking_text) false
                                         (Helpers.format_timestamp now_thinking);
              DeepSeekAssistantApp.Entry reply false
                                         (Helpers.format_timestamp now_answered)] /\
      forall x, In x (DeepSeekAssistantApp.chat_layout (self_after out)) ->
                x <> DeepSeekAssistantApp.ChatMessageWidget
                       (S (DeepSeekAssistantApp.widgets_built s))
                       (Helpers.sanitize_text DeepSeekAssistantApp.thinking_text) false
                       (Helpers.format_timestamp now_thinking).
Proof.
  intros Hinit Hon Hm. cbv zeta.
  destruct (@on_send_message_run init Hinit net now now_thinking now_answered s w Hon Hm)
    as [reply [w' [Hgen [Hwire Hrun]]]].
  cbv zeta in Hgen, Hwire, Hrun.
  exists reply. rewrite Hgen, Hrun.
  split; [reflexivity|].
  split; [destruct (Helpers.sanitize_value reply); exact Hwire|].
  split; [reflexivity|].
  split; [destruct (Helpers.sanitize_value reply); reflexivity|].
  intros shown ->. split; [reflexivity|]. split.
  - unfold self_after. cbn [fst snd DeepSeekAssistantApp.chat_history].
    now rewrite <- app_assoc.
  - intros x Hx Heq. subst x. unfold self_after in Hx.
    cbn [fst snd DeepSeekAssistantApp.chat_layout] in Hx.
    apply in_app_iff in Hx. destruct Hx as [Hx | [Hx | []]].
    + apply filter_In in Hx. destruct Hx as [_ Hx].
      cbn [DeepSeekAssistantApp.widget_id] in Hx.
      now rewrite Nat.eqb_refl in Hx.
    + injection Hx as Hx _. lia.
Qed.

Lemma send_keeps_thinking_indicator_in_history_witness :
  let s := app_with_input true " Hello " in
  let net := serves (json_reply 200 hi_there) in
  let out :=
    DeepSeekAssistantApp._on_send_message chat_message_init_returns net
                                          at_0915 at_0915 at_0916 s empty_world in
  exists reply,
    result (OllamaClient.generate_response net (strip (lit " Hello ")) []
                                           OllamaClient.default empty_world) = inr reply /\
    wire (world_after out) =
      wire empty_world
        ++ [Request POST (OllamaClient.base_url OllamaClient.default ++ lit "/api/generate")
                    (Some (OllamaClient.generate_params OllamaClient.default
                                                        (strip (lit " Hello ")) []))
                    (Some 120) false] /\
    py_getitem (OllamaClient.generate_params OllamaClient.default (strip (lit " Hello ")) [])
               "prompt" = inr (PStr (strip (lit " Hello "))) /\
    DeepSeekAssistantApp.text_input (self_after out) = [] /\
    forall shown,
      Helpers.sanitize_value reply = inr shown ->
      result out = inr tt /\
      DeepSeekAssistantApp.chat_history (self_after out) =
        DeepSeekAssistantApp.chat_history s
          ++ [DeepSeekAssistantApp.Entry (PStr (strip (lit " Hello "))) true
                                         (Helpers.format_timestamp at_0915);
              DeepSeekAssistantApp.Entry (PStr DeepSeekAssistantApp.thinking_text) false
                                         (Helpers.format_timestamp at_0915);
              DeepSeekAssistantApp.Entry reply false
                                         (Helpers.format_timestamp at_0916)] /\
      forall x, In x (DeepSeekAssistantApp.chat_layout (self_after out)) ->
                x <> DeepSeekAssistantApp.ChatMessageWidget
                       (S (DeepSeekAssistantApp.widgets_built s))
                       (Helpers.sanitize_text DeepSeekAssistantApp.thinking_text) false
                       (Helpers.format_timestamp at_0915).
Proof.
  apply (@send_keeps_thinking_indicator_in_history
           chat_message_init_returns (serves (json_reply 200 hi_there))
           at_0915 at_0915 at_0916 (app_with_input true " Hello ") empty_world).
  - intros message is_user timestamp. reflexivity.
  - reflexivity.
  - vm_compute. discriminate.
Defined.

Example send_hi_there :
  List.map DeepSeekAssistantApp.text
           (DeepSeekAssistantApp.chat_history
              (self_after (DeepSeekAssistantApp._on_send_message
                             chat_message_init_returns (serves (json_reply 200 hi_there))
                             at_0915 at_0915 at_0916
                             (app_with_input true " Hello ") empty_world)))
  = [ PStr (lit "Hello"); PStr DeepSeekAssistantApp.thinking_text;
      PStr (lit " Hi there ") ].
Proof. reflexivity. Qed.



Section Keeps.

Variables (St : Type) (P : St -> Prop).

Lemma keeps_ret (A : Type) (a : A) : keeps P (ret a).
Proof. intros s w Hs. exact Hs. Qed.

Lemma keeps_raise (A : Type) (e : exc) : keeps P (raise (A := A) e).
Proof. intros s w Hs. exact Hs. Qed.

Lemma keeps_eval (A : Type) (r : res A) : keeps P (eval r).
Proof. intros s w Hs. destruct r; exact Hs. Qed.

Lemma keeps_get_self : keeps P get_self.
Proof. intros s w Hs. exact Hs. Qed.

(** A sequence keeps what both parts keep; the second part may rely on
    what the first is known to return. *)
Lemma keeps_bind (A B : Type) (c : Py St A) (k : A -> Py St B) (Q : A -> Prop) :
  keeps P c ->
  (forall s w a, P s -> result (c s w) = inr a -> Q a) ->
  (forall a, Q a -> keeps P (k a)) ->
  keeps P (bind c k).
Proof.
  intros Hc Hq Hk s w Hs. unfold bind, self_after.
  specialize (Hc s w Hs). specialize (Hq s w).
  unfold self_after, result in *.
  destruct (c s w) as [[[e | a] s'] w']; simpl in *; [exact Hc|].
  apply (Hk a (Hq a Hs eq_refl) s' w'). exact Hc.
Qed.

Lemma keeps_then (A B : Type) (c : Py St A) (k : A -> Py St B) :
  keeps P c -> (forall a, keeps P (k a)) -> keeps P (bind c k).
Proof.
  intros Hc Hk. apply keeps_bind with (Q := fun _ => True); auto.
Qed.

End Keeps.

Lemma sanitize_value_output (v : pyval) (shown : pystr) :
  Helpers.sanitize_value v = inr shown ->
  forall c, In c [0x3C; 0x3E; 0x22; 0x27; 0x0D]%N -> ~ In c shown.
Proof.
  unfold Helpers.sanitize_value. intros Hv c Hc Hin.
  destruct (negb (py_truth v)).
  - injection Hv as <-. contradiction.
  - destruct v; try discriminate. injection Hv as <-.
    apply sanitize_text_origin in Hin.
    destruct Hin as [-> | [Hin Hcr]]; [simpl in Hc; intuition discriminate|].
    destruct Hc as [<- | [<- | [<- | [<- | [<- | []]]]]];
      first [ congruence
            | revert Hin; apply html_escape_output; simpl; tauto ].
Qed.

Section SanitizedScreen.

Variable init : pystr -> bool -> pystr -> option exc.

Let clean := shows_sanitized_text.

Lemma keeps_same_layout (A : Type) (c : Py DeepSeekAssistantApp.t A) :
  (forall s w, DeepSeekAssistantApp.chat_layout (self_after (c s w))
               = DeepSeekAssistantApp.chat_layout s) ->
  keeps clean c.
Proof.
  intros Hsame s w Hs. unfold clean, shows_sanitized_text in *.
  rewrite Hsame. exact Hs.
Qed.

Lemma keeps_on_client (A : Type) (c : Py OllamaClient.t A) :
  keeps clean (DeepSeekAssistantApp.on_client c).
Proof.
  apply keeps_same_layout. intros s w.
  unfold DeepSeekAssistantApp.on_client, on_part, self_after.
  destruct (c _ w) as [[r p'] w']. reflexivity.
Qed.

Lemma keeps_add_widget (x : DeepSeekAssistantApp.widget) :
  widget_sanitized x -> keeps clean (DeepSeekAssistantApp.add_widget x).
Proof.
  intros Hx s w Hs id shown is_user timestamp Hin.
  unfold self_after in Hin. simpl in Hin. apply in_app_iff in Hin.
  destruct Hin as [Hin | [Heq | []]]; [now apply (Hs id shown is_user timestamp)|].
  subst x. exact Hx.
Qed.

Lemma keeps_remove_widget (x : DeepSeekAssistantApp.widget) :
  keeps clean (DeepSeekAssistantApp.remove_widget x).
Proof.
  intros s w Hs id shown is_user timestamp Hin.
  unfold self_after in Hin. simpl in Hin. apply filter_In in Hin.
  now apply (Hs id shown is_user timestamp).
Qed.

Lemma keeps_add_system_message (now : Helpers.datetime) (text : pystr) :
  keeps clean (DeepSeekAssistantApp._add_system_message now text).
Proof.
  unfold DeepSeekAssistantApp._add_system_message. cbv zeta.
  apply keeps_then.
  - now apply keeps_same_layout.
  - intros id. now apply keeps_add_widget.
Qed.

Lemma keeps_add_chat_message (now : Helpers.datetime) (text : pyval) (is_user : bool) :
  keeps clean (DeepSeekAssistantApp._add_chat_message init now text is_user).
Proof.
  unfold DeepSeekAssistantApp._add_chat_message. cbv zeta.
  apply keeps_bind
    with (Q := fun shown => forall c, In c [0x3C; 0x3E; 0x22; 0x27; 0x0D]%N -> ~ In c shown).
  - apply keeps_eval.
  - intros s w shown _ Hres.
    destruct (Helpers.sanitize_value text) as [e | shown'] eqn:Hv; [discriminate|].
    injection Hres as <-. now apply (sanitize_value_output text).
  - intros shown Hshown.
    apply keeps_bind with (Q := widget_sanitized).
    + unfold DeepSeekAssistantApp.ChatMessage.
      destruct (init shown is_user (Helpers.format_timestamp now)).
      * apply keeps_raise.
      * apply keeps_then; [now apply keeps_same_layout | intros id; apply keeps_ret].
    + intros s w x _ Hres. unfold DeepSeekAssistantApp.ChatMessage in Hres.
      destruct (init shown is_user (Helpers.format_timestamp now)); [discriminate|].
      injection Hres as <-. exact Hshown.
    + intros x Hx. apply keeps_then; [now apply keeps_add_widget|].
      intros _. apply keeps_then; [now apply keeps_same_layout|].
      intros _. apply keeps_ret.
Qed.

Lemma keeps_update_connection_status (now : Helpers.datetime) (connected : pyval) :
  keeps clean (DeepSeekAssistantApp._update_connection_status now connected).
Proof.
  unfold DeepSeekAssistantApp._update_connection_status.
  apply keeps_then; [now apply keeps_same_layout|]. intros _.
  apply keeps_then; [now apply keeps_same_layout|]. intros _.
  destruct (py_truth connected); apply keeps_add_system_message.
Qed.

(** X27.  Every chat message on the screen holds sanitized text: no angle
    bracket, no quote, no carriage return.  This is so at the start, and
    each handler keeps it, whatever the server answers, whether widgets
    can be built or not, and also when the handler ends with an
    exception. *)
Theorem chat_messages_are_shown_sanitized
        (net : session) (now now_thinking now_answered : Helpers.datetime) :
  shows_sanitized_text DeepSeekAssistantApp.initial /\
  keeps shows_sanitized_text
        (DeepSeekAssistantApp._on_send_message init net now now_thinking now_answered) /\
  keeps shows_sanitized_text (DeepSeekAssistantApp._on_connect net now) /\
  keeps shows_sanitized_text (DeepSeekAssistantApp._check_initial_connection net now) /\
  keeps shows_sanitized_text (DeepSeekAssistantApp._on_install_model net now now_thinking) /\
  keeps shows_sanitized_text (DeepSeekAssistantApp._on_clear_chat now).
Proof.
  fold clean. repeat split.
  - intros id shown is_user timestamp [].
  - unfold DeepSeekAssistantApp._on_send_message.
    apply keeps_then; [apply keeps_get_self|]. intros self.
    destruct (strip (DeepSeekAssistantApp.text_input self)) as [|c m] eqn:Hm;
      [apply keeps_ret|].
    destruct (negb (py_truth (DeepSeekAssistantApp.is_connected self)));
      [apply keeps_add_system_message|].
    apply keeps_then; [now apply keeps_same_layout|]. intros _.
    apply keeps_then; [apply keeps_add_chat_message|]. intros _.
    apply keeps_then; [apply keeps_add_chat_message|]. intros thinking_widget.
    apply keeps_then; [apply keeps_on_client|]. intros response.
    unfold DeepSeekAssistantApp._update_ai_response.
    apply keeps_then; [apply keeps_remove_widget|]. intros _.
    apply keeps_then; [apply keeps_add_chat_message|]. intros _.
    apply keeps_ret.
  - unfold DeepSeekAssistantApp._on_connect.
    apply keeps_then; [apply keeps_on_client|]. intros connected.
    apply keeps_update_connection_status.
  - unfold DeepSeekAssistantApp._check_initial_connection.
    apply keeps_then; [apply keeps_on_client|]. intros connected.
    apply keeps_update_connection_status.
  - unfold DeepSeekAssistantApp._on_install_model.
    apply keeps_then; [apply keeps_get_self|]. intros self.
    destruct (negb (py_truth (DeepSeekAssistantApp.is_connected self)));
      [apply keeps_add_system_message|].
    apply keeps_then; [apply keeps_add_system_message|]. intros _.
    apply keeps_then; [apply keeps_on_client|]. intros success.
    apply keeps_add_system_message.
  - intros s w _. unfold DeepSeekAssistantApp._on_clear_chat.
    rewrite add_system_message_run. unfold self_after. simpl.
    intros id shown is_user timestamp [H | []]. discriminate H.
Qed.

End SanitizedScreen.

(** [pull_model] as a whole: a boolean comes back, the client is as
    before, one request has been sent. *)
Lemma pull_model_outcome (net : session) (name : option pystr)
      (self : OllamaClient.t) (w : world) :
  exists ok w',
    OllamaClient.pull_model net name self w = (inr (PBool ok), self, w') /\
    wire w' = wire w ++ [OllamaClient.pull_request self (OllamaClient.or_model name self)].
Proof.
  unfold OllamaClient.pull_model, try_except, except_Exception, bind, get_self, send, log.
  cbn beta iota zeta. cbn [wire logged printed].
  destruct (net _) as [e | r]; [eexists; eexists; split; reflexivity|].
  destruct (status_code r =? 200); [|eexists; eexists; split; reflexivity].
  match goal with
  | |- context [OllamaClient.pull_lines ?ls ?s ?w0] =>
      destruct (@pull_lines_frame ls s w0) as [Hself Hwire];
      destruct (OllamaClient.pull_lines ls s w0) as [[[e | u] s2] w2]
  end; unfold self_after, world_after in *; simpl in *; subst.
  - eexists; eexists; split; [reflexivity | now rewrite Hwire].
  - destruct (lines_fault r); simpl;
      (eexists; eexists; split; [reflexivity | now rewrite Hwire]).
Qed.

Lemma on_install_model_on (net : session) (now later : Helpers.datetime)
      (s : DeepSeekAssistantApp.t) (w : world) (ok : bool) (w' : world) :
  py_truth (DeepSeekAssistantApp.is_connected s) = true ->
  OllamaClient.pull_model net None (DeepSeekAssistantApp.ollama_client s) w =
    (inr (PBool ok), DeepSeekAssistantApp.ollama_client s, w') ->
  DeepSeekAssistantApp._on_install_model net now later s w =
  (inr tt,
   DeepSeekAssistantApp.App
     (DeepSeekAssistantApp.ollama_client s) (DeepSeekAssistantApp.chat_history s)
     (DeepSeekAssistantApp.is_connected s)
     (DeepSeekAssistantApp.chat_layout s
        ++ [DeepSeekAssistantApp.SystemMessage
              (DeepSeekAssistantApp.widgets_built s)
              (DeepSeekAssistantApp.system_markup
                 (Helpers.format_timestamp now)
                 DeepSeekAssistantApp.installing_message);
            DeepSeekAssistantApp.SystemMessage
              (S (DeepSeekAssistantApp.widgets_built s))
              (DeepSeekAssistantApp.system_markup
                 (Helpers.format_timestamp later)
                 (if ok then DeepSeekAssistantApp.installed_message
                  else DeepSeekAssistantApp.install_failed_message))])
     (DeepSeekAssistantApp.text_input s) (DeepSeekAssistantApp.status_label s)
     (S (S (DeepSeekAssistantApp.widgets_built s))),
   w').
Proof.
  intros Hon Hpull.
  unfold DeepSeekAssistantApp._on_install_model.
  unfold bind at 1. unfold get_self at 1. rewrite Hon. cbn [negb].
  unfold bind at 1. rewrite add_system_message_run.
  unfold bind at 1. unfold DeepSeekAssistantApp.on_client, on_part.
  cbn [DeepSeekAssistantApp.ollama_client]. rewrite Hpull.
  rewrite add_system_message_run.
  unfold DeepSeekAssistantApp.with_client.
  cbn [DeepSeekAssistantApp.ollama_client DeepSeekAssistantApp.chat_history
       DeepSeekAssistantApp.is_connected DeepSeekAssistantApp.chat_layout
       DeepSeekAssistantApp.text_input DeepSeekAssistantApp.status_label
       DeepSeekAssistantApp.widgets_built py_truth].
  rewrite <- app_assoc. destruct ok; reflexivity.
Qed.

(** X28.  [Install Model] while connected pulls the configured model with
    one request and tells the outcome in system messages: first that the
    installation has begun, then that it succeeded when [pull_model]
    returned [True] and that it failed when it returned [False].  The
    history is not touched. *)
Theorem install_reports_the_pull
        (net : session) (now later : Helpers.datetime)
        (s : DeepSeekAssistantApp.t) (w : world) :
  py_truth (DeepSeekAssistantApp.is_connected s) = true ->
  let client := DeepSeekAssistantApp.ollama_client s in
  let n := DeepSeekAssistantApp.widgets_built s in
  let out := DeepSeekAssistantApp._on_install_model net now later s w in
  exists ok,
    result (OllamaClient.pull_model net None client w) = inr (PBool ok) /\
    result out = inr tt /\
    DeepSeekAssistantApp.chat_layout (self_after out) =
      DeepSeekAssistantApp.chat_layout s
        ++ [DeepSeekAssistantApp.SystemMessage
              n (DeepSeekAssistantApp.system_markup
                   (Helpers.format_timestamp now)
                   DeepSeekAssistantApp.installing_message);
            DeepSeekAssistantApp.SystemMessage
              (S n) (DeepSeekAssistantApp.system_markup
                       (Helpers.format_timestamp later)
                       (if ok then DeepSeekAssistantApp.installed_message
                        else DeepSeekAssistantApp.install_failed_message))] /\
    wire (world_after out) =
      wire w ++ [OllamaClient.pull_request client (OllamaClient.model client)] /\
    DeepSeekAssistantApp.chat_history (self_after out) = DeepSeekAssistantApp.chat_history s.
Proof.
  intros Hon. cbv zeta.
  destruct (pull_model_outcome net None (DeepSeekAssistantApp.ollama_client s) w)
    as [ok [w' [Hpull Hwire]]].
  exists ok. rewrite Hpull.
  rewrite (@on_install_model_on net now later s w ok w' Hon Hpull).
  repeat split. exact Hwire.
Qed.

Lemma install_reports_the_pull_witness :
  let s := app_with_input true "" in
  let net := serves (stream_reply [status_line "pulling manifest"; status_line "success"]) in
  let out := DeepSeekAssistantApp._on_install_model net at_0915 at_0916 s empty_world in
  exists ok,
    result (OllamaClient.pull_model net None OllamaClient.default empty_world)
      = inr (PBool ok) /\
    result out = inr tt /\
    DeepSeekAssistantApp.chat_layout (self_after out) =
      DeepSeekAssistantApp.chat_layout s
        ++ [DeepSeekAssistantApp.SystemMessage
              0 (DeepSeekAssistantApp.system_markup
                   (Helpers.format_timestamp at_0915)
                   DeepSeekAssistantApp.installing_message);
            DeepSeekAssistantApp.SystemMessage
              1 (DeepSeekAssistantApp.system_markup
                   (Helpers.format_timestamp at_0916)
                   (if ok then DeepSeekAssistantApp.installed_message
                    else DeepSeekAssistantApp.install_failed_message))] /\
    wire (world_after out) =
      wire empty_world
        ++ [OllamaClient.pull_request OllamaClient.default
                                      (OllamaClient.model OllamaClient.default)] /\
    DeepSeekAssistantApp.chat_history (self_after out) = DeepSeekAssistantApp.chat_history s.
Proof.
  apply (@install_reports_the_pull
           (serves (stream_reply [status_line "pulling manifest"; status_line "success"]))
           at_0915 at_0916 (app_with_input true "") empty_world).
  reflexivity.
Defined.

(** X29.  [send_message] builds the bubble of the user's message before it
    stores the message: when the constructor of [MessageBubble] raises,
    the handler ends with that exception and nothing has happened: no
    entry in the history, no bubble, no thread, and the text is still in
    the input field. *)
Theorem send_message_stops_when_bubble_fails
        (init : pystr -> bool -> pystr -> option exc) (now : Helpers.datetime)
        (s : ChatScreen.t) (w : world) (e : exc) :
  strip (ChatScreen.text_input s) <> [] ->
  init (strip (ChatScreen.text_input s)) true (Helpers.format_timestamp now) = Some e ->
  ChatScreen.send_message init now s w = (inl e, s, w).
Proof.
  intros Hm He. unfold ChatScreen.send_message.
  unfold bind at 1. unfold get_self at 1.
  destruct (strip (ChatScreen.text_input s)) as [|c m]; [contradiction|].
  unfold bind at 1. unfold ChatScreen.add_message. cbv zeta.
  unfold bind at 1. unfold ChatScreen.MessageBubble. now rewrite He.
Qed.

Lemma send_message_stops_when_bubble_fails_witness :
  ChatScreen.send_message bubble_init_raises at_0915 (screen_with_input "Hello") empty_world
  = (inl no_texture_size, screen_with_input "Hello", empty_world).
Proof.
  apply (@send_message_stops_when_bubble_fails
           bubble_init_raises at_0915 (screen_with_input "Hello") empty_world
           no_texture_size).
  - vm_compute. discriminate.
  - reflexivity.
Defined.
